(** * vibe-check: context selection, response validation and report assembly

    A shallow embedding of the core of the vibe-check scanner:
    - [Js], [NodePath], [Fs], [Model]
                        the built-ins, the [path] and [fs] modules of Node and
                        the remote model, as far as the program uses them;
    - [Errors]          the error classes and [ErrorHandler.tryAsync] (core/errors.ts);
    - [Reporter]        [Reporter.generateReport] (core/reporter.ts);
    - [ContextManager]  discovery, context building and condensation
                        (core/context-manager.ts);
    - [FileScanner]     the stand-alone directory scanner (core/file-scanner.ts);
    - [CodeAnalyzer]    [CodeAnalyzer.analyzeCodebase] (core/code-analyzer.ts);
    - [InsightGenerator], [LegacyInsightGenerator]
                        the two versions of [generateInsights];
    - [Cli]             the scan pipeline (cli.ts);
    - [JsString]        further string and array built-ins;
    - [FileAnalysis]    the analysis of one file and the line checks
                        (core/code-analyzer.ts);
    - [HtmlFormatter]   escaping, risk level and the sections of the HTML
                        report (core/html-formatter.ts);
    - [ReportLayout]    [stripAnsi] and [wrapText] (core/reporter.ts);
    - [ErrorHandler], [ScanCommand]
                        the report of a failed scan (core/errors.ts, cli.ts);
    - [ConfigManager]   the configuration manager (config/config.ts);
    - [Spec], [Demo], [Measures], [Samples], [Markup], [Wrapping]
                        the notions the properties are stated with, and
                        concrete hosts for examples.

    JavaScript strings are modelled by [string], arrays by [list], the
    length of an array and other counts by [nat], the length of a string
    and other integral numbers by [Z].
    Exceptions and the console are modelled by the monad [IO]. *)

From Stdlib Require Import String Ascii List Bool Arith ZArith Lia.
From Stdlib Require Import Permutation Sorted DecimalString.
Import ListNotations.

#[local] Set Warnings "-register-all,-notation-for-abbreviation".

Local Open Scope string_scope.
Local Open Scope list_scope.
Local Open Scope nat_scope.

(* ===================================================================== *)
(** ** JavaScript built-ins used by the program *)
(* ===================================================================== *)

Module Js.

(** The double-quote character (the prompts of the program contain it). *)
Definition dquote : string := String (ascii_of_nat 34) EmptyString.

(** The line feed, ['\n']. *)
Definition LF : ascii := ascii_of_nat 10.
Definition nl : string := String LF EmptyString.

(** Template-literal rendering of an array length, [`${n}`]. *)
Definition showNat (n : nat) : string := NilEmpty.string_of_uint (Nat.to_uint n).

(** Template-literal rendering of an integral number. *)
Definition showZ (z : Z) : string := NilZero.string_of_int (Z.to_int z).

(** [s.length]. *)
Definition length (s : string) : Z := Z.of_nat (String.length s).

(** [String.prototype.toLowerCase], on the ASCII letters. *)
Definition lowerAscii (c : ascii) : ascii :=
  let n := nat_of_ascii c in
  if ((65 <=? n) && (n <=? 90))%nat then ascii_of_nat (n + 32) else c.

Fixpoint toLowerCase (s : string) : string :=
  match s with
  | EmptyString => EmptyString
  | String c s' => String (lowerAscii c) (toLowerCase s')
  end.

(** [String.prototype.startsWith]. *)
Definition startsWith (s p : string) : bool := String.prefix p s.

(** [String.prototype.endsWith]. *)
Definition endsWith (s p : string) : bool :=
  let n := String.length s in
  let m := String.length p in
  (m <=? n)%nat && String.eqb (String.substring (n - m) m s) p.

(** [Array.prototype.includes] on an array of strings. *)
Definition includes (l : list string) (x : string) : bool :=
  existsb (String.eqb x) l.

(** [Array.prototype.join]. *)
Definition join (sep : string) (l : list string) : string := String.concat sep l.

(** [s.split('\n').length]: one more than the number of line feeds. *)
Fixpoint countLF (s : string) : nat :=
  match s with
  | EmptyString => 0
  | String c s' => (if Ascii.eqb c LF then 1 else 0) + countLF s'
  end.

Definition splitLinesLength (s : string) : nat := S (countLF s).

(** [Array.prototype.slice(0, end)] for an integral [end]: a negative [end]
    counts from the end of the array, and the bound is clamped to the
    array. *)
Definition slice0 {A} (l : list A) (e : Z) : list A :=
  let len := Z.of_nat (List.length l) in
  let final := if (e <? 0)%Z then Z.max (len + e) 0 else Z.min e len in
  firstn (Z.to_nat final) l.

(** [Array.prototype.sort(compare)].  ECMAScript requires the sort to be
    stable, so for a consistent comparator the result is the one stable
    ordering of the array; it is computed here by stable insertion.  An
    element moves in front of another one only when the comparator says
    it is strictly smaller. *)
Section Sort.
Context {A : Type} (compare : A -> A -> Z).

Fixpoint insert (x : A) (l : list A) : list A :=
  match l with
  | [] => [x]
  | y :: l' => if (compare x y <=? 0)%Z then x :: y :: l' else y :: insert x l'
  end.

Definition sort (l : list A) : list A := fold_right insert [] l.
End Sort.

End Js.

(* ===================================================================== *)
(** ** core/errors.ts *)
(* ===================================================================== *)

Module Errors.

(** The error classes.  [PlainError] stands for [Error] itself and for the
    error classes of the libraries (file system, HTTP client). *)
Inductive Error : Type :=
| PlainError (message : string)
| ConfigurationError (message : string)
| AIAnalysisError (message : string) (cause : option Error)
| FileProcessingError (message : string) (filePath : option string)
| ContextBuildError (message : string) (directory : option string)
| InsightGenerationError (message : string) (cause : option Error)
| ValidationError (message : string).

Definition message (e : Error) : string :=
  match e with
  | PlainError m | ConfigurationError m | AIAnalysisError m _
  | FileProcessingError m _ | ContextBuildError m _
  | InsightGenerationError m _ | ValidationError m => m
  end.

(** What a [catch] clause receives: an [Error] object ([error instanceof
    Error]) or some other value, kept as [String(error)]. *)
Inductive Thrown : Type :=
| ThrownError (e : Error)
| ThrownValue (shown : string).

Inductive Result (A : Type) : Type :=
| Ok (a : A)
| Throw (t : Thrown).
Arguments Ok {A} a.
Arguments Throw {A} t.

(** A computation: its outcome, and the lines it wrote to the console. *)
Definition IO (A : Type) : Type := (Result A * list string)%type.

Definition ret {A} (a : A) : IO A := (Ok a, []).
Definition throw {A} (e : Error) : IO A := (Throw (ThrownError e), []).
Definition warn (line : string) : IO unit := (Ok tt, [line]).
Definition log (line : string) : IO unit := (Ok tt, [line]).

(** An external call (file system, remote model): it returns or rejects,
    and writes nothing. *)
Definition call {A} (r : Thrown + A) : IO A :=
  match r with
  | inl t => (Throw t, [])
  | inr a => (Ok a, [])
  end.

Definition bind {A B} (m : IO A) (k : A -> IO B) : IO B :=
  match m with
  | (Ok a, out) => let (r, out') := k a in (r, out ++ out')
  | (Throw t, out) => (Throw t, out)
  end.

(** [try { m } catch (error) { handler error }]. *)
Definition tryCatch {A} (m : IO A) (handler : Thrown -> IO A) : IO A :=
  match m with
  | (Ok a, out) => (Ok a, out)
  | (Throw t, out) => let (r, out') := handler t in (r, out ++ out')
  end.

Definition outcome {A} (m : IO A) : Result A := fst m.
Definition console {A} (m : IO A) : list string := snd m.

(** A constructor of an error class taking [(message, cause?)]. *)
Definition ErrorClass : Type := string -> option Error -> Error.

(** [ErrorHandler.tryAsync]. *)
Definition tryAsync {A} (operation : IO A) (errorMessage : string)
           (EC : ErrorClass) : IO A :=
  tryCatch operation (fun error =>
    match error with
    | ThrownError e => throw (EC errorMessage (Some e))
    | ThrownValue shown => throw (EC (errorMessage ++ ": " ++ shown)%string None)
    end).

End Errors.

Import Errors.

Declare Scope io_scope.
Delimit Scope io_scope with io.
Notation "x <- m ;; k" := (bind m (fun x => k))
  (at level 61, m at next level, right associativity) : io_scope.
Notation "m ;;; k" := (bind m (fun _ => k))
  (at level 61, right associativity) : io_scope.
Local Open Scope io_scope.

(* ===================================================================== *)
(** ** types.ts *)
(* ===================================================================== *)

Inductive Severity : Type := High | Medium | Low.

Definition Severity_eq_dec (a b : Severity) : {a = b} + {a <> b}.
Proof. decide equality. Defined.

(** The string a severity is at run time. *)
Definition severityString (s : Severity) : string :=
  match s with
  | High => "high"
  | Medium => "medium"
  | Low => "low"
  end.

Record Vulnerability : Type := mkVulnerability {
  severity : Severity;
  file : string;
  line : Z;
  description : string;
  recommendation : string
}.

Record ReportSummary : Type := mkReportSummary {
  total : nat;
  high : nat;
  medium : nat;
  low : nat
}.

Record VulnerabilityReport : Type := mkVulnerabilityReport {
  vulnerabilities : list Vulnerability;
  summary : ReportSummary;
  insights : list string
}.

(* ===================================================================== *)
(** ** core/reporter.ts *)
(* ===================================================================== *)

Module Reporter.

(** [v => v.severity === s]. *)
Definition severityIs (s : string) (v : Vulnerability) : bool :=
  String.eqb (severityString (severity v)) s.

(** [Reporter.generateReport]; both versions of the reporter have this
    same body. *)
Definition generateReport (vulns : list Vulnerability) (ins : list string)
  : VulnerabilityReport :=
  let summary :=
    {| total := length vulns;
       high := length (filter (severityIs "high") vulns);
       medium := length (filter (severityIs "medium") vulns);
       low := length (filter (severityIs "low") vulns) |} in
  {| vulnerabilities := vulns; summary := summary; insights := ins |}.

End Reporter.

(* ===================================================================== *)
(** ** The host: Node's [path] and [fs] modules *)
(* ===================================================================== *)

Module NodePath.

Definition isSlash (c : ascii) : bool := Ascii.eqb c "/"%char.
Definition isDot (c : ascii) : bool := Ascii.eqb c "."%char.

Fixpoint takeWhile (p : ascii -> bool) (l : list ascii) : list ascii :=
  match l with
  | [] => []
  | c :: l' => if p c then c :: takeWhile p l' else []
  end.

Fixpoint dropWhile (p : ascii -> bool) (l : list ascii) : list ascii :=
  match l with
  | [] => []
  | c :: l' => if p c then dropWhile p l' else l
  end.

(** The last component of a path, trailing separators ignored, read from
    its end (so: reversed). *)
Definition lastComponentRev (p : string) : list ascii :=
  takeWhile (fun c => negb (isSlash c))
            (dropWhile isSlash (rev (list_ascii_of_string p))).

(** The extension of a component given reversed: from its last dot on,
    and empty when there is no dot, when the only dot is the first
    character, or when the component is [..]. *)
Definition extOfRev (r : list ascii) : list ascii :=
  match dropWhile (fun c => negb (isDot c)) r with
  | [] => []
  | d :: before =>
      match before with
      | [] => []
      | _ :: _ =>
          match r with
          | [d1; d2] => if isDot d1 && isDot d2 then []
                        else d :: rev (takeWhile (fun c => negb (isDot c)) r)
          | _ => d :: rev (takeWhile (fun c => negb (isDot c)) r)
          end
      end
  end.

(** [path.extname] (POSIX flavour). *)
Definition extname (p : string) : string :=
  string_of_list_ascii (extOfRev (lastComponentRev p)).

(** A name that [fs.readdir] can return for an entry: not empty, without
    a separator, and neither [.] nor [..]. *)
Definition entryName (n : string) : bool :=
  negb (String.eqb n "") && negb (String.eqb n ".") && negb (String.eqb n "..")
  && forallb (fun c => negb (isSlash c)) (list_ascii_of_string n).

End NodePath.

Module Fs.

(** A directory entry as [fs.readdir(dir, { withFileTypes: true })] gives
    it, together with what a later [readdir] of it gives when it is a
    directory: the entries, or a rejection.  [OtherEntry] is an entry for
    which both [isDirectory()] and [isFile()] are false (symbolic link,
    socket, device). *)
Inductive Dirent : Type :=
| FileEntry (name : string)
| DirEntry (name : string) (listing : Thrown + list Dirent)
| OtherEntry (name : string).

(** What [fs.readdir] gives at a directory path. *)
Definition Listing : Type := (Thrown + list Dirent)%type.

Definition name (e : Dirent) : string :=
  match e with
  | FileEntry n | DirEntry n _ | OtherEntry n => n
  end.

(** The loop of the function [scan] that both [ContextManager.scanDirectory]
    and [FileScanner.scanDirectory] declare; the two texts differ only in
    the class whose [IGNORED_DIRS] and [isSupportedFile] they name.
    [files] is the array the closure pushes to. *)
Section Scan.
Variable path_join : string -> string -> string.
Variable IGNORED_DIRS : list string.
Variable isSupportedFile : string -> bool.

(** One iteration of [for (const entry of entries)]. *)
Fixpoint scanEntry (currentDir : string) (entry : Dirent)
         (files : list string) {struct entry} : IO (list string) :=
  match entry with
  | DirEntry name listing =>
      let fullPath := path_join currentDir name in
      if negb (Js.startsWith name ".") && negb (Js.includes IGNORED_DIRS name)
      then
        match listing with
        | inl t => (Throw t, [])
        | inr entries =>
            (fix loop (es : list Dirent) (files : list string)
               : IO (list string) :=
               match es with
               | [] => ret files
               | e :: es' =>
                   files' <- scanEntry fullPath e files ;; loop es' files'
               end) entries files
        end
      else ret files
  | FileEntry name =>
      let fullPath := path_join currentDir name in
      if isSupportedFile name then ret (files ++ [fullPath]) else ret files
  | OtherEntry _ => ret files
  end.

Fixpoint scanEntries (currentDir : string) (entries : list Dirent)
         (files : list string) : IO (list string) :=
  match entries with
  | [] => ret files
  | e :: es' =>
      files' <- scanEntry currentDir e files ;; scanEntries currentDir es' files'
  end.

(** [scan(currentDir)]: [readdir], then the loop. *)
Definition scan (currentDir : string) (listing : Listing)
           (files : list string) : IO (list string) :=
  entries <- call listing ;; scanEntries currentDir entries files.

(** [scanDirectory(dir)]. *)
Definition scanDirectory (dir : string) (listing : Listing)
  : IO (list string) :=
  scan dir listing [].
End Scan.

End Fs.

(* ===================================================================== *)
(** ** core/file-scanner.ts *)
(* ===================================================================== *)

Module FileScanner.

Definition SUPPORTED_EXTENSIONS : list string := [".js"; ".ts"; ".py"].

Definition IGNORED_DIRS : list string :=
  ["node_modules"; ".git"; ".vscode"; "dist"; "build"].

Definition isSupportedFile (filename : string) : bool :=
  existsb (fun ext => Js.endsWith filename ext) SUPPORTED_EXTENSIONS.

Definition scanDirectory (path_join : string -> string -> string)
           (dir : string) (listing : Fs.Listing) : IO (list string) :=
  Fs.scanDirectory path_join IGNORED_DIRS isSupportedFile dir listing.

End FileScanner.

(* ===================================================================== *)
(** ** core/context-manager.ts *)
(* ===================================================================== *)

Module ContextManager.

Record FileContext : Type := mkFileContext {
  path : string;
  content : string;
  language : string;
  size : Z
}.

(** [languages] is a JavaScript object used as a map; its keys are kept in
    the order in which they were first assigned, the order in which
    [Object.entries] lists them. *)
Record ContextSummary : Type := mkContextSummary {
  totalFiles : nat;
  totalLines : nat;
  languages : list (string * nat);
  largestFile : string;
  averageFileSize : Z
}.

Record CodebaseContext : Type := mkCodebaseContext {
  files : list FileContext;
  summary : ContextSummary
}.

Definition SUPPORTED_EXTENSIONS : list (string * string) :=
  [ (".js", "javascript"); (".ts", "typescript"); (".jsx", "javascript");
    (".tsx", "typescript"); (".py", "python"); (".java", "java");
    (".cpp", "cpp"); (".c", "c"); (".cs", "csharp"); (".php", "php");
    (".rb", "ruby"); (".go", "go"); (".rs", "rust"); (".swift", "swift");
    (".kt", "kotlin"); (".scala", "scala"); (".sh", "bash"); (".sql", "sql");
    (".html", "html"); (".css", "css"); (".scss", "scss"); (".json", "json");
    (".yaml", "yaml"); (".yml", "yaml"); (".xml", "xml"); (".md", "markdown") ].

Definition IGNORED_DIRS : list string :=
  [ "node_modules"; ".git"; ".vscode"; ".idea";
    "dist"; "build"; "target"; "__pycache__";
    ".next"; ".nuxt"; "coverage"; ".nyc_output" ].

Definition MAX_FILE_SIZE : Z := 100 * 1024.

(** Property access [obj[key]] on an object used as a map: the value of
    the own property, if there is one.  (An extension is empty or starts
    with a dot and a language tag is a value of the table above, so no
    key used here names a member of [Object.prototype].) *)
Fixpoint getProperty {V} (obj : list (string * V)) (key : string) : option V :=
  match obj with
  | [] => None
  | (k, v) :: obj' => if String.eqb k key then Some v else getProperty obj' key
  end.

(** Assignment [obj[key] = v]: an existing property keeps its place, a new
    one goes last. *)
Fixpoint setProperty {V} (obj : list (string * V)) (key : string) (v : V)
  : list (string * V) :=
  match obj with
  | [] => [(key, v)]
  | (k, w) :: obj' =>
      if String.eqb k key then (k, v) :: obj'
      else (k, w) :: setProperty obj' key v
  end.

(** [key in obj]. *)
Definition hasProperty {V} (obj : list (string * V)) (key : string) : bool :=
  match getProperty obj key with Some _ => true | None => false end.

Definition isSupportedFile (filename : string) : bool :=
  let ext := Js.toLowerCase (NodePath.extname filename) in
  hasProperty SUPPORTED_EXTENSIONS ext.

(** The values of the table are non-empty strings, so [||] yields
    ['text'] exactly when the key is missing. *)
Definition getLanguage (filePath : string) : string :=
  let ext := Js.toLowerCase (NodePath.extname filePath) in
  match getProperty SUPPORTED_EXTENSIONS ext with
  | Some lang => lang
  | None => "text"
  end.

(** The variables of the loop of [generateSummary]. *)
Record SummaryLoop : Type := mkSummaryLoop {
  loopLanguages : list (string * nat);
  loopTotalLines : nat;
  loopLargestFile : string;
  loopLargestSize : Z
}.

Definition summaryStep (st : SummaryLoop) (file : FileContext) : SummaryLoop :=
  let languages :=
    setProperty (loopLanguages st) (language file)
      (match getProperty (loopLanguages st) (language file) with
       | Some n => n
       | None => 0
       end + 1) in
  let lines := Js.splitLinesLength (content file) in
  let totalLines := loopTotalLines st + lines in
  if (loopLargestSize st <? size file)%Z
  then mkSummaryLoop languages totalLines (path file) (size file)
  else mkSummaryLoop languages totalLines (loopLargestFile st) (loopLargestSize st).

(** [Math.round(sum / n)] for integers [sum] and [n > 0]: the quotient
    rounded to the nearest integer, halves upwards. *)
Definition roundDiv (sum n : Z) : Z := ((2 * sum + n) / (2 * n))%Z.

Definition generateSummary (files : list FileContext) : ContextSummary :=
  let st := fold_left summaryStep files (mkSummaryLoop [] 0 "" 0%Z) in
  {| totalFiles := length files;
     totalLines := loopTotalLines st;
     languages := loopLanguages st;
     largestFile := loopLargestFile st;
     averageFileSize :=
       if 0 <? length files
       then roundDiv (fold_left (fun sum f => sum + size f)%Z files 0%Z)
                     (Z.of_nat (length files))
       else 0%Z |}.

(** The comparator of [getCondensedContext]. *)
Definition isMainLang (f : FileContext) : bool :=
  Js.includes ["typescript"; "javascript"] (language f).

Definition byImportance (a b : FileContext) : Z :=
  let aIsMainLang := isMainLang a in
  let bIsMainLang := isMainLang b in
  if aIsMainLang && negb bIsMainLang then (-1)%Z
  else if negb aIsMainLang && bIsMainLang then 1%Z
  else (size b - size a)%Z.

(** The body of [getCondensedContext] after the context is built.
    [Array.prototype.sort] sorts [fullContext.files] in place and returns
    that same array, so the object passed in is changed: the first
    component is the context object as the call leaves it, the second is
    the context returned. *)
Definition condense (fullContext : CodebaseContext) (maxFiles : Z)
  : CodebaseContext * CodebaseContext :=
  let sortedFiles := Js.sort byImportance (files fullContext) in
  let condensedFiles := Js.slice0 sortedFiles maxFiles in
  ({| files := sortedFiles; summary := summary fullContext |},
   {| files := condensedFiles; summary := generateSummary condensedFiles |}).

Definition formatForAI (context : CodebaseContext) : string :=
  let header :=
    ("# Codebase Analysis Context" ++ Js.nl ++ Js.nl
     ++ "## Summary" ++ Js.nl
     ++ "- Total files: " ++ Js.showNat (totalFiles (summary context)) ++ Js.nl
     ++ "- Total lines: " ++ Js.showNat (totalLines (summary context)) ++ Js.nl
     ++ "- Languages: "
     ++ Js.join ", "
          (map (fun '(lang, count) => lang ++ " (" ++ Js.showNat count ++ ")")
               (languages (summary context)))
     ++ Js.nl ++ Js.nl
     ++ "## File Contents" ++ Js.nl ++ Js.nl)%string in
  fold_left
    (fun formatted file =>
       (formatted
        ++ "### " ++ path file ++ " (" ++ language file ++ ")" ++ Js.nl
        ++ "```" ++ language file ++ Js.nl
        ++ content file
        ++ Js.nl ++ "```" ++ Js.nl ++ Js.nl)%string)
    (files context) header.

Section Host.
(** [path.join], [path.relative] and [fs.readFile(_, 'utf-8')]. *)
Variable path_join : string -> string -> string.
Variable path_relative : string -> string -> string.
Variable readFile : string -> Thrown + string.

Definition scanDirectory (dir : string) (listing : Fs.Listing)
  : IO (list string) :=
  Fs.scanDirectory path_join IGNORED_DIRS isSupportedFile dir listing.

(** One iteration of the read loop of [buildContext]. *)
Definition readStep (rootDir : string) (fileContexts : list FileContext)
           (filePath : string) : IO (list FileContext) :=
  tryCatch
    (content <- call (readFile filePath) ;;
     let language := getLanguage filePath in
     if (MAX_FILE_SIZE <? Js.length content)%Z
     then ret fileContexts
     else ret (fileContexts ++
               [ {| path := path_relative rootDir filePath;
                    content := content;
                    language := language;
                    size := Js.length content |} ]))
    (fun error =>
       match error with
       | ThrownError e =>
           warn ("Warning: Could not read file " ++ filePath ++ ": "
                 ++ message e)%string
       | ThrownValue _ => ret tt
       end ;;;
       ret fileContexts).

Fixpoint readFiles (rootDir : string) (files : list string)
         (fileContexts : list FileContext) : IO (list FileContext) :=
  match files with
  | [] => ret fileContexts
  | filePath :: files' =>
      fileContexts' <- readStep rootDir fileContexts filePath ;;
      readFiles rootDir files' fileContexts'
  end.

(** [buildContext(rootDir)], run where [fs.readdir] gives [root] at
    [rootDir].  The argument is typed [string], which leaves the empty
    string as the one falsy value. *)
Definition buildContext (rootDir : string) (root : Fs.Listing)
  : IO CodebaseContext :=
  if String.eqb rootDir ""
  then throw (ContextBuildError
                "Root directory path is required and must be a string" None)
  else
    files <- tryCatch (scanDirectory rootDir root)
               (fun _ => throw (ContextBuildError
                                  ("Failed to scan directory: " ++ rootDir)%string
                                  (Some rootDir))) ;;
    if length files =? 0
    then throw (ContextBuildError
                  ("No supported files found in directory: " ++ rootDir)%string
                  None)
    else
      fileContexts <- readFiles rootDir files [] ;;
      if length fileContexts =? 0
      then throw (ContextBuildError
             "No readable files found or all files exceed maximum size limit"
             None)
      else ret {| files := fileContexts;
                  summary := generateSummary fileContexts |}.

(** [getCondensedContext(rootDir, maxFiles = 20)]. *)
Definition getCondensedContext (rootDir : string) (root : Fs.Listing)
           (maxFiles : option Z) : IO CodebaseContext :=
  let maxFiles := match maxFiles with Some n => n | None => 20%Z end in
  fullContext <- buildContext rootDir root ;;
  ret (snd (condense fullContext maxFiles)).
End Host.

End ContextManager.

(* ===================================================================== *)
(** ** The remote model *)
(* ===================================================================== *)

Module Model.

Record Config : Type := mkConfig {
  apiKey : string;
  model : string
}.

(** A value that [Array.isArray] accepts, or any other value (a missing
    field included). *)
Inductive MaybeArray (A : Type) : Type :=
| NotAnArray
| AnArray (items : list A).
Arguments NotAnArray {A}.
Arguments AnArray {A} items.

(** What [generateObject] resolves to; [object] is [None] when the field
    is missing or falsy. *)
Record Generated (O : Type) : Type := mkGenerated {
  object : option O
}.
Arguments mkGenerated {O} object.
Arguments object {O} g.

Record RiskAssessment : Type := mkRiskAssessment {
  overallRisk : Severity;
  priorityAreas : option (list string)
}.

End Model.

(* ===================================================================== *)
(** ** core/code-analyzer.ts *)
(* ===================================================================== *)

Module CodeAnalyzer.
Import Model.

(** The [summary] object of [SecurityAnalysisSchema]. *)
Record AnalysisSummary : Type := mkAnalysisSummary {
  totalIssues : Z;
  criticalFindings : list string;
  overallRisk : Severity
}.

(** The object of a response to the analysis request, as the validation
    code looks at it. *)
Record AnalysisObject : Type := mkAnalysisObject {
  vulnerabilities : MaybeArray Vulnerability;
  summary : option AnalysisSummary
}.

Definition promptIntro : string :=
  "You are a senior security engineer conducting a comprehensive security audit of a codebase.".

Definition promptInstructions : string :=
  let q := Js.dquote in
  Js.join Js.nl
    [ "Analyze this codebase for security vulnerabilities and provide a structured response with:";
      "";
      "1. **vulnerabilities**: Array of specific security issues found, each with:";
      ("   - severity: " ++ q ++ "high" ++ q ++ ", " ++ q ++ "medium" ++ q
       ++ ", or " ++ q ++ "low" ++ q ++ " ")%string;
      "   - file: relative path to the file";
      "   - line: line number where issue occurs";
      "   - description: clear explanation of the vulnerability";
      "   - recommendation: specific fix for the issue";
      "";
      "2. **summary**: Overall assessment with:";
      "   - totalIssues: total number of vulnerabilities found";
      "   - criticalFindings: array of most critical security findings";
      ("   - overallRisk: " ++ q ++ "low" ++ q ++ ", " ++ q ++ "medium" ++ q
       ++ ", or " ++ q ++ "high" ++ q ++ " risk level")%string;
      "";
      "Focus on these security areas:";
      "- **Authentication & Authorization**: Weak auth, missing access controls, privilege escalation";
      "- **Input Validation**: SQL injection, XSS, command injection, path traversal";
      "- **Cryptography**: Weak encryption, hardcoded keys, insecure random generation";
      "- **Configuration**: Exposed secrets, debug mode, insecure defaults";
      "- **Dependencies**: Known vulnerable packages, outdated libraries";
      "- **Business Logic**: Race conditions, improper error handling, information disclosure";
      "- **Infrastructure**: Insecure network configs, missing security headers";
      "";
      "Be thorough but practical. Only report real security issues, not style preferences. ";
      "Provide specific line numbers where possible and actionable recommendations." ].

Definition buildStructuredAnalysisPrompt
           (context : ContextManager.CodebaseContext) : string :=
  let contextPrompt := ContextManager.formatForAI context in
  (promptIntro ++ Js.nl ++ Js.nl
   ++ contextPrompt ++ Js.nl ++ Js.nl
   ++ promptInstructions)%string.

Section Host.
Variable path_join : string -> string -> string.
Variable path_relative : string -> string -> string.
Variable readFile : string -> Thrown + string.
(** [generateObject] with [SecurityAnalysisSchema], as a function of the
    configuration and of the prompt. *)
Variable generateObject : Config -> string -> Thrown + Generated AnalysisObject.

Definition analyzeCodebase (config : Config) (rootDir : string)
           (root : Fs.Listing) : IO (list Vulnerability) :=
  if String.eqb rootDir ""
  then throw (ValidationError
                "Root directory path is required and must be a string")
  else if String.eqb (apiKey config) ""
  then throw (ValidationError "API key is required for AI analysis")
  else if String.eqb (model config) ""
  then throw (ValidationError "Model configuration is required for AI analysis")
  else
    context <- tryAsync
                 (ContextManager.getCondensedContext
                    path_join path_relative readFile rootDir root (Some 15%Z))
                 "Failed to build codebase context for AI analysis"
                 AIAnalysisError ;;
    if length (ContextManager.files context) =? 0
    then throw (AIAnalysisError
                  "No supported files found in the specified directory" None)
    else
      result <- tryAsync
                  (call (generateObject config
                           (buildStructuredAnalysisPrompt context)))
                  "AI analysis request failed"
                  AIAnalysisError ;;
      match object result with
      | None =>
          throw (AIAnalysisError "Invalid response format from AI analysis" None)
      | Some obj =>
          match vulnerabilities obj with
          | NotAnArray =>
              throw (AIAnalysisError
                       "Invalid response format from AI analysis" None)
          | AnArray vulns => ret vulns
          end
      end.
End Host.

End CodeAnalyzer.

(* ===================================================================== *)
(** ** core/insight-generator.ts *)
(* ===================================================================== *)

(** What the two versions of the insight generator share. *)
Module InsightPrompt.

Definition severityUpper (s : Severity) : string :=
  match s with
  | High => "HIGH"
  | Medium => "MEDIUM"
  | Low => "LOW"
  end.

(** The head of [buildInsightPrompt], up to the list of samples: the
    counts, and the first ten vulnerabilities in the order given. *)
Definition scanResults (lowTail : string) (vulns : list Vulnerability) : string :=
  let vulnCount := length vulns in
  let highCount := length (filter (Reporter.severityIs "high") vulns) in
  let mediumCount := length (filter (Reporter.severityIs "medium") vulns) in
  let lowCount := length (filter (Reporter.severityIs "low") vulns) in
  let vulnSummary :=
    Js.join Js.nl
      (map (fun v =>
              ("- " ++ severityUpper (severity v) ++ ": " ++ description v
               ++ " (" ++ file v ++ ":" ++ Js.showZ (line v) ++ ")")%string)
           (firstn 10 vulns)) in
  Js.join Js.nl
    [ "";
      "Security Scan Results:";
      ("- Total vulnerabilities found: " ++ Js.showNat vulnCount)%string;
      ("- High severity: " ++ Js.showNat highCount)%string;
      ("- Medium severity: " ++ Js.showNat mediumCount ++ lowTail)%string;
      ("- Low severity: " ++ Js.showNat lowCount)%string;
      "";
      "Sample vulnerabilities:";
      vulnSummary;
      "" ].

End InsightPrompt.

(** The version that asks for one paragraph. *)
Module InsightGenerator.
Import Model.

(** The object of a response, as the validation code looks at it;
    [analysis] is [None] when the field is missing. *)
Record CohesiveInsights : Type := mkCohesiveInsights {
  analysis : option string;
  riskAssessment : option RiskAssessment
}.

Definition buildInsightPrompt (vulns : list Vulnerability) : string :=
  ("You are a senior security consultant writing a professional security analysis report."
   ++ Js.nl ++ InsightPrompt.scanResults "" vulns ++ Js.nl
   ++ Js.join Js.nl
        [ "Based on this security analysis, write a cohesive, professional paragraph that provides:";
          "";
          "1. **Overall Assessment**: A comprehensive evaluation of the codebase's security posture";
          "2. **Key Insights**: Main observations about security patterns and trends";
          "3. **Strategic Recommendations**: High-level actionable guidance for improvement";
          "4. **Business Context**: Consider the impact on security and maintainability";
          "";
          "Write this as a single, well-structured paragraph suitable for inclusion in a professional security report. Use formal language, proper transitions, and focus on the big picture rather than individual vulnerabilities.";
          "";
          "The paragraph should be comprehensive but concise, reading naturally as expert analysis." ])%string.

Section Host.
(** [generateObject] with [CohesiveInsightsSchema]. *)
Variable generateObject : Config -> string -> Thrown + Generated CohesiveInsights.

Definition generateInsights (config : Config)
           (vulnerabilities : MaybeArray Vulnerability) : IO (list string) :=
  match vulnerabilities with
  | NotAnArray =>
      throw (ValidationError "Vulnerabilities must be provided as an array")
  | AnArray vulns =>
      if String.eqb (apiKey config) ""
      then throw (ValidationError "API key is required for insight generation")
      else if String.eqb (model config) ""
      then throw (ValidationError
                    "Model configuration is required for insight generation")
      else
        let prompt := buildInsightPrompt vulns in
        result <- tryAsync (call (generateObject config prompt))
                    "Failed to generate AI insights"
                    InsightGenerationError ;;
        match object result with
        | None =>
            throw (InsightGenerationError
                     "Invalid response format from AI insight generation" None)
        | Some obj =>
            match analysis obj with
            | None =>
                throw (InsightGenerationError
                         "AI response missing analysis paragraph" None)
            | Some paragraph =>
                if String.eqb paragraph ""
                then throw (InsightGenerationError
                              "AI response missing analysis paragraph" None)
                else
                  match riskAssessment obj with
                  | None =>
                      throw (InsightGenerationError
                               "AI response missing risk assessment" None)
                  | Some _ => ret [paragraph]
                  end
            end
        end
  end.
End Host.

End InsightGenerator.

(** The earlier version, which asks for lists of insights and of
    recommendations. *)
Module LegacyInsightGenerator.
Import Model.

Record Insights : Type := mkInsights {
  insights : MaybeArray string;
  recommendations : MaybeArray string;
  riskAssessment : option RiskAssessment
}.

Definition buildInsightPrompt (vulns : list Vulnerability) : string :=
  ("You are a senior security consultant analyzing a codebase security assessment."
   ++ Js.nl ++ InsightPrompt.scanResults "  " vulns ++ Js.nl
   ++ Js.join Js.nl
        [ "Based on this security analysis, provide:";
          "";
          "1. **Insights**: 3-5 key observations about the codebase's security posture";
          "2. **Recommendations**: 3-5 high-level actionable recommendations for improving security";
          "3. **Risk Assessment**: Overall risk level and priority areas that need immediate attention";
          "";
          "Focus on patterns, trends, and strategic security improvements rather than individual vulnerabilities.";
          "Consider the business impact and provide practical, prioritized guidance." ])%string.

Definition highRiskBanner : string :=
  "⚠️ HIGH RISK: This codebase has significant security concerns that need immediate attention.".

Section Host.
(** [generateObject] with [InsightsSchema]. *)
Variable generateObject : Config -> string -> Thrown + Generated Insights.

Definition generateInsights (config : Config)
           (vulnerabilities : MaybeArray Vulnerability) : IO (list string) :=
  match vulnerabilities with
  | NotAnArray =>
      throw (ValidationError "Vulnerabilities must be provided as an array")
  | AnArray vulns =>
      if String.eqb (apiKey config) ""
      then throw (ValidationError "API key is required for insight generation")
      else if String.eqb (model config) ""
      then throw (ValidationError
                    "Model configuration is required for insight generation")
      else
        let prompt := buildInsightPrompt vulns in
        result <- tryAsync (call (generateObject config prompt))
                    "Failed to generate AI insights"
                    InsightGenerationError ;;
        match object result with
        | None =>
            throw (InsightGenerationError
                     "Invalid response format from AI insight generation" None)
        | Some obj =>
            match insights obj, recommendations obj, riskAssessment obj with
            | NotAnArray, _, _ =>
                throw (InsightGenerationError
                         "AI response missing insights array" None)
            | AnArray _, NotAnArray, _ =>
                throw (InsightGenerationError
                         "AI response missing recommendations array" None)
            | AnArray _, AnArray _, None =>
                throw (InsightGenerationError
                         "AI response missing risk assessment" None)
            | AnArray ins, AnArray recs, Some risk =>
                let allInsights :=
                  ins ++ map (fun rec => ("Recommendation: " ++ rec)%string) recs in
                let allInsights :=
                  if String.eqb (severityString (Model.overallRisk risk)) "high"
                  then highRiskBanner :: allInsights
                  else allInsights in
                let allInsights :=
                  match priorityAreas risk with
                  | Some areas =>
                      if 0 <? length areas
                      then allInsights ++
                           [("Priority areas: " ++ Js.join ", " areas)%string]
                      else allInsights
                  | None => allInsights
                  end in
                if length allInsights =? 0
                then throw (InsightGenerationError
                       "AI generated empty insights - this may indicate a problem with the analysis"
                       None)
                else ret allInsights
            end
        end
  end.
End Host.

End LegacyInsightGenerator.

(* ===================================================================== *)
(** ** cli.ts: the scan pipeline *)
(* ===================================================================== *)

Module Cli.
Import Model.

Section Host.
Variable path_join : string -> string -> string.
Variable path_relative : string -> string -> string.
Variable readFile : string -> Thrown + string.
Variable generateAnalysis :
  Config -> string -> Thrown + Generated CodeAnalyzer.AnalysisObject.
Variable generateNarrative :
  Config -> string -> Thrown + Generated InsightGenerator.CohesiveInsights.
(** [configManager.getConfig()]. *)
Variable getConfig : option Config.

Definition scanDirectoryForVulnerabilities (dir : string) (root : Fs.Listing)
           (verbose : bool) : IO VulnerabilityReport :=
  match getConfig with
  | None =>
      throw (ConfigurationError
               ("No configuration found. Please run " ++ Js.dquote
                ++ "vibe-check config setup" ++ Js.dquote ++ " first.")%string)
  | Some config =>
      (if verbose then log "Analyzing codebase with AI..." else ret tt) ;;;
      vulnerabilities <- CodeAnalyzer.analyzeCodebase
                           path_join path_relative readFile generateAnalysis
                           config dir root ;;
      (if verbose then log "Generating AI insights..." else ret tt) ;;;
      insights <- InsightGenerator.generateInsights generateNarrative
                    config (AnArray vulnerabilities) ;;
      ret (Reporter.generateReport vulnerabilities insights)
  end.
End Host.

End Cli.

(* ===================================================================== *)
(** ** String built-ins of the line checks and of the formatters *)
(* ===================================================================== *)

Module JsString.

(** [String.prototype.includes]. *)
Fixpoint includes (s p : string) : bool :=
  String.prefix p s
  || match s with
     | EmptyString => false
     | String _ s' => includes s' p
     end.

(** [s.split(sep)] for a separator of one character: one more element
    than there are separators in [s]. *)
Fixpoint split (sep : ascii) (s : string) : list string :=
  match s with
  | EmptyString => [EmptyString]
  | String c s' =>
      if Ascii.eqb c sep then EmptyString :: split sep s'
      else match split sep s' with
           | [] => [String c EmptyString]
           | w :: ws => String c w :: ws
           end
  end.

(** [s.replace(/c/g, r)] for a pattern that matches the character [c]. *)
Fixpoint replaceAll (c : ascii) (r : string) (s : string) : string :=
  match s with
  | EmptyString => EmptyString
  | String x s' =>
      if Ascii.eqb x c then (r ++ replaceAll c r s')%string
      else String x (replaceAll c r s')
  end.

(** [array.forEach((x, index) => ...)] for a callback that updates a
    variable of the enclosing function; [index] is the index of the head
    of [l]. *)
Fixpoint forEach {A V : Type} (callback : V -> A -> nat -> V) (l : list A)
         (index : nat) (v : V) : V :=
  match l with
  | [] => v
  | x :: l' => forEach callback l' (S index) (callback v x index)
  end.

End JsString.

(* ===================================================================== *)
(** ** core/code-analyzer.ts: the analysis of one file *)
(* ===================================================================== *)

Module FileAnalysis.

Definition secretKeywords : list string :=
  ["password"; "secret"; "key"; "token"; "apikey"; "api_key"].

Definition hasHardcodedSecret (line : string) : bool :=
  let hasSecretKeyword :=
    existsb (fun keyword => JsString.includes (Js.toLowerCase line) keyword)
            secretKeywords in
  if negb hasSecretKeyword then false
  else JsString.includes line "="
       && (JsString.includes line Js.dquote || JsString.includes line "'").

Definition hasConsoleLog (line : string) : bool :=
  JsString.includes line "console.log" && negb (JsString.includes line "//").

Definition secretIssue (filePath : string) (lineNum : Z) : Vulnerability :=
  {| severity := High; file := filePath; line := lineNum;
     description := "Potential hardcoded secret detected";
     recommendation := "Use environment variables or secure credential storage" |}.

Definition evalIssue (filePath : string) (lineNum : Z) : Vulnerability :=
  {| severity := High; file := filePath; line := lineNum;
     description := "Use of eval() function detected";
     recommendation := "Avoid using eval() as it can execute malicious code" |}.

Definition innerHTMLIssue (filePath : string) (lineNum : Z) : Vulnerability :=
  {| severity := Medium; file := filePath; line := lineNum;
     description := "Use of innerHTML detected";
     recommendation := "Use textContent or createElement for safer DOM manipulation" |}.

Definition sqlIssue (filePath : string) (lineNum : Z) : Vulnerability :=
  {| severity := High; file := filePath; line := lineNum;
     description := "Potential SQL injection vulnerability";
     recommendation := "Use parameterized queries or prepared statements" |}.

Definition consoleLogIssue (filePath : string) (lineNum : Z) : Vulnerability :=
  {| severity := Low; file := filePath; line := lineNum;
     description := "console.log statement found";
     recommendation := "Remove or replace with proper logging" |}.

Section Host.
(** [sqlPatterns.some(pattern => pattern.test(line))]: whether one of the
    five regular expressions of [hasSQLInjectionRisk] matches in the line. *)
Variable sqlPattern : string -> bool.
(** [String.prototype.trim]. *)
Variable trim : string -> string.
Variable readFile : string -> Thrown + string.

Definition hasSQLInjectionRisk (line : string) : bool :=
  sqlPattern line
  && (JsString.includes (Js.toLowerCase line) "select"
      || JsString.includes (Js.toLowerCase line) "insert"
      || JsString.includes (Js.toLowerCase line) "update"
      || JsString.includes (Js.toLowerCase line) "delete").

(** The callback of [lines.forEach] in [basicContentAnalysis]; [issues] is
    the array it pushes to. *)
Definition checkLine (filePath : string) (issues : list Vulnerability)
           (line : string) (index : nat) : list Vulnerability :=
  let lineNum := (Z.of_nat index + 1)%Z in
  let issues :=
    if hasHardcodedSecret line
    then issues ++ [secretIssue filePath lineNum] else issues in
  let issues :=
    if JsString.includes line "eval("
    then issues ++ [evalIssue filePath lineNum] else issues in
  let issues :=
    if JsString.includes line "innerHTML"
    then issues ++ [innerHTMLIssue filePath lineNum] else issues in
  let issues :=
    if hasSQLInjectionRisk line
    then issues ++ [sqlIssue filePath lineNum] else issues in
  let issues :=
    if hasConsoleLog line
    then issues ++ [consoleLogIssue filePath lineNum] else issues in
  issues.

Definition basicContentAnalysis (content filePath : string)
  : list Vulnerability :=
  let lines := JsString.split Js.LF content in
  JsString.forEach (checkLine filePath) lines 0 [].

Definition basicFileAnalysis (filePath : string) : IO (list Vulnerability) :=
  content <- tryCatch (call (readFile filePath))
               (fun _ => throw (FileProcessingError
                                  ("Failed to read file: " ++ filePath)%string
                                  (Some filePath))) ;;
  ret (basicContentAnalysis content filePath).

Definition analyzeFile (filePath : string) : IO (list Vulnerability) :=
  if String.eqb filePath ""
  then throw (ValidationError "File path is required and must be a string")
  else
    tryCatch (basicFileAnalysis filePath)
      (fun error =>
         match error with
         | ThrownError _ =>
             throw (FileProcessingError
                      ("Failed to analyze file: " ++ filePath)%string
                      (Some filePath))
         | ThrownValue _ =>
             throw (FileProcessingError
                      ("Failed to analyze file: " ++ filePath)%string
                      (Some filePath))
         end).

(** The callbacks of [checkSpecificPattern]; [findings] is the array they
    push to. *)
Definition finding (label : string) (line : string) (index : nat) : string :=
  ("Line " ++ Js.showNat (index + 1) ++ ": " ++ label ++ " - " ++ trim line)%string.

Definition checkSpecificPattern (pattern code : string) : list string :=
  let lines := JsString.split Js.LF code in
  let lowered := Js.toLowerCase pattern in
  if String.eqb lowered "sql_injection" then
    JsString.forEach
      (fun findings line index =>
         if hasSQLInjectionRisk line
         then findings ++ [finding "Potential SQL injection risk" line index]
         else findings)
      lines 0 []
  else if String.eqb lowered "xss" then
    JsString.forEach
      (fun findings line index =>
         if JsString.includes line "innerHTML"
            || JsString.includes line "dangerouslySetInnerHTML"
         then findings ++ [finding "XSS risk with innerHTML" line index]
         else findings)
      lines 0 []
  else if String.eqb lowered "hardcoded_secrets" then
    JsString.forEach
      (fun findings line index =>
         if hasHardcodedSecret line
         then findings ++ [finding "Hardcoded secret detected" line index]
         else findings)
      lines 0 []
  else
    ["Pattern '" ++ pattern ++ "' not implemented"]%string.
End Host.

End FileAnalysis.

(* ===================================================================== *)
(** ** core/html-formatter.ts *)
(* ===================================================================== *)

Module HtmlFormatter.

(** [escapeHtml].  The object [div] is a plain object, so that the
    assignment to [textContent] leaves its [innerHTML] empty. *)
Definition escapeHtml (text : string) : string :=
  let innerHTML := "" in
  if negb (String.eqb innerHTML "") then innerHTML
  else
    JsString.replaceAll "'" "&#39;"
      (JsString.replaceAll (ascii_of_nat 34) "&quot;"
         (JsString.replaceAll ">" "&gt;"
            (JsString.replaceAll "<" "&lt;"
               (JsString.replaceAll "&" "&amp;" text)))).

Definition getRiskLevel (summary : ReportSummary) : string :=
  if 0 <? high summary then "High - Immediate attention required"
  else if 2 <? medium summary then "Medium - Review recommended"
  else if (0 <? medium summary) || (0 <? low summary)
  then "Low - Monitor and improve"
  else "Excellent - No issues found".

Definition getRiskClass (summary : ReportSummary) : string :=
  if 0 <? high summary then "risk-high"
  else if 2 <? medium summary then "risk-medium"
  else if (0 <? medium summary) || (0 <? low summary) then "risk-low"
  else "risk-excellent".

Definition generateSummarySection (summary : ReportSummary) : string :=
  let q := Js.dquote in
  let riskLevel := getRiskLevel summary in
  let riskClass := getRiskClass summary in
  Js.join Js.nl
    [ "";
      ("        <div class=" ++ q ++ "section" ++ q ++ ">")%string;
      "            <h2>Summary</h2>";
      ("            <table class=" ++ q ++ "summary-table" ++ q ++ ">")%string;
      "                <thead>";
      "                    <tr>";
      "                        <th>Finding</th>";
      "                        <th>Count</th>";
      "                    </tr>";
      "                </thead>";
      "                <tbody>";
      "                    <tr>";
      "                        <td>Total Issues</td>";
      ("                        <td class=" ++ q ++ "count" ++ q ++ ">" ++ Js.showNat (total summary) ++ "</td>")%string;
      "                    </tr>";
      "                    <tr>";
      "                        <td>High Severity</td>";
      ("                        <td class=" ++ q ++ "count " ++ (if (0 <? high summary)%nat then "high-count" else "") ++ q ++ ">" ++ Js.showNat (high summary) ++ "</td>")%string;
      "                    </tr>";
      "                    <tr>";
      "                        <td>Medium Severity</td>";
      ("                        <td class=" ++ q ++ "count " ++ (if (0 <? medium summary)%nat then "medium-count" else "") ++ q ++ ">" ++ Js.showNat (medium summary) ++ "</td>")%string;
      "                    </tr>";
      "                    <tr>";
      "                        <td>Low Severity</td>";
      ("                        <td class=" ++ q ++ "count " ++ (if (0 <? low summary)%nat then "low-count" else "") ++ q ++ ">" ++ Js.showNat (low summary) ++ "</td>")%string;
      "                    </tr>";
      "                </tbody>";
      "            </table>";
      ("            <div class=" ++ q ++ "risk-level " ++ riskClass ++ q ++ ">")%string;
      ("                Risk Assessment: " ++ riskLevel)%string;
      "            </div>";
      "        </div>";
      "    " ].

Definition generateInsightsSection (insights : list string) : string :=
  let q := Js.dquote in
  match insights with
  | [] => ""
  | insight :: _ =>
      Js.join Js.nl
      [ "";
        ("        <div class=" ++ q ++ "section" ++ q ++ ">")%string;
        "            <h2>AI Analysis & Insights</h2>";
        ("            <div class=" ++ q ++ "insights-paragraph" ++ q ++ ">")%string;
        ("                <p>" ++ escapeHtml insight ++ "</p>")%string;
        "            </div>";
        "        </div>";
        "    " ]
  end.

Definition generateVulnerabilityItem (vuln : Vulnerability) : string :=
  let q := Js.dquote in
  let severityClass :=
    ("severity-" ++ Js.toLowerCase (severityString (severity vuln)))%string in
  Js.join Js.nl
    [ "";
      "        <li>";
      ("            <div class=" ++ q ++ "vuln-title" ++ q ++ ">")%string;
      ("                <strong>" ++ escapeHtml (description vuln) ++ "</strong>")%string;
      "            </div>";
      ("            <div class=" ++ q ++ "vuln-detail" ++ q ++ ">")%string;
      ("                <strong>Location:</strong> <span class=" ++ q ++ "file-path" ++ q ++ ">" ++ escapeHtml (file vuln) ++ ":" ++ Js.showZ (line vuln) ++ "</span>")%string;
      ("                <span class=" ++ q ++ "vuln-severity " ++ severityClass ++ q ++ ">" ++ severityString (severity vuln) ++ "</span>")%string;
      "            </div>";
      ("            <div class=" ++ q ++ "vuln-detail" ++ q ++ ">")%string;
      ("                <strong>Recommendation:</strong> " ++ escapeHtml (recommendation vuln))%string;
      "            </div>";
      "        </li>";
      "    " ].

Definition generateVulnerabilitiesSection (vulnerabilities : list Vulnerability)
  : string :=
  let q := Js.dquote in
  match vulnerabilities with
  | [] =>
      Js.join Js.nl
      [ "";
        ("            <div class=" ++ q ++ "section" ++ q ++ ">")%string;
        "                <h2>Security Findings</h2>";
        ("                <p style=" ++ q ++ "color: #718096;" ++ q ++ ">No security vulnerabilities detected.</p>")%string;
        "            </div>";
        "        " ]
  | _ :: _ =>
      let items := Js.join "" (map generateVulnerabilityItem vulnerabilities) in
      Js.join Js.nl
        [ "";
          ("        <div class=" ++ q ++ "section" ++ q ++ ">")%string;
          "            <h2>Security Findings</h2>";
          ("            <ul class=" ++ q ++ "vulnerabilities-list" ++ q ++ ">")%string;
          ("                " ++ items)%string;
          "            </ul>";
          "        </div>";
          "    " ]
  end.

End HtmlFormatter.


(* ===================================================================== *)
(** ** core/reporter.ts: the layout of text for the terminal *)
(* ===================================================================== *)

Module ReportLayout.

Definition ESC : ascii := ascii_of_nat 27.

(** The character classes [[0-9;]] and [[mGKHF]]. *)
Definition isParameter (c : ascii) : bool :=
  let n := nat_of_ascii c in
  ((48 <=? n) && (n <=? 57)) || (n =? 59).

Definition isFinal (c : ascii) : bool :=
  existsb (Ascii.eqb c) ["m"; "G"; "K"; "H"; "F"]%char.

(** The longest run of parameter characters at the head of [s]: its length
    and what follows it. *)
Fixpoint parameters (s : string) : nat * string :=
  match s with
  | String c s' =>
      if isParameter c
      then let (n, rest) := parameters s' in (S n, rest)
      else (0, s)
  | EmptyString => (0, s)
  end.

(** A match of [/\x1b\[[0-9;]*[mGKHF]/] at the head of [s]: its length.
    The two classes have no character in common, so that the run of
    parameters of a match is the longest one. *)
Definition matchAnsi (s : string) : option nat :=
  match s with
  | String e (String b rest) =>
      if Ascii.eqb e ESC && Ascii.eqb b "["
      then
        let (n, rest') := parameters rest in
        match rest' with
        | String f _ => if isFinal f then Some (n + 3) else None
        | EmptyString => None
        end
      else None
  | _ => None
  end.

(** [str.replace(/\x1b\[[0-9;]*[mGKHF]/g, '')]: the matches are looked for
    from left to right, and a match is left out; [skip] is the number of
    characters of the current match that are still to be passed. *)
Fixpoint stripFrom (skip : nat) (s : string) : string :=
  match s with
  | EmptyString => EmptyString
  | String c s' =>
      match skip with
      | S k => stripFrom k s'
      | O =>
          match matchAnsi s with
          | Some n => stripFrom (n - 1) s'
          | None => String c (stripFrom 0 s')
          end
      end
  end.

Definition stripAnsi (str : string) : string := stripFrom 0 str.

(** The body of the loop of [wrapText]; the state is the array [lines] and
    the variable [currentLine]. *)
Definition wrapStep (maxWidth : Z) (indent : string)
           (state : list string * string) (word : string)
  : list string * string :=
  let (lines, currentLine) := state in
  let testLine :=
    if negb (String.eqb currentLine "")
    then (currentLine ++ " " ++ word)%string else word in
  let testLineClean := stripAnsi testLine in
  if (Js.length testLineClean <=? maxWidth)%Z
  then (lines, testLine)
  else if negb (String.eqb currentLine "")
  then (lines ++ [(indent ++ currentLine)%string], word)
  else (lines ++ [(indent ++ word)%string], currentLine).

Definition wrapText (text : string) (maxWidth : Z) (indent : string) : string :=
  let words := JsString.split " " text in
  let (lines, currentLine) := fold_left (wrapStep maxWidth indent) words ([], "") in
  let lines :=
    if negb (String.eqb currentLine "")
    then lines ++ [(indent ++ currentLine)%string] else lines in
  Js.join Js.nl lines.

End ReportLayout.

(* ===================================================================== *)
(** ** core/errors.ts: the report of a failure *)
(* ===================================================================== *)

Module ErrorHandler.

(** [ErrorHandler.handle]: the lines it writes with [console.error]
    before it ends the process with [process.exit(1)].  [stack] is the
    [stack] property of the error.  A call of [console.error] with two
    strings writes them with a space between them. *)
Definition handle (error : Error) (stack : option string)
           (context : option string) : list string :=
  let contextPrefix :=
    match context with
    | Some c => if String.eqb c "" then "" else ("[" ++ c ++ "] ")%string
    | None => ""
    end in
  let underlying (cause : option Error) : list string :=
    match cause with
    | Some c => [("Underlying cause: " ++ message c)%string]
    | None => []
    end in
  let named (label : string) (value : option string) : list string :=
    match value with
    | Some v => if String.eqb v "" then [] else [(label ++ v)%string]
    | None => []
    end in
  match error with
  | ConfigurationError m =>
      [ (contextPrefix ++ "Configuration Error: " ++ m)%string;
        ("Please run " ++ Js.dquote ++ "vibe-check config setup" ++ Js.dquote
         ++ " to configure the CLI.")%string ]
  | AIAnalysisError m cause =>
      [(contextPrefix ++ "AI Analysis Failed: " ++ m)%string]
      ++ underlying cause
      ++ ["Please check your API key and model configuration."]
  | FileProcessingError m filePath =>
      [(contextPrefix ++ "File Processing Error: " ++ m)%string]
      ++ named "File: " filePath
  | ContextBuildError m directory =>
      [(contextPrefix ++ "Context Build Error: " ++ m)%string]
      ++ named "Directory: " directory
  | InsightGenerationError m cause =>
      [(contextPrefix ++ "Insight Generation Failed: " ++ m)%string]
      ++ underlying cause
  | ValidationError m =>
      [(contextPrefix ++ "Validation Error: " ++ m)%string]
  | PlainError m =>
      [(contextPrefix ++ "Unexpected Error: " ++ m)%string]
      ++ named "Stack trace: " stack
  end.

End ErrorHandler.

(* ===================================================================== *)
(** ** cli.ts: the failure of a scan *)
(* ===================================================================== *)

Module ScanCommand.

(** The [catch] clause of the [scan] command, after the spinner was
    stopped: what it writes for what was thrown. *)
Definition reportFailure (error : Thrown) (stack : option string) : list string :=
  match error with
  | ThrownError e => ErrorHandler.handle e stack (Some "Scan")
  | ThrownValue _ =>
      ErrorHandler.handle (PlainError "An unknown error occurred") stack
        (Some "Scan")
  end.

End ScanCommand.

(* ===================================================================== *)
(** ** config/config.ts *)
(* ===================================================================== *)

Module ConfigManager.

(** The value of a property, as [validateConfig] looks at it: a string, or
    anything else (a property that is missing included). *)
Inductive Field : Type :=
| NotAString
| AString (s : string).

(** A value that is not falsy, as the reads of its two properties show
    it.  A falsy value ([null], [undefined], [0], the empty string) is
    [None] below. *)
Record Candidate : Type := mkCandidate {
  apiKey : Field;
  model : Field
}.

Record ConfigValidationResult : Type := mkConfigValidationResult {
  isValid : bool;
  errors : list string
}.

(** [!value || typeof value !== 'string']. *)
Definition refused (value : Field) : bool :=
  match value with
  | NotAString => true
  | AString s => String.eqb s ""
  end.

Definition validateConfig (config : option Candidate) : ConfigValidationResult :=
  let errors : list string := [] in
  match config with
  | None =>
      {| isValid := false;
         errors := errors ++ ["Configuration is null or undefined"] |}
  | Some c =>
      let errors :=
        if refused (apiKey c)
        then errors ++ ["API key is required and must be a string"]
        else errors in
      let errors :=
        if refused (model c)
        then errors ++ ["Model is required and must be a string"]
        else errors in
      {| isValid := length errors =? 0; errors := errors |}
  end.

Definition invalidConfiguration (validation : ConfigValidationResult) : Error :=
  PlainError ("Invalid configuration: " ++ Js.join ", " (errors validation)).

Definition DEFAULT_CONFIG : Candidate :=
  {| apiKey := NotAString; model := AString "deepseek/deepseek-r1" |}.

(** The field [config] of the manager; [None] is [null]. *)
Definition Cache : Type := option Candidate.

(** What one call of a method of the manager meets: the outcomes of the
    calls of [fs] and of [JSON.parse] that it makes. *)
Record Host : Type := mkHost {
  readFile : Thrown + string;
  parse : string -> Thrown + option Candidate;
  access : Thrown + unit;
  mkdir : Thrown + unit;
  writeFile : Thrown + unit;
  unlink : Thrown + unit;
  (** [error.code?.includes('ENOENT')] for what [unlink] threw. *)
  noEntry : Thrown -> bool
}.

(** A method: its outcome and the field [config] after it. *)
Definition Method (A : Type) : Type := Cache -> Result A * Cache.

Definition loadConfig (host : Host) : Method (option Candidate) :=
  fun cache =>
    let attempt : Result (option Candidate) * Cache :=
      match readFile host with
      | inl t => (Throw t, cache)
      | inr configData =>
          match parse host configData with
          | inl t => (Throw t, cache)
          | inr parsed =>
              let validation := validateConfig parsed in
              if negb (isValid validation)
              then (Throw (ThrownError (invalidConfiguration validation)), cache)
              else (Ok parsed, parsed)
          end
      end in
    match attempt with
    | (Throw (ThrownError e), cache') =>
        if JsString.includes (message e) "ENOENT"
        then (Ok None, cache')
        else (Throw (ThrownError e), cache')
    | other => other
    end.

Definition ensureConfigDir (host : Host) : Result unit :=
  match access host with
  | inr _ => Ok tt
  | inl _ =>
      match mkdir host with
      | inr _ => Ok tt
      | inl t => Throw t
      end
  end.

Definition saveConfig (host : Host) (config : option Candidate) : Method unit :=
  fun cache =>
    let validation := validateConfig config in
    if negb (isValid validation)
    then (Throw (ThrownError (invalidConfiguration validation)), cache)
    else
      match ensureConfigDir host with
      | Throw t => (Throw t, cache)
      | Ok _ =>
          match writeFile host with
          | inl t => (Throw t, cache)
          | inr _ => (Ok tt, config)
          end
      end.

Definition getConfig (host : Host) : Method (option Candidate) :=
  fun cache =>
    match cache with
    | None =>
        match loadConfig host cache with
        | (Throw t, cache') => (Throw t, cache')
        | (Ok _, cache') => (Ok cache', cache')
        end
    | Some _ => (Ok cache, cache)
    end.

(** [{ ...current, ...updates }]: a property that [updates] has replaces
    the one of [current]; [None] is a property that [updates] has not. *)
Definition spread (current : Candidate) (updates : option Field * option Field)
  : Candidate :=
  {| apiKey := match fst updates with Some v => v | None => apiKey current end;
     model := match snd updates with Some v => v | None => model current end |}.

(** [getConfig] and [saveConfig] may meet different outcomes of the file
    system. *)
Definition updateConfig (hostGet hostSave : Host)
           (updates : option Field * option Field) : Method Candidate :=
  fun cache =>
    match getConfig hostGet cache with
    | (Throw t, cache') => (Throw t, cache')
    | (Ok found, cache') =>
        let current := match found with Some c => c | None => DEFAULT_CONFIG end in
        let updated := spread current updates in
        let validation := validateConfig (Some updated) in
        if negb (isValid validation)
        then (Throw (ThrownError (invalidConfiguration validation)), cache')
        else
          match saveConfig hostSave (Some updated) cache' with
          | (Throw t, cache'') => (Throw t, cache'')
          | (Ok _, cache'') => (Ok updated, cache'')
          end
    end.

Definition deleteConfig (host : Host) : Method unit :=
  fun cache =>
    match unlink host with
    | inr _ => (Ok tt, None)
    | inl error =>
        if negb (noEntry host error) then (Throw error, cache) else (Ok tt, cache)
    end.

(** A call of a method of the manager. *)
Inductive Call : Type :=
| LoadConfig (host : Host)
| SaveConfig (host : Host) (config : option Candidate)
| GetConfig (host : Host)
| UpdateConfig (hostGet hostSave : Host) (updates : option Field * option Field)
| DeleteConfig (host : Host).

(** The field [config] after a call. *)
Definition after (cache : Cache) (call : Call) : Cache :=
  match call with
  | LoadConfig host => snd (loadConfig host cache)
  | SaveConfig host config => snd (saveConfig host config cache)
  | GetConfig host => snd (getConfig host cache)
  | UpdateConfig hostGet hostSave updates =>
      snd (updateConfig hostGet hostSave updates cache)
  | DeleteConfig host => snd (deleteConfig host cache)
  end.

(** The field [config] after a sequence of calls on a new manager. *)
Definition afterAll (calls : list Call) : Cache := fold_left after calls None.

(** The field [config] holds nothing, or a configuration that
    [validateConfig] accepts. *)
Definition sound (cache : Cache) : Prop :=
  match cache with
  | None => True
  | Some c => isValid (validateConfig (Some c)) = true
  end.

(** A configuration as the analyzers read it. *)
Definition toConfig (c : Candidate) : option Model.Config :=
  match apiKey c, model c with
  | AString k, AString m => Some {| Model.apiKey := k; Model.model := m |}
  | _, _ => None
  end.

End ConfigManager.

(* ===================================================================== *)
(** ** Notions used to state the properties *)
(* ===================================================================== *)

Module Spec.
Import ContextManager.

(** The order of the condenser: a file of the primary tier comes before
    every other file, and within a tier a file comes before the files
    that are not larger. *)
Definition precedes (a b : FileContext) : Prop :=
  (isMainLang a = true /\ isMainLang b = false)
  \/ (isMainLang a = isMainLang b /\ (size b <= size a)%Z).

(** The file carries this language tag. *)
Definition tagged (tag : string) (f : FileContext) : bool :=
  String.eqb (language f) tag.

(** The relation a comparator induces: [a] may stay in front of [b]. *)
Definition below {A} (compare : A -> A -> Z) (a b : A) : Prop :=
  (compare a b <= 0)%Z.

Definition sumCounts (obj : list (string * nat)) : nat :=
  list_sum (map snd obj).

Definition lineCount (f : FileContext) : nat :=
  Js.splitLinesLength (content f).

Section Discovery.
Variable IGNORED_DIRS : list string.
Variable isSupportedFile : string -> bool.

(** A directory the scan goes into: its name neither starts with a dot
    nor is in the ignore-list. *)
Definition entered (dirName : string) : bool :=
  negb (Js.startsWith dirName ".") && negb (Js.includes IGNORED_DIRS dirName).

(** [fileAt entries dirs n]: below a directory with these entries, the
    regular file [n] lies in the directory reached through the
    directories [dirs], outermost first. *)
Inductive fileAt : list Fs.Dirent -> list string -> string -> Prop :=
| fileHere entries n :
    In (Fs.FileEntry n) entries -> fileAt entries [] n
| fileBelow entries d sub dirs n :
    In (Fs.DirEntry d (inr sub)) entries ->
    fileAt sub dirs n ->
    fileAt entries (d :: dirs) n.

(** The files File Discovery is specified to find, as locations: the
    supported regular files that lie under entered directories only, in
    the order of a depth-first walk. *)
Fixpoint discoveredIn (entry : Fs.Dirent) : list (list string * string) :=
  match entry with
  | Fs.FileEntry n => if isSupportedFile n then [([], n)] else []
  | Fs.DirEntry d (inr sub) =>
      if entered d
      then map (fun loc => (d :: fst loc, snd loc)) (flat_map discoveredIn sub)
      else []
  | Fs.DirEntry _ (inl _) => []
  | Fs.OtherEntry _ => []
  end.

Definition discovered (entries : list Fs.Dirent) : list (list string * string) :=
  flat_map discoveredIn entries.

(** The first rejection of [readdir] a depth-first walk of the entered
    directories meets, if any. *)
Fixpoint rejectionIn (entry : Fs.Dirent) : option Thrown :=
  match entry with
  | Fs.DirEntry d listing =>
      if entered d
      then match listing with
           | inl t => Some t
           | inr sub =>
               fold_right (fun e later =>
                             match rejectionIn e with
                             | Some t => Some t
                             | None => later
                             end) None sub
           end
      else None
  | _ => None
  end.

Definition rejection (entries : list Fs.Dirent) : option Thrown :=
  fold_right (fun e later =>
                match rejectionIn e with
                | Some t => Some t
                | None => later
                end) None entries.
End Discovery.

(** The path string of a location below [dir]. *)
Definition pathOf (path_join : string -> string -> string) (dir : string)
           (loc : list string * string) : string :=
  path_join (fold_left path_join (fst loc) dir) (snd loc).

(** What a scan below [dir] is specified to give when it started with
    [files]: the first rejection, or [files] and then the paths of the
    locations. *)
Definition scanned (path_join : string -> string -> string) (dir : string)
           (files : list string) (rej : option Thrown)
           (locs : list (list string * string)) : IO (list string) :=
  match rej with
  | Some t => (Throw t, [])
  | None => (Ok (files ++ map (pathOf path_join dir) locs), [])
  end.

(** Every entry of the tree has a name that [readdir] can return. *)
Fixpoint wellNamedIn (entry : Fs.Dirent) : bool :=
  match entry with
  | Fs.FileEntry n => NodePath.entryName n
  | Fs.DirEntry d (inr sub) => NodePath.entryName d && forallb wellNamedIn sub
  | Fs.DirEntry d (inl _) => NodePath.entryName d
  | Fs.OtherEntry n => NodePath.entryName n
  end.

Definition wellNamed (root : Fs.Listing) : bool :=
  match root with
  | inl _ => true
  | inr entries => forallb wellNamedIn entries
  end.

Section ReadPass.
Variable path_relative : string -> string -> string.
Variable readFile : string -> Thrown + string.

(** The entry the read pass makes for a path, when it accepts it. *)
Definition acceptedEntry (rootDir filePath : string) : list FileContext :=
  match readFile filePath with
  | inr text =>
      if (MAX_FILE_SIZE <? Js.length text)%Z then []
      else [ {| path := path_relative rootDir filePath;
                content := text;
                language := getLanguage filePath;
                size := Js.length text |} ]
  | inl _ => []
  end.

Definition accepted (rootDir : string) (paths : list string) : list FileContext :=
  flat_map (acceptedEntry rootDir) paths.

(** The warning the read pass writes for a path, when it writes one. *)
Definition warningFor (filePath : string) : list string :=
  match readFile filePath with
  | inl (ThrownError e) =>
      [("Warning: Could not read file " ++ filePath ++ ": " ++ message e)%string]
  | _ => []
  end.

(** A path the read pass skips: unreadable, or longer than the cap. *)
Definition skipped (filePath : string) : Prop :=
  match readFile filePath with
  | inr text => (MAX_FILE_SIZE < Js.length text)%Z
  | inl _ => True
  end.
End ReadPass.

(** The answer the validation code of [analyzeCodebase] gives to a
    response. *)
Definition validated (r : Model.Generated CodeAnalyzer.AnalysisObject)
  : Result (list Vulnerability) :=
  match Model.object r with
  | None =>
      Throw (ThrownError
               (AIAnalysisError "Invalid response format from AI analysis" None))
  | Some obj =>
      match CodeAnalyzer.vulnerabilities obj with
      | Model.NotAnArray =>
          Throw (ThrownError
                   (AIAnalysisError "Invalid response format from AI analysis" None))
      | Model.AnArray vulns => Ok vulns
      end
  end.

End Spec.

(* ===================================================================== *)
(** ** A concrete host, for examples *)
(* ===================================================================== *)

Module Demo.
Import ContextManager.

(** [path.join] and [path.relative] on a directory path without a trailing
    separator and a plain name or a path below that directory. *)
Definition join (dir name : string) : string := (dir ++ "/" ++ name)%string.

Definition relative (from to : string) : string :=
  String.substring (String.length from + 1)
                   (String.length to - (String.length from + 1)) to.

(** A string of [n] copies of a character. *)
Definition copies (n : N) (c : ascii) : string :=
  N.iter n (String c) EmptyString.

Definition enoent : Thrown :=
  ThrownError (PlainError "ENOENT: no such file or directory").

Definition fileOf (p c l : string) : FileContext :=
  {| path := p; content := c; language := l; size := Js.length c |}.

(** A context of three files. *)
Definition small : CodebaseContext :=
  let fs := [ fileOf "lib/util.py" "def f(): pass" "python";
              fileOf "README.md" "# demo" "markdown";
              fileOf "src/app.ts" "let a = 1;" "typescript" ] in
  {| files := fs; summary := generateSummary fs |}.

(** A context of twenty files, ten tagged typescript and ten tagged
    python, of lengths 1 to 10 in each language. *)
Definition numbered (ext lang : string) (i : nat) : FileContext :=
  fileOf ("src/f" ++ Js.showNat i ++ ext)%string (copies (N.of_nat i) "x") lang.

Definition twenty : CodebaseContext :=
  let fs := flat_map (fun i => [numbered ".py" "python" i;
                                numbered ".ts" "typescript" i])
                     (seq 1 10) in
  {| files := fs; summary := generateSummary fs |}.

(** A project directory. *)
Definition projectEntries : list Fs.Dirent :=
  [ Fs.FileEntry "app.ts";
    Fs.DirEntry "node_modules" (inr [Fs.FileEntry "dep.js"]);
    Fs.DirEntry ".git" (inl enoent);
    Fs.DirEntry "src" (inr [Fs.FileEntry "util.py"; Fs.FileEntry "notes.txt"]);
    Fs.OtherEntry "link.ts" ].

Definition project : Fs.Listing := inr projectEntries.

Definition readProject (p : string) : Thrown + string :=
  if String.eqb p "/repo/app.ts" then inr "let a = 1;"
  else if String.eqb p "/repo/src/util.py" then inr "def f(): pass"
  else inl enoent.

(** The context [buildContext] makes of it. *)
Definition projectContext : CodebaseContext :=
  let fs := [ fileOf "app.ts" "let a = 1;" "typescript";
              fileOf "src/util.py" "def f(): pass" "python" ] in
  {| files := fs; summary := generateSummary fs |}.

(** A directory with one file of 200 KiB and one of 2 KiB. *)
Definition twoFiles : Fs.Listing :=
  inr [ Fs.FileEntry "big.js"; Fs.FileEntry "small.py" ].

Definition bigText : string := copies (200 * 1024) "x".
Definition smallText : string := copies (2 * 1024) "y".

Definition readTwoFiles (p : string) : Thrown + string :=
  if String.eqb p "/repo/big.js" then inr bigText
  else if String.eqb p "/repo/small.py" then inr smallText
  else inl enoent.

Definition config : Model.Config :=
  {| Model.apiKey := "sk-or-v1-demo"; Model.model := "deepseek/deepseek-r1" |}.

Definition finding : Vulnerability :=
  {| severity := High; file := "app.ts"; line := 1;
     description := "Use of eval() function detected";
     recommendation := "Avoid using eval()" |}.

(** A response that reports one finding and claims seven, and a model
    that gives it to every request. *)
Definition analysisResponse : Model.Generated CodeAnalyzer.AnalysisObject :=
  Model.mkGenerated
    (Some {| CodeAnalyzer.vulnerabilities := Model.AnArray [finding];
             CodeAnalyzer.summary :=
               Some {| CodeAnalyzer.totalIssues := 7;
                       CodeAnalyzer.criticalFindings := [];
                       CodeAnalyzer.overallRisk := High |} |}).

Definition analysisModel (_ : Model.Config) (_ : string)
  : Thrown + Model.Generated CodeAnalyzer.AnalysisObject :=
  inr analysisResponse.

Definition risk : Model.RiskAssessment :=
  {| Model.overallRisk := High; Model.priorityAreas := Some ["auth"] |}.

(** A response with a paragraph, and a model that gives it to every
    request. *)
Definition narrative : InsightGenerator.CohesiveInsights :=
  {| InsightGenerator.analysis := Some "The codebase is clean.";
     InsightGenerator.riskAssessment := Some risk |}.

Definition narrativeResponse : Model.Generated InsightGenerator.CohesiveInsights :=
  Model.mkGenerated (Some narrative).

Definition narrativeModel (_ : Model.Config) (_ : string)
  : Thrown + Model.Generated InsightGenerator.CohesiveInsights :=
  inr narrativeResponse.

(** A response of the earlier kind, with two insights and one
    recommendation. *)
Definition legacyModel (_ : Model.Config) (_ : string)
  : Thrown + Model.Generated LegacyInsightGenerator.Insights :=
  inr (Model.mkGenerated
         (Some {| LegacyInsightGenerator.insights :=
                    Model.AnArray ["No input validation."; "Secrets in code."];
                  LegacyInsightGenerator.recommendations :=
                    Model.AnArray ["Rotate the keys."];
                  LegacyInsightGenerator.riskAssessment := Some risk |})).

End Demo.

(* ===================================================================== *)
(** ** Measures of a context *)
(* ===================================================================== *)

Module Measures.
Import ContextManager.

(** The number of files that carry a language tag. *)
Definition countTag (lang : string) (fs : list FileContext) : nat :=
  length (filter (Spec.tagged lang) fs).

(** The sum of the sizes of the files. *)
Definition totalSize (fs : list FileContext) : Z :=
  fold_right Z.add 0%Z (map size fs).

(** What the loop of [generateSummary] knows about the largest file after
    it went over [seen]: nothing was larger than 0, or the recorded path and
    size are those of a file of [seen] that no file of [seen] exceeds. *)
Definition largestIs (seen : list FileContext) (largestFile : string)
           (largestSize : Z) : Prop :=
  (largestSize = 0%Z /\ largestFile = ""
   /\ forall g, In g seen -> (size g <= 0)%Z)
  \/ ((0 < largestSize)%Z
      /\ exists f, In f seen /\ path f = largestFile /\ size f = largestSize
                   /\ forall g, In g seen -> (size g <= largestSize)%Z).

End Measures.

(* ===================================================================== *)
(** ** Further examples *)
(* ===================================================================== *)

Module Samples.

(** A configuration without a credential. *)
Definition noKey : Model.Config :=
  {| Model.apiKey := ""; Model.model := "deepseek/deepseek-r1" |}.

(** A model whose transport fails. *)
Definition offline : Errors.Error := PlainError "fetch failed".

Definition offlineAnalysis (_ : Model.Config) (_ : string)
  : Thrown + Model.Generated CodeAnalyzer.AnalysisObject :=
  inl (ThrownError offline).

Definition offlineNarrative (_ : Model.Config) (_ : string)
  : Thrown + Model.Generated InsightGenerator.CohesiveInsights :=
  inl (ThrownError offline).

(** A script of three lines, a reader that has it, and an oracle for the
    regular expressions of the SQL check that matches a line with a plus
    sign. *)
Definition script : string :=
  Js.join Js.nl
    [ "const apiKey = 'abc';";
      "eval(input);";
      "console.log(x); // debug" ].

Definition readScript (p : string) : Thrown + string :=
  if String.eqb p "/repo/app.js" then inr script else inl Demo.enoent.

Definition plusPattern (line : string) : bool := JsString.includes line "+".

Definition noTrim (s : string) : string := s.

(** A configuration as the file of the manager has it, and a file system
    that has this file. *)
Definition stored : ConfigManager.Candidate :=
  {| ConfigManager.apiKey := ConfigManager.AString "sk-or-v1-demo";
     ConfigManager.model := ConfigManager.AString "deepseek/deepseek-r1" |}.

Definition disk : ConfigManager.Host :=
  {| ConfigManager.readFile := inr "{}";
     ConfigManager.parse := fun _ => inr (Some stored);
     ConfigManager.access := inr tt;
     ConfigManager.mkdir := inr tt;
     ConfigManager.writeFile := inr tt;
     ConfigManager.unlink := inr tt;
     ConfigManager.noEntry := fun _ => false |}.

End Samples.

(* ===================================================================== *)
(** ** Measures of a text *)
(* ===================================================================== *)

Module Markup.

(** The number of occurrences of a character in a text. *)
Fixpoint occurrences (c : ascii) (s : string) : nat :=
  match s with
  | EmptyString => 0
  | String x s' => (if Ascii.eqb x c then 1 else 0) + occurrences c s'
  end.

(** The entity that stands for a character, or the character. *)
Definition entity (c : ascii) : string :=
  if Ascii.eqb c "&" then "&amp;"
  else if Ascii.eqb c "<" then "&lt;"
  else if Ascii.eqb c ">" then "&gt;"
  else if Ascii.eqb c (ascii_of_nat 34) then "&quot;"
  else if Ascii.eqb c "'" then "&#39;"
  else String c EmptyString.

(** A text with every character replaced by its entity, in one pass. *)
Fixpoint escaped (s : string) : string :=
  match s with
  | EmptyString => EmptyString
  | String c s' => (entity c ++ escaped s')%string
  end.

(** The characters that [escapeHtml] replaces. *)
Definition special (c : ascii) : bool :=
  existsb (Ascii.eqb c) ["&"; "<"; ">"; ascii_of_nat 34; "'"]%char.

Fixpoint plain (s : string) : bool :=
  match s with
  | EmptyString => true
  | String c s' => negb (special c) && plain s'
  end.

End Markup.

(* ===================================================================== *)
(** ** Measures of a wrapped text *)
(* ===================================================================== *)

Module Wrapping.

(** A line that is not too wide once the escape sequences are taken away,
    or that is one of the given words. *)
Definition fits (maxWidth : Z) (words : list string) (l : string) : Prop :=
  (Js.length (ReportLayout.stripAnsi l) <= maxWidth)%Z \/ In l words.

(** The lines of the loop of [wrapText], the one that is being filled
    included. *)
Definition sofar (lines : list string) (current : string) : list string :=
  lines ++ if String.eqb current "" then [] else [current].

End Wrapping.

(* ===================================================================== *)
(** * Properties *)
(* ===================================================================== *)

(** ** The report assembler *)

Lemma severity_partition (vulns : list Vulnerability) :
  length vulns =
    length (filter (Reporter.severityIs "high") vulns)
    + length (filter (Reporter.severityIs "medium") vulns)
    + length (filter (Reporter.severityIs "low") vulns).
Proof.
  induction vulns as [| v vulns IH]; [reflexivity |].
  unfold Reporter.severityIs in *.
  destruct v as [[] f l d r]; cbn [filter severity severityString String.eqb Ascii.eqb Bool.eqb length];
    cbn; lia.
Qed.

Lemma severity_count (s : Severity) (vulns : list Vulnerability) :
  length (filter (Reporter.severityIs (severityString s)) vulns)
  = count_occ Severity_eq_dec (map severity vulns) s.
Proof.
  induction vulns as [| v vulns IH]; [reflexivity |].
  unfold Reporter.severityIs in *.
  cbn [filter map count_occ].
  destruct (Severity_eq_dec (severity v) s) as [E | E].
  - rewrite E, String.eqb_refl. cbn. now rewrite IH.
  - destruct (severity v), s; try congruence; cbn; exact IH.
Qed.


(** ** The summary of a context *)

Section SummaryFacts.
Import ContextManager Spec.

Lemma setProperty_sumCounts (obj : list (string * nat)) (key : string) :
  sumCounts (setProperty obj key
               (match getProperty obj key with Some n => n | None => 0 end + 1))
  = sumCounts obj + 1.
Proof.
  unfold sumCounts.
  induction obj as [| [k n] obj IH]; [reflexivity |].
  cbn [setProperty getProperty].
  unfold list_sum in *.
  destruct (String.eqb k key); cbn [map snd fold_right] in *; lia.
Qed.

Lemma summaryStep_languages (st : SummaryLoop) (f : FileContext) :
  sumCounts (loopLanguages (summaryStep st f)) = sumCounts (loopLanguages st) + 1.
Proof.
  unfold summaryStep.
  destruct (loopLargestSize st <? size f)%Z; cbn [loopLanguages];
    apply setProperty_sumCounts.
Qed.

Lemma summaryStep_totalLines (st : SummaryLoop) (f : FileContext) :
  loopTotalLines (summaryStep st f) = loopTotalLines st + lineCount f.
Proof.
  unfold summaryStep.
  destruct (loopLargestSize st <? size f)%Z; reflexivity.
Qed.

Lemma summaryLoop_invariant (fs : list FileContext) (st : SummaryLoop) :
  sumCounts (loopLanguages (fold_left summaryStep fs st))
  = sumCounts (loopLanguages st) + length fs
  /\ loopTotalLines (fold_left summaryStep fs st)
     = loopTotalLines st + list_sum (map lineCount fs).
Proof.
  revert st.
  induction fs as [| f fs IH]; intros st; cbn [fold_left length map].
  - cbn. split; lia.
  - destruct (IH (summaryStep st f)) as [Hl Ht].
    rewrite Hl, Ht, summaryStep_languages, summaryStep_totalLines.
    unfold list_sum; cbn [fold_right].
    split; lia.
Qed.

Lemma generateSummary_invariant (fs : list FileContext) :
  totalFiles (generateSummary fs) = length fs
  /\ totalLines (generateSummary fs) = list_sum (map lineCount fs)
  /\ sumCounts (languages (generateSummary fs)) = totalFiles (generateSummary fs).
Proof.
  destruct (summaryLoop_invariant fs (mkSummaryLoop [] 0 "" 0%Z)) as [Hl Ht].
  unfold generateSummary; cbn [totalFiles totalLines languages].
  rewrite Hl, Ht. cbn. auto.
Qed.
End SummaryFacts.

(** ** The read pass and [buildContext] *)

Section BuildFacts.
Import ContextManager Spec.
Variable path_join : string -> string -> string.
Variable path_relative : string -> string -> string.
Variable readFile : string -> Thrown + string.

Local Notation readStep := (readStep path_relative readFile).
Local Notation readFiles := (readFiles path_relative readFile).
Local Notation buildContext := (buildContext path_join path_relative readFile).
Local Notation scanDirectory := (ContextManager.scanDirectory path_join).
Local Notation accepted := (accepted path_relative readFile).
Local Notation acceptedEntry := (acceptedEntry path_relative readFile).
Local Notation warningFor := (warningFor readFile).

Lemma readStep_spec (rootDir : string) (acc : list FileContext) (p : string) :
  readStep rootDir acc p = (Ok (acc ++ acceptedEntry rootDir p), warningFor p).
Proof.
  unfold ContextManager.readStep, Spec.acceptedEntry, Spec.warningFor.
  destruct (readFile p) as [[e | shown] | text]; cbn -[Z.mul].
  - now rewrite app_nil_r.
  - now rewrite app_nil_r.
  - unfold MAX_FILE_SIZE.
    destruct (100 * 1024 <? Js.length text)%Z; cbn; [now rewrite app_nil_r | reflexivity].
Qed.

Lemma readFiles_spec (rootDir : string) (paths : list string)
      (acc : list FileContext) :
  readFiles rootDir paths acc
  = (Ok (acc ++ accepted rootDir paths), flat_map warningFor paths).
Proof.
  revert acc.
  induction paths as [| p paths IH]; intros acc; cbn [ContextManager.readFiles].
  - unfold Spec.accepted; cbn. now rewrite app_nil_r.
  - rewrite readStep_spec. unfold bind. rewrite IH.
    unfold Spec.accepted; cbn [flat_map]. now rewrite app_assoc.
Qed.

(** What [buildContext] does, by cases on the scan. *)
Lemma buildContext_cases (rootDir : string) (root : Fs.Listing) :
  rootDir <> "" ->
  outcome (buildContext rootDir root)
  = match outcome (scanDirectory rootDir root) with
    | Throw _ =>
        Throw (ThrownError (ContextBuildError
                 ("Failed to scan directory: " ++ rootDir)%string (Some rootDir)))
    | Ok [] =>
        Throw (ThrownError (ContextBuildError
                 ("No supported files found in directory: " ++ rootDir)%string None))
    | Ok paths =>
        match accepted rootDir paths with
        | [] =>
            Throw (ThrownError (ContextBuildError
              "No readable files found or all files exceed maximum size limit"
              None))
        | fileContexts =>
            Ok {| files := fileContexts;
                  summary := generateSummary fileContexts |}
        end
    end.
Proof.
  intros Hroot.
  unfold ContextManager.buildContext.
  apply String.eqb_neq in Hroot. rewrite Hroot.
  destruct (scanDirectory rootDir root) as [[paths | t] out]; cbn.
  - destruct paths as [| p paths]; cbn; [reflexivity |].
    pose proof (readFiles_spec rootDir (p :: paths) []) as Hrf.
    cbn [ContextManager.readFiles] in Hrf. rewrite Hrf. cbn [app].
    unfold Spec.accepted; cbn [flat_map].
    destruct (acceptedEntry rootDir p ++ flat_map (acceptedEntry rootDir) paths)
      as [| f fs]; reflexivity.
  - reflexivity.
Qed.

Lemma buildContext_ok (rootDir : string) (root : Fs.Listing)
      (ctx : CodebaseContext) :
  outcome (buildContext rootDir root) = Ok ctx ->
  exists paths,
    outcome (scanDirectory rootDir root) = Ok paths
    /\ files ctx = accepted rootDir paths
    /\ files ctx <> []
    /\ summary ctx = generateSummary (files ctx).
Proof.
  destruct (String.eqb_spec rootDir "") as [E | N].
  - unfold ContextManager.buildContext. subst rootDir. cbn. discriminate.
  - rewrite (buildContext_cases rootDir root N).
    destruct (outcome (scanDirectory rootDir root)) as [paths | t]; [| discriminate].
    destruct paths as [| p paths]; [discriminate |].
    destruct (accepted rootDir (p :: paths)) as [| f fs] eqn:Ha; [discriminate |].
    intros H; injection H as <-. exists (p :: paths). cbn [files summary].
    repeat split; auto. discriminate.
Qed.

(** The [size] of a file of a built context is the length of its
    content. *)
Lemma built_size (rootDir : string) (root : Fs.Listing) (ctx : CodebaseContext) :
  outcome (buildContext rootDir root) = Ok ctx ->
  Forall (fun f => size f = Js.length (content f)) (files ctx).
Proof.
  intros H. apply buildContext_ok in H as (paths & _ & -> & _).
  apply Forall_forall. intros f Hf.
  unfold Spec.accepted in Hf. apply in_flat_map in Hf as (p & _ & Hf).
  unfold Spec.acceptedEntry in Hf.
  destruct (readFile p) as [t | text]; [destruct Hf |].
  destruct (MAX_FILE_SIZE <? Js.length text)%Z; [destruct Hf |].
  destruct Hf as [<- | []]. reflexivity.
Qed.
End BuildFacts.

(** ** [Array.prototype.sort] and [slice] *)

Lemma filter_permutation {A} (p : A -> bool) (l l' : list A) :
  Permutation l l' -> Permutation (filter p l) (filter p l').
Proof.
  induction 1 as [| x l l' _ IH | x y l | l l' l'' _ IH1 _ IH2]; cbn.
  - constructor.
  - destruct (p x); [now constructor | assumption].
  - destruct (p x), (p y); try reflexivity. constructor.
  - now transitivity (filter p l').
Qed.

Lemma StronglySorted_app_inv {A} (R : A -> A -> Prop) (l1 l2 : list A) :
  StronglySorted R (l1 ++ l2) ->
  StronglySorted R l1 /\ StronglySorted R l2
  /\ (forall x y, In x l1 -> In y l2 -> R x y).
Proof.
  induction l1 as [| a l1 IH]; cbn; intros H.
  - repeat split; [constructor | assumption | intros x y []].
  - apply StronglySorted_inv in H as [Hs Ha].
    destruct (IH Hs) as (H1 & H2 & H12).
    apply Forall_app in Ha as [Ha1 Ha2].
    repeat split; [now constructor | assumption |].
    intros x y [<- | Hx] Hy; [| now apply H12].
    rewrite Forall_forall in Ha2. now apply Ha2.
Qed.

Lemma StronglySorted_firstn {A} (R : A -> A -> Prop) (n : nat) (l : list A) :
  StronglySorted R l -> StronglySorted R (firstn n l).
Proof.
  intros H. rewrite <- (firstn_skipn n l) in H.
  now apply StronglySorted_app_inv in H.
Qed.

Lemma in_firstn {A} (n : nat) (l : list A) (x : A) :
  In x (firstn n l) -> In x l.
Proof.
  intros H. rewrite <- (firstn_skipn n l). apply in_or_app. now left.
Qed.

Lemma slice0_nonneg {A} (l : list A) (e : Z) :
  (0 <= e)%Z -> Js.slice0 l e = firstn (Z.to_nat e) l.
Proof.
  intros He. unfold Js.slice0.
  destruct (Z.ltb_spec e 0) as [Hlt | _]; [lia |].
  destruct (Z.le_ge_cases e (Z.of_nat (length l))) as [Hle | Hge].
  - now rewrite Z.min_l.
  - rewrite Z.min_r, Nat2Z.id by assumption.
    rewrite firstn_all. symmetry. apply firstn_all2. lia.
Qed.

Lemma slice0_prefix {A} (l : list A) (e : Z) :
  exists rest, l = Js.slice0 l e ++ rest.
Proof.
  unfold Js.slice0. eexists. symmetry. apply firstn_skipn.
Qed.

Section SortFacts.
Context {A : Type} (compare : A -> A -> Z).
Local Notation below := (Spec.below compare).
Local Notation insert := (Js.insert compare).
Local Notation sort := (Js.sort compare).

Lemma insert_permutation (x : A) (l : list A) :
  Permutation (insert x l) (x :: l).
Proof.
  induction l as [| y l IH]; cbn; [reflexivity |].
  destruct (compare x y <=? 0)%Z; [reflexivity |].
  rewrite IH. apply perm_swap.
Qed.

Lemma sort_cons (x : A) (l : list A) : sort (x :: l) = insert x (sort l).
Proof. reflexivity. Qed.

Lemma sort_permutation (l : list A) : Permutation (sort l) l.
Proof.
  induction l as [| x l IH]; [reflexivity |].
  rewrite sort_cons, insert_permutation. now constructor.
Qed.

Lemma sort_length (l : list A) : length (sort l) = length l.
Proof. apply Permutation_length, sort_permutation. Qed.

(** An element that is below the head stays in front. *)
Lemma insert_front (x : A) (l : list A) :
  Forall (below x) l -> insert x l = x :: l.
Proof.
  destruct l as [| y l]; [reflexivity |].
  intros H. apply Forall_inv in H. unfold Spec.below in H.
  cbn. now apply Z.leb_le in H as ->.
Qed.

Lemma sort_sorted_id (l : list A) : StronglySorted below l -> sort l = l.
Proof.
  induction 1 as [| x l Hs IH Hx]; [reflexivity |].
  rewrite sort_cons, IH. now apply insert_front.
Qed.

(** From here on the comparator is consistent: the relation it induces is
    total and transitive. *)
Hypothesis compare_total : forall a b, below a b \/ below b a.
Hypothesis compare_trans : forall a b c, below a b -> below b c -> below a c.

Lemma insert_sorted (x : A) (l : list A) :
  StronglySorted below l -> StronglySorted below (insert x l).
Proof.
  induction 1 as [| y l Hs IH Hy]; cbn.
  - repeat constructor.
  - destruct (Z.leb_spec (compare x y) 0) as [Hxy | Hxy].
    + constructor; [now constructor |].
      constructor; [exact Hxy |].
      eapply Forall_impl; [| exact Hy]. intros z Hz. now apply (compare_trans x y z).
    + assert (Hyx : below y x).
      { destruct (compare_total x y) as [H | H]; [unfold Spec.below in H; lia | exact H]. }
      constructor; [exact IH |].
      rewrite (insert_permutation x l). now constructor.
Qed.

Lemma sort_sorted (l : list A) : StronglySorted below (sort l).
Proof.
  induction l as [| x l IH]; [constructor |].
  rewrite sort_cons. now apply insert_sorted.
Qed.

Lemma sort_idempotent (l : list A) : sort (sort l) = sort l.
Proof. apply sort_sorted_id, sort_sorted. Qed.

(** The model is the stable sort: elements that the comparator does not
    tell apart keep the order they had. *)
Lemma insert_stable (a x : A) (l : list A) :
  let tied y := ((compare a y <=? 0) && (compare y a <=? 0))%Z in
  filter tied (insert x l) = if tied x then x :: filter tied l else filter tied l.
Proof.
  intros tied.
  induction l as [| y l IH]; cbn; [reflexivity |].
  destruct (Z.leb_spec (compare x y) 0) as [Hxy | Hxy]; [reflexivity |].
  cbn. rewrite IH.
  destruct (tied x) eqn:Tx, (tied y) eqn:Ty; try reflexivity.
  exfalso. unfold tied in Tx, Ty.
  apply andb_prop in Tx as [Tx1 Tx2]. apply andb_prop in Ty as [Ty1 Ty2].
  apply Z.leb_le in Tx1, Tx2, Ty1, Ty2.
  assert (below x y) by (apply (compare_trans x a y); assumption).
  unfold Spec.below in *; lia.
Qed.

Lemma sort_stable (a : A) (l : list A) :
  let tied y := ((compare a y <=? 0) && (compare y a <=? 0))%Z in
  filter tied (sort l) = filter tied l.
Proof.
  intros tied.
  induction l as [| x l IH]; [reflexivity |].
  rewrite sort_cons, (insert_stable a x). fold tied. rewrite IH.
  reflexivity.
Qed.
End SortFacts.

(** ** The condenser *)

Section CondenserFacts.
Import ContextManager Spec.

Local Notation below := (Spec.below byImportance).

Lemma byImportance_below (a b : FileContext) : below a b <-> precedes a b.
Proof.
  unfold Spec.below, precedes, byImportance.
  destruct (isMainLang a), (isMainLang b); cbn; split; intros H.
  - right. split; [reflexivity | lia].
  - destruct H as [[_ H] | [_ H]]; [discriminate | lia].
  - now left.
  - lia.
  - lia.
  - destruct H as [[H _] | [H _]]; discriminate.
  - right. split; [reflexivity | lia].
  - destruct H as [[H _] | [_ H]]; [discriminate | lia].
Qed.

Lemma byImportance_total (a b : FileContext) : below a b \/ below b a.
Proof.
  unfold Spec.below, byImportance.
  destruct (isMainLang a), (isMainLang b); cbn; lia.
Qed.

Lemma byImportance_trans (a b c : FileContext) :
  below a b -> below b c -> below a c.
Proof.
  unfold Spec.below, byImportance.
  destruct (isMainLang a), (isMainLang b), (isMainLang c); cbn; lia.
Qed.

Lemma sorted_precedes (l : list FileContext) :
  StronglySorted below l -> StronglySorted precedes l.
Proof.
  induction 1 as [| x l Hs IH Hx]; constructor; [assumption |].
  eapply Forall_impl; [| exact Hx]. intros y. apply byImportance_below.
Qed.

Lemma sort_byImportance_sorted (l : list FileContext) :
  StronglySorted below (Js.sort byImportance l).
Proof.
  apply sort_sorted; [apply byImportance_total | apply byImportance_trans].
Qed.

Lemma condensed_length (ctx : CodebaseContext) (N : Z) :
  (0 <= N)%Z ->
  length (files (snd (condense ctx N)))
  = Nat.min (Z.to_nat N) (length (files ctx)).
Proof.
  intros HN. cbn [condense snd files].
  now rewrite slice0_nonneg, length_firstn, sort_length.
Qed.

Lemma condensed_sorted (ctx : CodebaseContext) (N : Z) :
  StronglySorted below (files (snd (condense ctx N))).
Proof.
  cbn [condense snd files]. unfold Js.slice0.
  apply StronglySorted_firstn, sort_byImportance_sorted.
Qed.

(** The files chosen are a prefix of the sorted array: the files left out
    come after every file chosen. *)
Lemma condensed_prefix (ctx : CodebaseContext) (N : Z) :
  exists rest,
    Js.sort byImportance (files ctx) = files (snd (condense ctx N)) ++ rest
    /\ Permutation (files ctx) (files (snd (condense ctx N)) ++ rest)
    /\ (forall x y, In x (files (snd (condense ctx N))) -> In y rest ->
                    precedes x y).
Proof.
  cbn [condense snd files].
  destruct (slice0_prefix (Js.sort byImportance (files ctx)) N) as [rest Hrest].
  exists rest. split; [exact Hrest |]. split.
  - rewrite <- Hrest. symmetry. apply sort_permutation.
  - pose proof (sort_byImportance_sorted (files ctx)) as Hs.
    rewrite Hrest in Hs. apply StronglySorted_app_inv in Hs as (_ & _ & H).
    intros x y Hx Hy. apply byImportance_below. now apply H.
Qed.

Lemma condensed_incl (ctx : CodebaseContext) (N : Z) (f : FileContext) :
  In f (files (snd (condense ctx N))) -> In f (files ctx).
Proof.
  destruct (condensed_prefix ctx N) as (rest & _ & Hp & _).
  intros Hf. apply (Permutation_in f (Permutation_sym Hp)).
  apply in_or_app. now left.
Qed.

(** In a sorted array the primary tier is a prefix. *)
Lemma sorted_tiers (l : list FileContext) :
  StronglySorted below l ->
  l = filter isMainLang l ++ filter (fun f => negb (isMainLang f)) l.
Proof.
  induction 1 as [| x l Hs IH Hx]; [reflexivity |].
  cbn [filter]. destruct (isMainLang x) eqn:Ex; cbn [negb app].
  - now rewrite <- IH.
  - assert (Hall : Forall (fun y => isMainLang y = false) l).
    { eapply Forall_impl; [| exact Hx]. intros y Hy.
      apply byImportance_below in Hy as [[H _] | [H _]]; congruence. }
    assert (Hnone : filter isMainLang l = []).
    { clear -Hall. induction Hall as [| y l Hy _ IH]; cbn [filter]; [reflexivity |].
      now rewrite Hy. }
    assert (Hsame : filter (fun f => negb (isMainLang f)) l = l).
    { clear -Hall. induction Hall as [| y l Hy _ IH]; cbn [filter]; [reflexivity |].
      rewrite Hy. cbn [negb]. now rewrite IH. }
    now rewrite Hnone, Hsame.
Qed.

(** No file of the other tier is in front of a file of the primary
    tier. *)
Lemma sorted_primary_first (l : list FileContext) (i j : nat)
      (a b : FileContext) :
  StronglySorted below l ->
  i < j -> nth_error l i = Some a -> nth_error l j = Some b ->
  isMainLang b = true -> isMainLang a = true.
Proof.
  intros Hs. revert i j.
  induction Hs as [| x l Hs IH Hx]; intros i j Hij Ha Hb Hmain.
  - destruct i; discriminate.
  - destruct j as [| j]; [lia |].
    destruct i as [| i].
    + cbn in Ha, Hb. injection Ha as ->.
      apply nth_error_In in Hb. rewrite Forall_forall in Hx.
      apply Hx, byImportance_below in Hb as [[H _] | [H _]]; congruence.
    + cbn in Ha, Hb. apply (IH i j); [lia | assumption ..].
Qed.
End CondenserFacts.

Section ScenarioC.
Import ContextManager Spec.

Local Notation below := (Spec.below byImportance).
Local Notation ts := (tagged "typescript").
Local Notation py := (tagged "python").

Lemma tagged_ts_main (f : FileContext) : ts f = true -> isMainLang f = true.
Proof.
  unfold tagged, isMainLang, Js.includes. intros H. cbn [existsb]. now rewrite H.
Qed.

Lemma tagged_py_other (f : FileContext) : py f = true -> isMainLang f = false.
Proof.
  unfold tagged, isMainLang, Js.includes. intros H.
  apply String.eqb_eq in H. rewrite H. reflexivity.
Qed.

Lemma filter_all {A} (p : A -> bool) (l : list A) :
  forallb p l = true -> filter p l = l.
Proof.
  induction l as [| x l IH]; cbn; [reflexivity |].
  intros H. apply andb_prop in H as [-> H]. now rewrite IH.
Qed.

Lemma filter_filter_weaker {A} (p q : A -> bool) (l : list A) :
  (forall x, p x = true -> q x = true) -> filter p (filter q l) = filter p l.
Proof.
  intros Hpq. induction l as [| x l IH]; cbn; [reflexivity |].
  destruct (q x) eqn:Eq; cbn.
  - now rewrite IH.
  - destruct (p x) eqn:Ep; [| exact IH].
    apply Hpq in Ep. congruence.
Qed.

(** Twenty files, ten tagged typescript and ten tagged python: every
    file is one or the other. *)
Lemma ts_or_py (l : list FileContext) :
  length l = 20 ->
  length (filter ts l) = 10 ->
  length (filter py l) = 10 ->
  forall f, In f l ->
    isMainLang f = ts f /\ negb (isMainLang f) = py f.
Proof.
  intros Hlen Hts Hpy.
  pose proof (filter_length ts l) as Hsplit.
  set (others := filter (fun f => negb (ts f)) l) in *.
  assert (Hpy' : filter py others = filter py l).
  { apply filter_filter_weaker. intros f Hf.
    unfold tagged in *. apply String.eqb_eq in Hf. now rewrite Hf. }
  assert (Hothers : forallb py others = true).
  { apply filter_length_forallb. rewrite Hpy'. lia. }
  rewrite forallb_forall in Hothers.
  intros f Hf. destruct (ts f) eqn:Ef.
  - rewrite (tagged_ts_main f Ef). split; [reflexivity |].
    unfold tagged in *. apply String.eqb_eq in Ef. now rewrite Ef.
  - assert (Hp : py f = true).
    { apply Hothers. apply filter_In. split; [exact Hf | now rewrite Ef]. }
    rewrite (tagged_py_other f Hp), Hp. split; reflexivity.
Qed.

(** Scenario C. *)
Lemma condense_ten_ts_ten_py (ctx : CodebaseContext) :
  length (files ctx) = 20 ->
  length (filter ts (files ctx)) = 10 ->
  length (filter py (files ctx)) = 10 ->
  let out := files (snd (condense ctx 15)) in
  length out = 15
  /\ Permutation (firstn 10 out) (filter ts (files ctx))
  /\ exists rest,
       Permutation (filter py (files ctx)) (skipn 10 out ++ rest)
       /\ length (skipn 10 out) = 5
       /\ (forall x y, In x (skipn 10 out) -> In y rest -> (size y <= size x)%Z).
Proof.
  intros Hlen Hts Hpy out.
  pose proof (ts_or_py (files ctx) Hlen Hts Hpy) as Htag.
  set (s := Js.sort byImportance (files ctx)).
  assert (Hperm : Permutation s (files ctx)) by apply sort_permutation.
  assert (Hsorted : StronglySorted below s) by apply sort_byImportance_sorted.
  assert (Htag_s : forall f, In f s ->
              isMainLang f = ts f /\ negb (isMainLang f) = py f).
  { intros f Hf. apply Htag. now apply (Permutation_in f Hperm). }
  pose proof (sorted_tiers s Hsorted) as Htiers.
  rewrite (filter_ext_in isMainLang ts s) in Htiers
    by (intros f Hf; now apply Htag_s).
  rewrite (filter_ext_in (fun f => negb (isMainLang f)) py s) in Htiers
    by (intros f Hf; now apply Htag_s).
  assert (HM : length (filter ts s) = 10).
  { rewrite <- Hts. apply Permutation_length, filter_permutation, Hperm. }
  assert (HNM : length (filter py s) = 10).
  { rewrite <- Hpy. apply Permutation_length, filter_permutation, Hperm. }
  assert (Hout : out = filter ts s ++ firstn 5 (filter py s)).
  { subst out. cbn [condense snd files]. fold s.
    rewrite slice0_nonneg by lia. rewrite Htiers at 1.
    rewrite firstn_app, HM. change (Z.to_nat 15 - 10) with 5.
    rewrite firstn_all2 by (rewrite HM; cbn; lia). reflexivity. }
  assert (Hmain : Permutation (filter ts s) (filter ts (files ctx)))
    by apply filter_permutation, Hperm.
  assert (Hother : Permutation (filter py s) (filter py (files ctx)))
    by apply filter_permutation, Hperm.
  assert (Hskip : skipn 10 out = firstn 5 (filter py s)).
  { rewrite Hout, skipn_app, HM. change (10 - 10) with 0.
    rewrite skipn_all2 by lia. reflexivity. }
  split; [| split].
  - rewrite Hout, length_app, length_firstn, HM, HNM. reflexivity.
  - rewrite Hout, firstn_app, HM. change (10 - 10) with 0.
    rewrite firstn_all2 by lia. cbn [firstn]. rewrite app_nil_r. exact Hmain.
  - exists (skipn 5 (filter py s)). rewrite Hskip. split; [| split].
    + rewrite firstn_skipn. symmetry. exact Hother.
    + rewrite length_firstn, HNM. reflexivity.
    + intros x y Hx Hy.
      assert (Hs2 : StronglySorted below (filter py s)).
      { rewrite Htiers in Hsorted. now apply StronglySorted_app_inv in Hsorted. }
      rewrite <- (firstn_skipn 5 (filter py s)) in Hs2.
      apply StronglySorted_app_inv in Hs2 as (_ & _ & H).
      specialize (H x y Hx Hy). apply byImportance_below in H.
      assert (Hxo : isMainLang x = false).
      { apply tagged_py_other. apply in_firstn in Hx.
        now apply filter_In in Hx. }
      destruct H as [[H _] | [_ H]]; [congruence | exact H].
Qed.
End ScenarioC.

(** ** Outcomes of computations *)

Section IOFacts.
Context {A B : Type}.

Lemma outcome_bind (m : IO A) (k : A -> IO B) :
  outcome (bind m k)
  = match outcome m with
    | Ok a => outcome (k a)
    | Throw t => Throw t
    end.
Proof.
  destruct m as [[a | t] out]; cbn; [| reflexivity].
  now destruct (k a).
Qed.

Lemma outcome_tryAsync (m : IO A) (msg : string) (EC : ErrorClass) :
  outcome (tryAsync m msg EC)
  = match outcome m with
    | Ok a => Ok a
    | Throw (ThrownError e) => Throw (ThrownError (EC msg (Some e)))
    | Throw (ThrownValue shown) =>
        Throw (ThrownError (EC (msg ++ ": " ++ shown)%string None))
    end.
Proof.
  destruct m as [[a | [e | shown]] out]; reflexivity.
Qed.

Lemma outcome_call (r : Thrown + A) :
  outcome (call r) = match r with inl t => Throw t | inr a => Ok a end.
Proof. now destruct r. Qed.
End IOFacts.

(** ** The analysis client *)

Section AnalyzerFacts.
Import Model ContextManager Spec.
Variable path_join : string -> string -> string.
Variable path_relative : string -> string -> string.
Variable readFile : string -> Thrown + string.
Variable generateObject :
  Config -> string -> Thrown + Generated CodeAnalyzer.AnalysisObject.

Local Notation buildContext := (buildContext path_join path_relative readFile).
Local Notation getCondensedContext :=
  (getCondensedContext path_join path_relative readFile).
Local Notation analyzeCodebase :=
  (CodeAnalyzer.analyzeCodebase path_join path_relative readFile generateObject).

Lemma getCondensedContext_outcome (rootDir : string) (root : Fs.Listing)
      (maxFiles : option Z) :
  outcome (getCondensedContext rootDir root maxFiles)
  = match outcome (buildContext rootDir root) with
    | Ok full =>
        Ok (snd (condense full
                   (match maxFiles with Some n => n | None => 20%Z end)))
    | Throw t => Throw t
    end.
Proof.
  unfold ContextManager.getCondensedContext. now rewrite outcome_bind.
Qed.

(** A condensed context that was built for a positive bound is not
    empty. *)
Lemma getCondensedContext_nonempty (rootDir : string) (root : Fs.Listing)
      (N : Z) (ctx : CodebaseContext) :
  (0 < N)%Z ->
  outcome (getCondensedContext rootDir root (Some N)) = Ok ctx ->
  length (files ctx) <> 0.
Proof.
  intros HN. rewrite getCondensedContext_outcome.
  destruct (outcome (buildContext rootDir root)) as [full | t] eqn:Hb;
    [| discriminate].
  intros H; injection H as <-.
  apply buildContext_ok in Hb as (paths & _ & _ & Hne & _).
  change (length (files (snd (condense full N))) <> 0).
  rewrite condensed_length by lia.
  destruct (files full); [congruence | cbn [length]; lia].
Qed.

(** Once its inputs are accepted and the context is there,
    [analyzeCodebase] asks the model about the context condensed to
    fifteen files and answers from the response. *)
Lemma analyzeCodebase_request (config : Config) (rootDir : string)
      (root : Fs.Listing) (ctx : CodebaseContext) :
  rootDir <> "" -> apiKey config <> "" -> model config <> "" ->
  outcome (getCondensedContext rootDir root (Some 15%Z)) = Ok ctx ->
  outcome (analyzeCodebase config rootDir root)
  = match generateObject config (CodeAnalyzer.buildStructuredAnalysisPrompt ctx) with
    | inl (ThrownError e) =>
        Throw (ThrownError (AIAnalysisError "AI analysis request failed" (Some e)))
    | inl (ThrownValue shown) =>
        Throw (ThrownError
                 (AIAnalysisError ("AI analysis request failed: " ++ shown)%string
                                  None))
    | inr r => validated r
    end.
Proof.
  intros Hroot Hkey Hmodel Hctx.
  pose proof (getCondensedContext_nonempty rootDir root 15 ctx eq_refl Hctx) as Hne.
  unfold CodeAnalyzer.analyzeCodebase.
  apply String.eqb_neq in Hroot, Hkey, Hmodel. rewrite Hroot, Hkey, Hmodel.
  rewrite outcome_bind, outcome_tryAsync, Hctx.
  apply Nat.eqb_neq in Hne. rewrite Hne.
  rewrite outcome_bind, outcome_tryAsync, outcome_call.
  destruct (generateObject config (CodeAnalyzer.buildStructuredAnalysisPrompt ctx))
    as [[e | shown] | r]; try reflexivity.
  unfold Spec.validated. destruct (object r) as [obj |]; [| reflexivity].
  destruct (CodeAnalyzer.vulnerabilities obj); reflexivity.
Qed.
End AnalyzerFacts.

(** ** The claims about the condenser *)

(** C1.  The condenser keeps [min N available] files; what it keeps is
    ordered primary tier first and, within a tier, larger files first, and
    the files it leaves out come after every file it keeps;
    [getCondensedContext] returns this selection of the context that
    [buildContext] built, in which the size of a file is the length of its
    content.  The analysis
    path condenses with [N = 15]: once the context is built, the model is
    asked about that context condensed to fifteen files and the answer is
    read off its response.  With twenty files, ten tagged typescript and ten
    tagged python, and [N = 15], the output is the ten typescript files
    followed by five python files, none smaller than a python file left
    out. *)
Theorem C1_condensed_selection :
  (forall (ctx : ContextManager.CodebaseContext) (N : Z),
      (0 <= N)%Z ->
      let out := ContextManager.files (snd (ContextManager.condense ctx N)) in
      length out = Nat.min (Z.to_nat N) (length (ContextManager.files ctx))
      /\ StronglySorted Spec.precedes out
      /\ exists rest,
           Permutation (ContextManager.files ctx) (out ++ rest)
           /\ (forall x y, In x out -> In y rest -> Spec.precedes x y))
  /\ (forall path_join path_relative readFile
             (rootDir : string) (root : Fs.Listing) (N : Z),
         outcome (ContextManager.getCondensedContext path_join path_relative
                    readFile rootDir root (Some N))
         = match outcome (ContextManager.buildContext path_join path_relative
                            readFile rootDir root) with
           | Ok full => Ok (snd (ContextManager.condense full N))
           | Throw t => Throw t
           end
         /\ forall full,
              outcome (ContextManager.buildContext path_join path_relative
                         readFile rootDir root) = Ok full ->
              Forall (fun f => ContextManager.size f
                               = Js.length (ContextManager.content f))
                     (ContextManager.files full))
  /\ (forall path_join path_relative readFile generateObject
             (config : Model.Config) (rootDir : string) (root : Fs.Listing)
             (full : ContextManager.CodebaseContext)
             (r : Model.Generated CodeAnalyzer.AnalysisObject),
         Model.apiKey config <> "" -> Model.model config <> "" ->
         outcome (ContextManager.buildContext path_join path_relative readFile
                    rootDir root) = Ok full ->
         generateObject config
           (CodeAnalyzer.buildStructuredAnalysisPrompt
              (snd (ContextManager.condense full 15))) = inr r ->
         outcome (CodeAnalyzer.analyzeCodebase path_join path_relative readFile
                    generateObject config rootDir root)
         = Spec.validated r)
  /\ (forall ctx : ContextManager.CodebaseContext,
         length (ContextManager.files ctx) = 20 ->
         length (filter (Spec.tagged "typescript") (ContextManager.files ctx)) = 10 ->
         length (filter (Spec.tagged "python") (ContextManager.files ctx)) = 10 ->
         let out := ContextManager.files (snd (ContextManager.condense ctx 15)) in
         length out = 15
         /\ Permutation (firstn 10 out)
                        (filter (Spec.tagged "typescript") (ContextManager.files ctx))
         /\ exists rest,
              Permutation (filter (Spec.tagged "python") (ContextManager.files ctx))
                          (skipn 10 out ++ rest)
              /\ length (skipn 10 out) = 5
              /\ (forall x y, In x (skipn 10 out) -> In y rest ->
                              (ContextManager.size y <= ContextManager.size x)%Z)).
Proof.
  split; [| split; [| split]].
  - intros ctx N HN out. subst out. split; [| split].
    + now apply condensed_length.
    + apply sorted_precedes, condensed_sorted.
    + destruct (condensed_prefix ctx N) as (rest & _ & Hp & Hr). now exists rest.
  - intros pj pr rf rootDir root N. split.
    + apply getCondensedContext_outcome.
    + apply built_size.
  - intros pj pr rf gen config rootDir root full r Hkey Hmodel Hfull Hr.
    assert (Hroot : rootDir <> "").
    { intros ->. unfold ContextManager.buildContext in Hfull. discriminate. }
    assert (Hctx : outcome (ContextManager.getCondensedContext pj pr rf rootDir root
                              (Some 15%Z))
                   = Ok (snd (ContextManager.condense full 15))).
    { now rewrite getCondensedContext_outcome, Hfull. }
    rewrite (analyzeCodebase_request pj pr rf gen config rootDir root _
               Hroot Hkey Hmodel Hctx).
    now rewrite Hr.
  - apply condense_ten_ts_ten_py.
Qed.

(** C6.  The condenser gives the same output when it is called again on
    the context object it has sorted, its output depends on nothing but the
    files and the bound, condensing its own output changes nothing, and in
    its output no file of the other tier is in front of a file of the
    primary tier, whatever the sizes. *)
Theorem C6_condenser_idempotent (ctx : ContextManager.CodebaseContext) (N : Z) :
  let first := ContextManager.condense ctx N in
  let second := ContextManager.condense (fst first) N in
  (snd second = snd first /\ fst second = fst first)
  /\ (forall ctx', ContextManager.files ctx' = ContextManager.files ctx ->
                   snd (ContextManager.condense ctx' N) = snd first)
  /\ ((0 <= N)%Z -> snd (ContextManager.condense (snd first) N) = snd first)
  /\ (forall i j a b,
         i < j ->
         nth_error (ContextManager.files (snd first)) i = Some a ->
         nth_error (ContextManager.files (snd first)) j = Some b ->
         ContextManager.isMainLang b = true ->
         ContextManager.isMainLang a = true).
Proof.
  cbn zeta. split; [| split; [| split]].
  - unfold ContextManager.condense; cbn [fst snd ContextManager.files ContextManager.summary].
    rewrite sort_idempotent
      by (intros; first [apply byImportance_total | eapply byImportance_trans; eassumption]).
    split; reflexivity.
  - intros ctx' Hfiles. unfold ContextManager.condense; cbn [snd]. now rewrite Hfiles.
  - intros HN.
    unfold ContextManager.condense; cbn [fst snd ContextManager.files ContextManager.summary].
    rewrite !slice0_nonneg by assumption.
    rewrite (sort_sorted_id ContextManager.byImportance
               (firstn (Z.to_nat N) (Js.sort ContextManager.byImportance
                                        (ContextManager.files ctx))))
      by (apply StronglySorted_firstn, sort_byImportance_sorted).
    rewrite firstn_firstn, Nat.min_id. reflexivity.
  - intros i j a b Hij Ha Hb.
    apply (sorted_primary_first _ i j a b (condensed_sorted ctx N) Hij Ha Hb).
Qed.

Lemma C1_condensed_selection_witness :
  length (ContextManager.files (snd (ContextManager.condense Demo.small 2))) = 2
  /\ outcome (CodeAnalyzer.analyzeCodebase Demo.join Demo.relative Demo.readProject
                Demo.analysisModel Demo.config "/repo" Demo.project)
     = Ok [Demo.finding]
  /\ length (ContextManager.files (snd (ContextManager.condense Demo.twenty 15))) = 15.
Proof.
  destruct C1_condensed_selection as (Hsel & _ & Hpath & Hscen).
  split; [| split].
  - destruct (Hsel Demo.small 2%Z) as (Hlen & _); [lia | exact Hlen].
  - apply (Hpath Demo.join Demo.relative Demo.readProject Demo.analysisModel
                 Demo.config "/repo" Demo.project Demo.projectContext
                 Demo.analysisResponse).
    + discriminate.
    + discriminate.
    + vm_compute. reflexivity.
    + reflexivity.
  - destruct (Hscen Demo.twenty) as (Hlen & _);
      [vm_compute; reflexivity .. | exact Hlen].
Defined.

Lemma C6_condenser_idempotent_witness :
  snd (ContextManager.condense (snd (ContextManager.condense Demo.twenty 15)) 15)
  = snd (ContextManager.condense Demo.twenty 15)
  /\ ContextManager.isMainLang (Demo.numbered ".ts" "typescript" 10) = true.
Proof.
  destruct (C6_condenser_idempotent Demo.twenty 15) as (_ & _ & Hidem & Hfirst).
  split.
  - apply Hidem. lia.
  - apply (Hfirst 0 1 _ (Demo.numbered ".ts" "typescript" 9)).
    + lia.
    + vm_compute. reflexivity.
    + vm_compute. reflexivity.
    + reflexivity.
Defined.

(** ** The claim about the summary *)

(** C7.  In a context that [buildContext] returns, [totalFiles] is the
    number of files, [totalLines] is the sum of the line counts of the
    files, and the per-language counts add up to [totalFiles]. *)
Theorem C7_summary_invariant
        (path_join path_relative : string -> string -> string)
        (readFile : string -> Thrown + string)
        (rootDir : string) (root : Fs.Listing)
        (ctx : ContextManager.CodebaseContext) :
  outcome (ContextManager.buildContext path_join path_relative readFile
             rootDir root) = Ok ctx ->
  let s := ContextManager.summary ctx in
  ContextManager.totalFiles s = length (ContextManager.files ctx)
  /\ ContextManager.totalLines s
     = list_sum (map Spec.lineCount (ContextManager.files ctx))
  /\ Spec.sumCounts (ContextManager.languages s) = ContextManager.totalFiles s.
Proof.
  intros H. apply buildContext_ok in H as (_ & _ & _ & _ & ->).
  apply generateSummary_invariant.
Qed.

Lemma C7_summary_invariant_witness :
  ContextManager.totalFiles (ContextManager.summary Demo.projectContext) = 2
  /\ ContextManager.totalLines (ContextManager.summary Demo.projectContext) = 2
  /\ Spec.sumCounts (ContextManager.languages (ContextManager.summary Demo.projectContext))
     = 2.
Proof.
  apply (C7_summary_invariant Demo.join Demo.relative Demo.readProject
                              "/repo" Demo.project Demo.projectContext).
  vm_compute. reflexivity.
Defined.

(** ** File discovery *)

Lemma Dirent_nested_ind (P : Fs.Dirent -> Prop) :
  (forall n, P (Fs.FileEntry n)) ->
  (forall n t, P (Fs.DirEntry n (inl t))) ->
  (forall n sub, Forall P sub -> P (Fs.DirEntry n (inr sub))) ->
  (forall n, P (Fs.OtherEntry n)) ->
  forall e, P e.
Proof.
  intros Hfile Hrej Hdir Hother.
  fix IH 1.
  intros [n | n [t | sub] | n].
  - apply Hfile.
  - apply Hrej.
  - apply Hdir. induction sub as [| e sub IHsub]; constructor; [apply IH | exact IHsub].
  - apply Hother.
Qed.

Section ScanFacts.
Import Spec.
Variable path_join : string -> string -> string.
Variable IGNORED_DIRS : list string.
Variable isSupportedFile : string -> bool.

Local Notation scanEntry := (Fs.scanEntry path_join IGNORED_DIRS isSupportedFile).
Local Notation scanEntries := (Fs.scanEntries path_join IGNORED_DIRS isSupportedFile).
Local Notation scanDirectory := (Fs.scanDirectory path_join IGNORED_DIRS isSupportedFile).
Local Notation entered := (Spec.entered IGNORED_DIRS).
Local Notation discoveredIn := (Spec.discoveredIn IGNORED_DIRS isSupportedFile).
Local Notation discovered := (Spec.discovered IGNORED_DIRS isSupportedFile).
Local Notation rejectionIn := (Spec.rejectionIn IGNORED_DIRS).
Local Notation rejection := (Spec.rejection IGNORED_DIRS).
Local Notation pathOf := (Spec.pathOf path_join).

(** The loop inside [scanEntry] is [scanEntries]. *)
Lemma scanEntry_directory (dir d : string) (listing : Fs.Listing)
      (files : list string) :
  scanEntry dir (Fs.DirEntry d listing) files
  = if entered d
    then match listing with
         | inl t => (Throw t, [])
         | inr sub => scanEntries (path_join dir d) sub files
         end
    else ret files.
Proof.
  cbn [Fs.scanEntry]. unfold Spec.entered.
  destruct (negb (Js.startsWith d ".") && negb (Js.includes IGNORED_DIRS d));
    [| reflexivity].
  destruct listing as [t | sub]; [reflexivity |].
  revert files. induction sub as [| e sub IH]; intros files; [reflexivity |].
  change (scanEntries (path_join dir d) (e :: sub) files)
    with (bind (scanEntry (path_join dir d) e files)
               (fun files' => scanEntries (path_join dir d) sub files')).
  unfold bind.
  destruct (scanEntry (path_join dir d) e files) as [[files' | t] out];
    [rewrite IH |]; reflexivity.
Qed.
Lemma scanEntries_spec (es : list Fs.Dirent) :
  Forall (fun e => forall dir files,
              scanEntry dir e files
              = scanned path_join dir files (rejectionIn e) (discoveredIn e)) es ->
  forall dir files,
    scanEntries dir es files
    = scanned path_join dir files (rejection es) (discovered es).
Proof.
  induction 1 as [| e es He _ IH]; intros dir files.
  - cbn. now rewrite app_nil_r.
  - cbn [Fs.scanEntries]. rewrite He.
    unfold Spec.rejection, Spec.discovered. cbn [fold_right flat_map].
    destruct (rejectionIn e) as [t |]; [reflexivity |].
    cbn [scanned bind]. rewrite IH.
    unfold Spec.rejection, Spec.discovered.
    destruct (fold_right _ None es) as [t |]; [reflexivity |].
    cbn [scanned]. now rewrite map_app, app_assoc.
Qed.

Lemma scanEntry_spec (e : Fs.Dirent) :
  forall dir files,
    scanEntry dir e files
    = scanned path_join dir files (rejectionIn e) (discoveredIn e).
Proof.
  induction e as [n | n t | n sub IH | n] using Dirent_nested_ind;
    intros dir files.
  - cbn. destruct (isSupportedFile n); cbn; [reflexivity | now rewrite app_nil_r].
  - rewrite scanEntry_directory. cbn [Spec.rejectionIn Spec.discoveredIn].
    destruct (entered n); cbn; [reflexivity | now rewrite app_nil_r].
  - rewrite scanEntry_directory. cbn [Spec.rejectionIn Spec.discoveredIn].
    destruct (entered n); [| cbn; now rewrite app_nil_r].
    rewrite (scanEntries_spec sub IH).
    unfold Spec.rejection, Spec.discovered.
    destruct (fold_right _ None sub) as [t |]; [reflexivity |].
    cbn [scanned]. rewrite map_map. reflexivity.
  - cbn. now rewrite app_nil_r.
Qed.

(** The scan gives the first rejection it meets, or else the paths of the
    discovered locations, in order. *)
Lemma scanDirectory_spec (dir : string) (root : Fs.Listing) :
  scanDirectory dir root
  = match root with
    | inl t => (Throw t, [])
    | inr entries =>
        scanned path_join dir [] (rejection entries) (discovered entries)
    end.
Proof.
  unfold Fs.scanDirectory, Fs.scan.
  destruct root as [t | entries]; [reflexivity |].
  cbn [call bind].
  rewrite (scanEntries_spec entries)
    by (apply Forall_forall; intros e _; apply scanEntry_spec).
  destruct (rejection entries); reflexivity.
Qed.

(** A file lies below some entries exactly when it lies below one of
    them. *)
Lemma fileAt_one (es : list Fs.Dirent) (dirs : list string) (n : string) :
  fileAt es dirs n <-> exists e, In e es /\ fileAt [e] dirs n.
Proof.
  split.
  - intros H.
    inversion H as [es' n' Hin | es' d sub dirs' n' Hin Hsub]; subst.
    + exists (Fs.FileEntry n). split; [exact Hin |].
      constructor. now left.
    + exists (Fs.DirEntry d (inr sub)). split; [exact Hin |].
      apply fileBelow with sub; [now left | exact Hsub].
  - intros (e & He & H).
    inversion H as [es' n' Hin | es' d sub dirs' n' Hin Hsub]; subst.
    + destruct Hin as [Heq | []]. subst e. now constructor.
    + destruct Hin as [Heq | []]. subst e. now apply fileBelow with sub.
Qed.

Lemma discoveredIn_spec (e : Fs.Dirent) :
  forall dirs n,
    In (dirs, n) (discoveredIn e)
    <-> fileAt [e] dirs n
        /\ forallb entered dirs = true
        /\ isSupportedFile n = true.
Proof.
  induction e as [m | m t | m sub IH | m] using Dirent_nested_ind;
    intros dirs n.
  - cbn [Spec.discoveredIn]. split.
    + destruct (isSupportedFile m) eqn:Hm; [| intros []].
      intros [H | []]. injection H as <- <-.
      repeat split; [| exact Hm]. constructor. now left.
    + intros (H & _ & Hn).
      inversion H as [es' n' Hin | es' d sub dirs' n' Hin Hsub]; subst.
      * destruct Hin as [Hin | []]. injection Hin as ->.
        rewrite Hn. now left.
      * destruct Hin as [Hin | []]. discriminate.
  - cbn [Spec.discoveredIn]. split; [intros [] |].
    intros (H & _).
    inversion H as [es' n' Hin | es' d sub dirs' n' Hin Hsub]; subst;
      destruct Hin as [Hin | []]; discriminate.
  - cbn [Spec.discoveredIn]. split.
    + destruct (entered m) eqn:Hm; [| intros []].
      intros H. apply in_map_iff in H as ([dirs' n'] & Heq & Hloc).
      cbn in Heq. injection Heq as <- <-.
      apply in_flat_map in Hloc as (e & He & Hloc).
      rewrite Forall_forall in IH.
      apply (IH e He) in Hloc as (Hat & Hdirs & Hn).
      repeat split.
      * apply fileBelow with sub; [now left |].
        apply fileAt_one. now exists e.
      * cbn [forallb]. now rewrite Hm, Hdirs.
      * exact Hn.
    + intros (H & Hdirs & Hn).
      inversion H as [es' n' Hin | es' d sub' dirs' n' Hin Hsub]; subst.
      * destruct Hin as [Hin | []]. discriminate.
      * destruct Hin as [Hin | []]. injection Hin as <- <-.
        cbn [forallb] in Hdirs. apply andb_prop in Hdirs as [Hm Hdirs].
        rewrite Hm.
        apply fileAt_one in Hsub as (e & He & Hat).
        apply in_map_iff. exists (dirs', n). split; [reflexivity |].
        apply in_flat_map. exists e. split; [exact He |].
        rewrite Forall_forall in IH. apply (IH e He). auto.
  - cbn [Spec.discoveredIn]. split; [intros [] |].
    intros (H & _).
    inversion H as [es' n' Hin | es' d sub dirs' n' Hin Hsub]; subst;
      destruct Hin as [Hin | []]; discriminate.
Qed.

(** The discovered locations are the supported regular files all of
    whose directories, from the root down, are entered. *)
Lemma discovered_spec (es : list Fs.Dirent) (dirs : list string) (n : string) :
  In (dirs, n) (discovered es)
  <-> fileAt es dirs n
      /\ forallb entered dirs = true
      /\ isSupportedFile n = true.
Proof.
  unfold Spec.discovered. rewrite in_flat_map. split.
  - intros (e & He & H). apply discoveredIn_spec in H as (Hat & Hd & Hn).
    repeat split; [| assumption ..]. apply fileAt_one. now exists e.
  - intros (Hat & Hd & Hn). apply fileAt_one in Hat as (e & He & Hat).
    exists e. split; [exact He |]. apply discoveredIn_spec. auto.
Qed.
End ScanFacts.

Lemma includes_In (l : list string) (x : string) :
  Js.includes l x = true <-> In x l.
Proof.
  unfold Js.includes. rewrite existsb_exists. split.
  - intros (y & Hy & E). apply String.eqb_eq in E. now subst.
  - intros H. exists x. split; [exact H | apply String.eqb_refl].
Qed.

Lemma entered_spec (IGNORED_DIRS : list string) (d : string) :
  Spec.entered IGNORED_DIRS d = true
  <-> Js.startsWith d "." = false /\ ~ In d IGNORED_DIRS.
Proof.
  unfold Spec.entered. rewrite andb_true_iff, !negb_true_iff.
  rewrite <- includes_In.
  destruct (Js.includes IGNORED_DIRS d); intuition congruence.
Qed.

Lemma hasProperty_In {V} (obj : list (string * V)) (key : string) :
  ContextManager.hasProperty obj key = true <-> In key (map fst obj).
Proof.
  unfold ContextManager.hasProperty.
  induction obj as [| [k v] obj IH]; cbn; [intuition discriminate |].
  destruct (String.eqb_spec k key) as [-> | N].
  - intuition.
  - rewrite IH. intuition congruence.
Qed.

Lemma getProperty_In {V} (obj : list (string * V)) (key : string) (v : V) :
  ContextManager.getProperty obj key = Some v -> In v (map snd obj).
Proof.
  induction obj as [| [k w] obj IH]; cbn; [discriminate |].
  destruct (String.eqb k key).
  - intros H; injection H as ->. now left.
  - intros H. right. now apply IH.
Qed.

(** What a scan of a listed directory gives, for either scanner. *)
Lemma discovery_correct (path_join : string -> string -> string)
      (IGNORED_DIRS : list string) (isSupportedFile : string -> bool)
      (dir : string) (entries : list Fs.Dirent) :
  outcome (Fs.scanDirectory path_join IGNORED_DIRS isSupportedFile dir (inr entries))
  = match Spec.rejection IGNORED_DIRS entries with
    | Some t => Throw t
    | None =>
        Ok (map (Spec.pathOf path_join dir)
                (Spec.discovered IGNORED_DIRS isSupportedFile entries))
    end
  /\ (forall dirs n,
         In (dirs, n) (Spec.discovered IGNORED_DIRS isSupportedFile entries)
         <-> Spec.fileAt entries dirs n
             /\ (forall d, In d dirs ->
                           Js.startsWith d "." = false /\ ~ In d IGNORED_DIRS)
             /\ isSupportedFile n = true).
Proof.
  split.
  - rewrite scanDirectory_spec.
    destruct (Spec.rejection IGNORED_DIRS entries); reflexivity.
  - intros dirs n. rewrite discovered_spec, forallb_forall.
    split; intros (Hat & Hd & Hn); (split; [exact Hat | split; [| exact Hn]]).
    + intros d Hin. now apply entered_spec, Hd.
    + intros d Hin. now apply entered_spec, Hd.
Qed.

(** C9.  For every directory tree, each of the two scanners gives the
    first rejection of [readdir] met in a directory it enters, or else the
    paths of exactly these files: the regular files such that no directory
    between the root and the file has a name that starts with a dot or is
    in the ignore-list of the scanner, and whose name has an extension of
    the allow-list of the scanner (for [ContextManager]: the lowercased
    [path.extname] is a key of the table; for [FileScanner]: the name ends
    with one of the extensions). *)
Theorem C9_file_discovery (path_join : string -> string -> string)
        (dir : string) (entries : list Fs.Dirent) :
  (outcome (ContextManager.scanDirectory path_join dir (inr entries))
   = match Spec.rejection ContextManager.IGNORED_DIRS entries with
     | Some t => Throw t
     | None =>
         Ok (map (Spec.pathOf path_join dir)
                 (Spec.discovered ContextManager.IGNORED_DIRS
                                  ContextManager.isSupportedFile entries))
     end
   /\ forall dirs n,
        In (dirs, n) (Spec.discovered ContextManager.IGNORED_DIRS
                                      ContextManager.isSupportedFile entries)
        <-> Spec.fileAt entries dirs n
            /\ (forall d, In d dirs ->
                   Js.startsWith d "." = false
                   /\ ~ In d ContextManager.IGNORED_DIRS)
            /\ In (Js.toLowerCase (NodePath.extname n))
                  (map fst ContextManager.SUPPORTED_EXTENSIONS))
  /\ (outcome (FileScanner.scanDirectory path_join dir (inr entries))
      = match Spec.rejection FileScanner.IGNORED_DIRS entries with
        | Some t => Throw t
        | None =>
            Ok (map (Spec.pathOf path_join dir)
                    (Spec.discovered FileScanner.IGNORED_DIRS
                                     FileScanner.isSupportedFile entries))
        end
      /\ forall dirs n,
           In (dirs, n) (Spec.discovered FileScanner.IGNORED_DIRS
                                         FileScanner.isSupportedFile entries)
           <-> Spec.fileAt entries dirs n
               /\ (forall d, In d dirs ->
                      Js.startsWith d "." = false
                      /\ ~ In d FileScanner.IGNORED_DIRS)
               /\ exists ext, In ext FileScanner.SUPPORTED_EXTENSIONS
                              /\ Js.endsWith n ext = true).
Proof.
  split.
  - destruct (discovery_correct path_join ContextManager.IGNORED_DIRS
                ContextManager.isSupportedFile dir entries) as [Hout Hin].
    split; [exact Hout |].
    intros dirs n. rewrite Hin.
    unfold ContextManager.isSupportedFile. rewrite hasProperty_In. reflexivity.
  - destruct (discovery_correct path_join FileScanner.IGNORED_DIRS
                FileScanner.isSupportedFile dir entries) as [Hout Hin].
    split; [exact Hout |].
    intros dirs n. rewrite Hin.
    unfold FileScanner.isSupportedFile. rewrite existsb_exists. reflexivity.
Qed.

(** ** Language tags *)

Lemma text_is_no_tag : ~ In "text" (map snd ContextManager.SUPPORTED_EXTENSIONS).
Proof.
  intros H. apply includes_In in H. discriminate H.
Qed.

Lemma fileAt_entryName (es : list Fs.Dirent) (dirs : list string) (n : string) :
  Spec.fileAt es dirs n ->
  forallb Spec.wellNamedIn es = true ->
  NodePath.entryName n = true.
Proof.
  induction 1 as [es n Hin | es d sub dirs n Hin _ IH]; intros Hes;
    rewrite forallb_forall in Hes; apply Hes in Hin; cbn in Hin.
  - exact Hin.
  - apply andb_prop in Hin as [_ Hsub]. now apply IH.
Qed.

Section LanguageFacts.
Import ContextManager.
Variable path_join : string -> string -> string.
Variable path_relative : string -> string -> string.
Variable readFile : string -> Thrown + string.

(** [path.join(dir, name)] ends with the component [name], so the two
    have the same extension. *)
Hypothesis join_extname :
  forall dir name,
    NodePath.entryName name = true ->
    NodePath.extname (path_join dir name) = NodePath.extname name.

Lemma scanned_language (rootDir : string) (root : Fs.Listing)
      (paths : list string) (p : string) :
  Spec.wellNamed root = true ->
  outcome (scanDirectory path_join rootDir root) = Ok paths ->
  In p paths ->
  In (getLanguage p) (map snd SUPPORTED_EXTENSIONS).
Proof.
  intros Hnames Hscan Hp.
  unfold scanDirectory in Hscan. rewrite scanDirectory_spec in Hscan.
  destruct root as [t | entries]; [discriminate |].
  unfold Spec.scanned in Hscan.
  destruct (Spec.rejection IGNORED_DIRS entries); [discriminate |].
  cbn in Hscan. injection Hscan as <-.
  apply in_map_iff in Hp as ([dirs n] & <- & Hloc).
  apply discovered_spec in Hloc as (Hat & _ & Hn).
  apply fileAt_entryName in Hat; [| exact Hnames].
  unfold getLanguage, Spec.pathOf. cbn [fst snd].
  rewrite (join_extname _ n Hat).
  unfold isSupportedFile, hasProperty in Hn.
  destruct (getProperty SUPPORTED_EXTENSIONS (Js.toLowerCase (NodePath.extname n)))
    as [lang |] eqn:Hlang; [| discriminate].
  now apply getProperty_In in Hlang.
Qed.

Lemma accepted_language (rootDir : string) (paths : list string)
      (f : FileContext) :
  In f (Spec.accepted path_relative readFile rootDir paths) ->
  exists p, In p paths /\ language f = getLanguage p.
Proof.
  unfold Spec.accepted. rewrite in_flat_map. intros (p & Hp & Hf).
  exists p. split; [exact Hp |].
  unfold Spec.acceptedEntry in Hf.
  destruct (readFile p) as [t | text]; [destruct Hf |].
  destruct (MAX_FILE_SIZE <? Js.length text)%Z; [destruct Hf |].
  destruct Hf as [<- | []]. reflexivity.
Qed.

Lemma built_language (rootDir : string) (root : Fs.Listing)
      (ctx : CodebaseContext) (f : FileContext) :
  Spec.wellNamed root = true ->
  outcome (buildContext path_join path_relative readFile rootDir root) = Ok ctx ->
  In f (files ctx) ->
  In (language f) (map snd SUPPORTED_EXTENSIONS).
Proof.
  intros Hnames Hb Hf.
  apply buildContext_ok in Hb as (paths & Hscan & Hfiles & _).
  rewrite Hfiles in Hf. apply accepted_language in Hf as (p & Hp & ->).
  now apply (scanned_language rootDir root paths).
Qed.
End LanguageFacts.

(** C10.  Where [path.join] keeps the extension of the name it appends and
    the entries have names that [readdir] can give, every file of a context
    returned by [buildContext] or by [getCondensedContext] has a language
    tag that is a value of the extension table, and so none has the tag
    [text]. *)
Theorem C10_language_tags
        (path_join path_relative : string -> string -> string)
        (readFile : string -> Thrown + string)
        (rootDir : string) (root : Fs.Listing) (maxFiles : option Z)
        (ctx : ContextManager.CodebaseContext) :
  (forall dir name,
      NodePath.entryName name = true ->
      NodePath.extname (path_join dir name) = NodePath.extname name) ->
  Spec.wellNamed root = true ->
  outcome (ContextManager.buildContext path_join path_relative readFile
             rootDir root) = Ok ctx
  \/ outcome (ContextManager.getCondensedContext path_join path_relative readFile
                rootDir root maxFiles) = Ok ctx ->
  Forall (fun f =>
            In (ContextManager.language f)
               (map snd ContextManager.SUPPORTED_EXTENSIONS)
            /\ ContextManager.language f <> "text")
         (ContextManager.files ctx).
Proof.
  intros Hjoin Hnames Hctx.
  assert (Htags : forall f, In f (ContextManager.files ctx) ->
            In (ContextManager.language f)
               (map snd ContextManager.SUPPORTED_EXTENSIONS)).
  { destruct Hctx as [Hb | Hc]; intros f Hf.
    - now apply (built_language path_join path_relative readFile Hjoin
                   rootDir root ctx).
    - rewrite getCondensedContext_outcome in Hc.
      destruct (outcome (ContextManager.buildContext path_join path_relative
                           readFile rootDir root)) as [full | t] eqn:Hb;
        [| discriminate].
      injection Hc as <-. apply condensed_incl in Hf.
      now apply (built_language path_join path_relative readFile Hjoin
                   rootDir root full). }
  apply Forall_forall. intros f Hf. split; [now apply Htags |].
  intros Heq. apply text_is_no_tag. rewrite <- Heq. now apply Htags.
Qed.

(** *** The concrete [join] keeps the extension *)

Lemma list_ascii_of_string_app (a b : string) :
  list_ascii_of_string (a ++ b)
  = list_ascii_of_string a ++ list_ascii_of_string b.
Proof.
  induction a as [| c a IH]; cbn; [reflexivity | now rewrite IH].
Qed.

Lemma takeWhile_all (p : ascii -> bool) (l rest : list ascii) :
  forallb p l = true ->
  match rest with [] => True | c :: _ => p c = false end ->
  NodePath.takeWhile p (l ++ rest) = l.
Proof.
  intros Hl Hrest. induction l as [| c l IH]; cbn in *.
  - destruct rest as [| c rest]; [reflexivity |]. cbn. now rewrite Hrest.
  - apply andb_prop in Hl as [-> Hl]. now rewrite IH.
Qed.

Lemma lastComponentRev_plain (pre : list ascii) (name : string) :
  NodePath.entryName name = true ->
  match pre with [] => True | c :: _ => NodePath.isSlash c = true end ->
  NodePath.takeWhile (fun c => negb (NodePath.isSlash c))
    (NodePath.dropWhile NodePath.isSlash
       (rev (list_ascii_of_string name) ++ pre))
  = rev (list_ascii_of_string name).
Proof.
  unfold NodePath.entryName. intros Hname Hpre.
  apply andb_prop in Hname as [Hname Hplain].
  apply andb_prop in Hname as [Hname _].
  apply andb_prop in Hname as [Hname _].
  assert (Hrev : forallb (fun c => negb (NodePath.isSlash c))
                         (rev (list_ascii_of_string name)) = true).
  { rewrite forallb_forall in *. intros c Hc. apply Hplain. now apply in_rev. }
  destruct (rev (list_ascii_of_string name)) as [| c r] eqn:Hr.
  - exfalso. destruct name as [| c name]; [discriminate Hname |].
    cbn in Hr. now destruct (rev (list_ascii_of_string name)).
  - cbn [app NodePath.dropWhile].
    cbn [forallb] in Hrev. apply andb_prop in Hrev as Hc. destruct Hc as [Hc _].
    apply negb_true_iff in Hc. rewrite Hc.
    apply (takeWhile_all _ (c :: r) pre Hrev).
    destruct pre as [| s pre]; [exact I | now rewrite Hpre].
Qed.

Lemma demo_join_extname (dir name : string) :
  NodePath.entryName name = true ->
  NodePath.extname (Demo.join dir name) = NodePath.extname name.
Proof.
  intros Hname. unfold NodePath.extname, NodePath.lastComponentRev, Demo.join.
  f_equal. f_equal.
  rewrite !list_ascii_of_string_app, rev_app_distr. cbn [list_ascii_of_string].
  rewrite rev_app_distr. cbn [rev app]. rewrite <- app_assoc. cbn [app].
  rewrite (lastComponentRev_plain _ name Hname) by reflexivity.
  pose proof (lastComponentRev_plain [] name Hname I) as H.
  rewrite app_nil_r in H. now rewrite H.
Qed.

Lemma C10_language_tags_witness :
  Forall (fun f =>
            In (ContextManager.language f)
               (map snd ContextManager.SUPPORTED_EXTENSIONS)
            /\ ContextManager.language f <> "text")
         (ContextManager.files Demo.projectContext).
Proof.
  apply (C10_language_tags Demo.join Demo.relative Demo.readProject
                           "/repo" Demo.project None Demo.projectContext).
  - exact demo_join_extname.
  - reflexivity.
  - left. vm_compute. reflexivity.
Defined.

Lemma C9_file_discovery_witness :
  outcome (ContextManager.scanDirectory Demo.join "/repo" Demo.project)
  = Ok ["/repo/app.ts"; "/repo/src/util.py"]
  /\ outcome (FileScanner.scanDirectory Demo.join "/repo" Demo.project)
     = Ok ["/repo/app.ts"; "/repo/src/util.py"].
Proof.
  split.
  - exact (proj1 (proj1 (C9_file_discovery Demo.join "/repo" Demo.projectEntries))).
  - exact (proj1 (proj2 (C9_file_discovery Demo.join "/repo" Demo.projectEntries))).
Defined.

(** ** The claims about context building *)

Lemma accepted_none (path_relative : string -> string -> string)
      (readFile : string -> Thrown + string) (rootDir : string)
      (paths : list string) :
  Forall (Spec.skipped readFile) paths ->
  Spec.accepted path_relative readFile rootDir paths = [].
Proof.
  induction 1 as [| p paths Hp _ IH]; [reflexivity |].
  unfold Spec.accepted in *. cbn [flat_map]. rewrite IH, app_nil_r.
  unfold Spec.skipped in Hp. unfold Spec.acceptedEntry.
  destruct (readFile p) as [t | text]; [reflexivity |].
  apply Z.ltb_lt in Hp. now rewrite Hp.
Qed.

(** C3.  Every failure of [buildContext] is a [ContextBuildError], and a
    context it returns has at least one file.  For a root path that was
    supplied (not the empty string): (1) when the root cannot be listed, or
    the scan is rejected below it, the error is "Failed to scan directory"
    and carries the root directory; (2) when the scan finds no supported
    file, as in an empty directory, the error is "No supported files
    found"; (3) when the scan finds files and the read pass skips them all,
    the error is "No readable files found or all files exceed maximum size
    limit"; the three messages differ. *)
Theorem C3_context_build_failures
        (path_join path_relative : string -> string -> string)
        (readFile : string -> Thrown + string)
        (rootDir : string) (root : Fs.Listing) :
  let build :=
    outcome (ContextManager.buildContext path_join path_relative readFile
               rootDir root) in
  let scan := outcome (ContextManager.scanDirectory path_join rootDir root) in
  let scanFailed :=
    ContextBuildError ("Failed to scan directory: " ++ rootDir)%string
                      (Some rootDir) in
  let noneFound :=
    ContextBuildError ("No supported files found in directory: " ++ rootDir)%string
                      None in
  let noneReadable :=
    ContextBuildError
      "No readable files found or all files exceed maximum size limit" None in
  (forall t, build = Throw t ->
             exists msg dir, t = ThrownError (ContextBuildError msg dir))
  /\ (forall ctx, build = Ok ctx -> ContextManager.files ctx <> [])
  /\ (rootDir <> "" ->
      (forall t, root = inl t -> build = Throw (ThrownError scanFailed))
      /\ (forall t, scan = Throw t -> build = Throw (ThrownError scanFailed))
      /\ (root = inr [] -> build = Throw (ThrownError noneFound))
      /\ (scan = Ok [] -> build = Throw (ThrownError noneFound))
      /\ (forall paths,
             scan = Ok paths -> paths <> [] ->
             Forall (Spec.skipped readFile) paths ->
             build = Throw (ThrownError noneReadable))
      /\ message scanFailed <> message noneFound
      /\ message scanFailed <> message noneReadable
      /\ message noneFound <> message noneReadable).
Proof.
  cbn zeta. split; [| split].
  - intros t. destruct (String.eqb_spec rootDir "") as [-> | Hroot].
    + cbn. intros H; injection H as <-. eauto.
    + rewrite (buildContext_cases path_join path_relative readFile rootDir root Hroot).
      destruct (outcome (ContextManager.scanDirectory path_join rootDir root))
        as [[| p paths] | t'].
      * intros H; injection H as <-. eauto.
      * destruct (Spec.accepted path_relative readFile rootDir (p :: paths));
          [intros H; injection H as <-; eauto | discriminate].
      * intros H; injection H as <-. eauto.
  - intros ctx H. now apply buildContext_ok in H as (_ & _ & _ & H & _).
  - intros Hroot.
    rewrite (buildContext_cases path_join path_relative readFile rootDir root Hroot).
    repeat split.
    + intros t ->. reflexivity.
    + intros t ->. reflexivity.
    + intros ->. reflexivity.
    + intros ->. reflexivity.
    + intros paths -> Hne Hskip.
      destruct paths as [| p paths]; [congruence |].
      now rewrite (accepted_none path_relative readFile rootDir (p :: paths) Hskip).
    + cbn. intros H. discriminate H.
    + cbn. intros H. discriminate H.
    + cbn. intros H. discriminate H.
Qed.

Lemma C3_context_build_failures_witness :
  outcome (ContextManager.buildContext Demo.join Demo.relative Demo.readProject
             "/missing" (inl Demo.enoent))
  = Throw (ThrownError (ContextBuildError "Failed to scan directory: /missing"
                                          (Some "/missing")))
  /\ outcome (ContextManager.buildContext Demo.join Demo.relative Demo.readProject
                "/empty" (inr []))
     = Throw (ThrownError (ContextBuildError
                             "No supported files found in directory: /empty" None))
  /\ outcome (ContextManager.buildContext Demo.join Demo.relative
                (fun _ => inl Demo.enoent) "/repo" Demo.project)
     = Throw (ThrownError (ContextBuildError
                "No readable files found or all files exceed maximum size limit"
                None)).
Proof.
  split; [| split].
  - destruct (C3_context_build_failures Demo.join Demo.relative Demo.readProject
                "/missing" (inl Demo.enoent)) as (_ & _ & H).
    destruct H as (H & _); [discriminate |].
    exact (H Demo.enoent eq_refl).
  - destruct (C3_context_build_failures Demo.join Demo.relative Demo.readProject
                "/empty" (inr [])) as (_ & _ & H).
    destruct H as (_ & _ & H & _); [discriminate |].
    exact (H eq_refl).
  - destruct (C3_context_build_failures Demo.join Demo.relative
                (fun _ => inl Demo.enoent) "/repo" Demo.project) as (_ & _ & H).
    destruct H as (_ & _ & _ & _ & H & _); [discriminate |].
    apply (H ["/repo/app.ts"; "/repo/src/util.py"]).
    + reflexivity.
    + discriminate.
    + repeat constructor.
Defined.

Lemma length_copies (n : N) (c : ascii) :
  Js.length (Demo.copies n c) = Z.of_N n.
Proof.
  unfold Js.length, Demo.copies.
  induction n as [| n IH] using N.peano_ind; [reflexivity |].
  rewrite N.iter_succ. cbn [String.length].
  rewrite Nat2Z.inj_succ, IH, N2Z.inj_succ. reflexivity.
Qed.

(** C5.  The read pass never raises: from any sequence of paths it keeps,
    in order, an entry for each path that can be read and whose content is
    not longer than the cap of 100 KiB, it skips the others, and it writes
    a warning for each path whose read failed with an error.  As soon as
    one path is kept, [buildContext] returns the kept entries.  For a
    directory that holds one [.js] file of 200 KiB and one [.py] file of
    2 KiB, the context has the [.py] file only and [totalFiles] is 1. *)
Theorem C5_read_pass_skips
        (path_join path_relative : string -> string -> string)
        (readFile : string -> Thrown + string) (rootDir : string) :
  let build root :=
    outcome (ContextManager.buildContext path_join path_relative readFile
               rootDir root) in
  let kept := Spec.accepted path_relative readFile rootDir in
  let entryFor p text :=
    {| ContextManager.path := path_relative rootDir p;
       ContextManager.content := text;
       ContextManager.language := ContextManager.getLanguage p;
       ContextManager.size := Js.length text |} in
  (forall paths,
      let pass := ContextManager.readFiles path_relative readFile rootDir paths [] in
      outcome pass = Ok (kept paths)
      /\ (forall f, In f (kept paths)
                    <-> exists p text,
                          In p paths /\ readFile p = inr text
                          /\ (Js.length text <= ContextManager.MAX_FILE_SIZE)%Z
                          /\ f = entryFor p text)
      /\ (forall p e, In p paths -> readFile p = inl (ThrownError e) ->
                      In ("Warning: Could not read file " ++ p ++ ": "
                          ++ message e)%string (console pass)))
  /\ (forall root paths,
         rootDir <> "" ->
         outcome (ContextManager.scanDirectory path_join rootDir root) = Ok paths ->
         kept paths <> [] ->
         build root = Ok {| ContextManager.files := kept paths;
                            ContextManager.summary :=
                              ContextManager.generateSummary (kept paths) |})
  /\ (forall jsName pyName big small entries,
         rootDir <> "" ->
         NodePath.extname jsName = ".js" ->
         NodePath.extname pyName = ".py" ->
         entries = [Fs.FileEntry jsName; Fs.FileEntry pyName]
         \/ entries = [Fs.FileEntry pyName; Fs.FileEntry jsName] ->
         readFile (path_join rootDir jsName) = inr big ->
         Js.length big = (200 * 1024)%Z ->
         readFile (path_join rootDir pyName) = inr small ->
         Js.length small = (2 * 1024)%Z ->
         exists ctx,
           build (inr entries) = Ok ctx
           /\ ContextManager.files ctx = [entryFor (path_join rootDir pyName) small]
           /\ ContextManager.totalFiles (ContextManager.summary ctx) = 1).
Proof.
  cbn zeta. split; [| split].
  - intros paths. rewrite readFiles_spec. cbn [outcome console fst snd app].
    split; [reflexivity | split].
    + intros f. unfold Spec.accepted. rewrite in_flat_map. split.
      * intros (p & Hp & Hf). unfold Spec.acceptedEntry in Hf.
        destruct (readFile p) as [t | text] eqn:Hread; [destruct Hf |].
        destruct (Z.ltb_spec ContextManager.MAX_FILE_SIZE (Js.length text))
          as [Hbig | Hfits]; [destruct Hf |].
        destruct Hf as [<- | []]. exists p, text. auto.
      * intros (p & text & Hp & Hread & Hfits & ->).
        exists p. split; [exact Hp |]. unfold Spec.acceptedEntry. rewrite Hread.
        destruct (Z.ltb_spec ContextManager.MAX_FILE_SIZE (Js.length text))
          as [Hbig | _]; [lia | now left].
    + intros p e Hp Hread. apply in_flat_map. exists p. split; [exact Hp |].
      unfold Spec.warningFor. rewrite Hread. now left.
  - intros root paths Hroot Hscan Hkept.
    rewrite (buildContext_cases path_join path_relative readFile rootDir root Hroot).
    rewrite Hscan.
    destruct paths as [| p paths]; [now destruct Hkept |].
    now destruct (Spec.accepted path_relative readFile rootDir (p :: paths)).
  - intros jsName pyName big small entries Hroot Hjs Hpy Hentries
           Hbig Hbiglen Hsmall Hsmalllen.
    assert (Sjs : ContextManager.isSupportedFile jsName = true)
      by (unfold ContextManager.isSupportedFile; now rewrite Hjs).
    assert (Spy : ContextManager.isSupportedFile pyName = true)
      by (unfold ContextManager.isSupportedFile; now rewrite Hpy).
    assert (Kjs : Spec.acceptedEntry path_relative readFile rootDir
                    (path_join rootDir jsName) = []).
    { unfold Spec.acceptedEntry. now rewrite Hbig, Hbiglen. }
    assert (Kpy : Spec.acceptedEntry path_relative readFile rootDir
                    (path_join rootDir pyName)
                  = [ {| ContextManager.path :=
                           path_relative rootDir (path_join rootDir pyName);
                         ContextManager.content := small;
                         ContextManager.language :=
                           ContextManager.getLanguage (path_join rootDir pyName);
                         ContextManager.size := Js.length small |} ]).
    { unfold Spec.acceptedEntry. now rewrite Hsmall, Hsmalllen. }
    rewrite (buildContext_cases path_join path_relative readFile
               rootDir (inr entries) Hroot).
    unfold ContextManager.scanDirectory. rewrite scanDirectory_spec.
    destruct Hentries as [-> | ->];
      unfold Spec.rejection, Spec.discovered;
      cbn [fold_right flat_map Spec.rejectionIn Spec.discoveredIn];
      rewrite Sjs, Spy;
      cbn [app Spec.scanned map outcome fst];
      unfold Spec.accepted, Spec.pathOf; cbn [flat_map fst snd fold_left];
      rewrite Kjs, Kpy; cbn [app];
      (eexists; split; [reflexivity | split; reflexivity]).
Qed.

Lemma C5_read_pass_skips_witness :
  exists ctx,
    outcome (ContextManager.buildContext Demo.join Demo.relative Demo.readTwoFiles
               "/repo" Demo.twoFiles) = Ok ctx
    /\ map ContextManager.path (ContextManager.files ctx) = ["small.py"]
    /\ ContextManager.totalFiles (ContextManager.summary ctx) = 1.
Proof.
  destruct (C5_read_pass_skips Demo.join Demo.relative Demo.readTwoFiles "/repo")
    as (_ & _ & H).
  destruct (H "big.js" "small.py" Demo.bigText Demo.smallText
              [Fs.FileEntry "big.js"; Fs.FileEntry "small.py"])
    as (ctx & Hctx & Hfiles & Htotal).
  - discriminate.
  - reflexivity.
  - reflexivity.
  - now left.
  - reflexivity.
  - apply length_copies.
  - reflexivity.
  - apply length_copies.
  - exists ctx. split; [exact Hctx | split; [| exact Htotal]].
    rewrite Hfiles. reflexivity.
Defined.

(** ** The claims about the remote calls *)

(** C4.  Once the inputs of [analyzeCodebase] are accepted and the
    condensed context is built, the outcome is decided by the response to
    the analysis request: a response without an object, or whose
    [vulnerabilities] is not an array, gives the [AIAnalysisError]
    "Invalid response format from AI analysis"; a response whose
    [vulnerabilities] is an array gives that array, the empty one included;
    a request that fails with an error gives the [AIAnalysisError] "AI
    analysis request failed" with that error as its cause, and one that
    fails with another value gives an [AIAnalysisError] whose message ends
    with that value. *)
Theorem C4_analysis_validation
        (path_join path_relative : string -> string -> string)
        (readFile : string -> Thrown + string)
        (generateObject :
           Model.Config -> string
           -> Thrown + Model.Generated CodeAnalyzer.AnalysisObject)
        (config : Model.Config) (rootDir : string) (root : Fs.Listing)
        (ctx : ContextManager.CodebaseContext) :
  rootDir <> "" -> Model.apiKey config <> "" -> Model.model config <> "" ->
  outcome (ContextManager.getCondensedContext path_join path_relative readFile
             rootDir root (Some 15%Z)) = Ok ctx ->
  let response :=
    generateObject config (CodeAnalyzer.buildStructuredAnalysisPrompt ctx) in
  let result :=
    outcome (CodeAnalyzer.analyzeCodebase path_join path_relative readFile
               generateObject config rootDir root) in
  let invalid :=
    Throw (ThrownError
             (AIAnalysisError "Invalid response format from AI analysis" None)) in
  (forall r, response = inr r -> Model.object r = None -> result = invalid)
  /\ (forall r obj,
         response = inr r -> Model.object r = Some obj ->
         CodeAnalyzer.vulnerabilities obj = Model.NotAnArray ->
         result = invalid)
  /\ (forall r obj vulns,
         response = inr r -> Model.object r = Some obj ->
         CodeAnalyzer.vulnerabilities obj = Model.AnArray vulns ->
         result = Ok vulns)
  /\ (forall r obj,
         response = inr r -> Model.object r = Some obj ->
         CodeAnalyzer.vulnerabilities obj = Model.AnArray [] ->
         result = Ok [])
  /\ (forall e,
         response = inl (ThrownError e) ->
         result = Throw (ThrownError
                           (AIAnalysisError "AI analysis request failed" (Some e))))
  /\ (forall shown,
         response = inl (ThrownValue shown) ->
         result = Throw (ThrownError
                           (AIAnalysisError
                              ("AI analysis request failed: " ++ shown)%string None))).
Proof.
  intros Hroot Hkey Hmodel Hctx. cbn zeta.
  rewrite (analyzeCodebase_request path_join path_relative readFile generateObject
             config rootDir root ctx Hroot Hkey Hmodel Hctx).
  unfold Spec.validated.
  repeat split.
  - intros r -> ->. reflexivity.
  - intros r obj -> -> ->. reflexivity.
  - intros r obj vulns -> -> ->. reflexivity.
  - intros r obj -> -> ->. reflexivity.
  - intros e ->. reflexivity.
  - intros shown ->. reflexivity.
Qed.

Lemma C4_analysis_validation_witness :
  outcome (CodeAnalyzer.analyzeCodebase Demo.join Demo.relative Demo.readProject
             Demo.analysisModel Demo.config "/repo" Demo.project)
  = Ok [Demo.finding].
Proof.
  destruct (C4_analysis_validation Demo.join Demo.relative Demo.readProject
              Demo.analysisModel Demo.config "/repo" Demo.project
              (snd (ContextManager.condense Demo.projectContext 15)))
    as (_ & _ & H & _).
  - discriminate.
  - discriminate.
  - discriminate.
  - vm_compute. reflexivity.
  - exact (H Demo.analysisResponse _ [Demo.finding] eq_refl eq_refl eq_refl).
Defined.

Section InsightFacts.
Import Model.
Variable generateObject :
  Config -> string -> Thrown + Generated InsightGenerator.CohesiveInsights.

Local Notation generateInsights := (InsightGenerator.generateInsights generateObject).

(** Once its inputs are accepted, [generateInsights] answers from the
    response to its request. *)
Lemma generateInsights_request (config : Config) (vulns : list Vulnerability) :
  apiKey config <> "" -> model config <> "" ->
  outcome (generateInsights config (AnArray vulns))
  = match generateObject config (InsightGenerator.buildInsightPrompt vulns) with
    | inl (ThrownError e) =>
        Throw (ThrownError
                 (InsightGenerationError "Failed to generate AI insights" (Some e)))
    | inl (ThrownValue shown) =>
        Throw (ThrownError
                 (InsightGenerationError
                    ("Failed to generate AI insights: " ++ shown)%string None))
    | inr r =>
        match object r with
        | None =>
            Throw (ThrownError
                     (InsightGenerationError
                        "Invalid response format from AI insight generation" None))
        | Some obj =>
            match InsightGenerator.analysis obj,
                  InsightGenerator.riskAssessment obj with
            | Some paragraph, Some _ =>
                if String.eqb paragraph ""
                then Throw (ThrownError
                              (InsightGenerationError
                                 "AI response missing analysis paragraph" None))
                else Ok [paragraph]
            | Some paragraph, None =>
                if String.eqb paragraph ""
                then Throw (ThrownError
                              (InsightGenerationError
                                 "AI response missing analysis paragraph" None))
                else Throw (ThrownError
                              (InsightGenerationError
                                 "AI response missing risk assessment" None))
            | None, _ =>
                Throw (ThrownError
                         (InsightGenerationError
                            "AI response missing analysis paragraph" None))
            end
        end
    end.
Proof.
  intros Hkey Hmodel. unfold InsightGenerator.generateInsights.
  apply String.eqb_neq in Hkey, Hmodel. rewrite Hkey, Hmodel.
  rewrite outcome_bind, outcome_tryAsync, outcome_call.
  destruct (generateObject config (InsightGenerator.buildInsightPrompt vulns))
    as [[e | shown] | r]; try reflexivity.
  destruct (object r) as [obj |]; [| reflexivity].
  destruct (InsightGenerator.analysis obj) as [paragraph |]; [| reflexivity].
  destruct (String.eqb paragraph ""); [now destruct (InsightGenerator.riskAssessment obj) |].
  destruct (InsightGenerator.riskAssessment obj); reflexivity.
Qed.
End InsightFacts.

(** C8.  When [generateInsights] succeeds on a sequence of
    vulnerabilities, what it returns is the one-element sequence of the
    paragraph of the response, and the paragraph is not empty.  The empty
    sequence is accepted: a response to its request that has a non-empty
    paragraph and a risk assessment gives that paragraph; and if the model
    answers the request for the empty sequence as it answers the request
    for another sequence, the two outcomes are the same. *)
Theorem C8_insights_single_narrative
        (generateObject :
           Model.Config -> string
           -> Thrown + Model.Generated InsightGenerator.CohesiveInsights)
        (config : Model.Config) :
  let insightsFor vulns :=
    outcome (InsightGenerator.generateInsights generateObject config
               (Model.AnArray vulns)) in
  let request vulns :=
    generateObject config (InsightGenerator.buildInsightPrompt vulns) in
  (forall vulns l,
      insightsFor vulns = Ok l ->
      exists r obj narrative,
        request vulns = inr r /\ Model.object r = Some obj
        /\ InsightGenerator.analysis obj = Some narrative
        /\ narrative <> "" /\ l = [narrative])
  /\ (forall r obj narrative risk,
         Model.apiKey config <> "" -> Model.model config <> "" ->
         request [] = inr r -> Model.object r = Some obj ->
         InsightGenerator.analysis obj = Some narrative -> narrative <> "" ->
         InsightGenerator.riskAssessment obj = Some risk ->
         insightsFor [] = Ok [narrative])
  /\ (forall vulns, request [] = request vulns -> insightsFor [] = insightsFor vulns).
Proof.
  cbn zeta. split; [| split].
  - intros vulns l.
    destruct (String.eqb_spec (Model.apiKey config) "") as [Ekey | Hkey].
    { unfold InsightGenerator.generateInsights.
      apply String.eqb_eq in Ekey. rewrite Ekey. discriminate. }
    destruct (String.eqb_spec (Model.model config) "") as [Emodel | Hmodel].
    { unfold InsightGenerator.generateInsights.
      apply String.eqb_neq in Hkey. apply String.eqb_eq in Emodel.
      rewrite Hkey, Emodel. discriminate. }
    rewrite (generateInsights_request generateObject config vulns Hkey Hmodel).
    destruct (generateObject config (InsightGenerator.buildInsightPrompt vulns))
      as [[e | shown] | r]; try discriminate.
    destruct (Model.object r) as [obj |] eqn:Hobj; [| discriminate].
    destruct (InsightGenerator.analysis obj) as [paragraph |] eqn:Hpar;
      [| discriminate].
    destruct (InsightGenerator.riskAssessment obj) as [risk |];
      destruct (String.eqb_spec paragraph "") as [E | N]; try discriminate.
    intros H; injection H as <-.
    exists r, obj, paragraph. auto.
  - intros r obj narrative risk Hkey Hmodel Hr Hobj Hpar Hne Hrisk.
    rewrite (generateInsights_request generateObject config [] Hkey Hmodel).
    rewrite Hr, Hobj, Hpar, Hrisk.
    apply String.eqb_neq in Hne. now rewrite Hne.
  - intros vulns Hsame.
    unfold InsightGenerator.generateInsights.
    destruct (String.eqb (Model.apiKey config) ""); [reflexivity |].
    destruct (String.eqb (Model.model config) ""); [reflexivity |].
    rewrite !outcome_bind, !outcome_tryAsync, !outcome_call.
    now rewrite Hsame.
Qed.

Lemma C8_insights_single_narrative_witness :
  outcome (InsightGenerator.generateInsights Demo.narrativeModel Demo.config
             (Model.AnArray []))
  = Ok ["The codebase is clean."].
Proof.
  destruct (C8_insights_single_narrative Demo.narrativeModel Demo.config)
    as (_ & H & _).
  apply (H Demo.narrativeResponse Demo.narrative "The codebase is clean." Demo.risk).
  - discriminate.
  - discriminate.
  - reflexivity.
  - reflexivity.
  - reflexivity.
  - discriminate.
  - reflexivity.
Defined.

(** The earlier version of [generateInsights] returns the insights, the
    recommendations and the notes on the risk, not one paragraph. *)
Lemma legacy_generateInsights_several :
  outcome (LegacyInsightGenerator.generateInsights Demo.legacyModel Demo.config
             (Model.AnArray []))
  = Ok [ LegacyInsightGenerator.highRiskBanner;
         "No input validation."; "Secrets in code.";
         "Recommendation: Rotate the keys.";
         "Priority areas: auth" ].
Proof. reflexivity. Qed.

(** ** The claim about the report *)

Lemma report_counts (vulns : list Vulnerability) (ins : list string) :
  let report := Reporter.generateReport vulns ins in
  vulnerabilities report = vulns
  /\ total (summary report) = length vulns
  /\ total (summary report)
     = high (summary report) + medium (summary report) + low (summary report)
  /\ high (summary report) = count_occ Severity_eq_dec (map severity vulns) High
  /\ medium (summary report) = count_occ Severity_eq_dec (map severity vulns) Medium
  /\ low (summary report) = count_occ Severity_eq_dec (map severity vulns) Low.
Proof.
  cbn. repeat split.
  - apply severity_partition.
  - apply (severity_count High).
  - apply (severity_count Medium).
  - apply (severity_count Low).
Qed.

(** A report of the scan pipeline is the report of the vulnerabilities
    that [analyzeCodebase] returned. *)
Lemma pipeline_report
      (path_join path_relative : string -> string -> string)
      (readFile : string -> Thrown + string)
      (generateAnalysis :
         Model.Config -> string
         -> Thrown + Model.Generated CodeAnalyzer.AnalysisObject)
      (generateNarrative :
         Model.Config -> string
         -> Thrown + Model.Generated InsightGenerator.CohesiveInsights)
      (getConfig : option Model.Config) (dir : string) (root : Fs.Listing)
      (verbose : bool) (report : VulnerabilityReport) :
  outcome (Cli.scanDirectoryForVulnerabilities path_join path_relative readFile
             generateAnalysis generateNarrative getConfig dir root verbose)
  = Ok report ->
  exists config vulns ins,
    getConfig = Some config
    /\ outcome (CodeAnalyzer.analyzeCodebase path_join path_relative readFile
                  generateAnalysis config dir root) = Ok vulns
    /\ report = Reporter.generateReport vulns ins.
Proof.
  unfold Cli.scanDirectoryForVulnerabilities.
  destruct getConfig as [config |]; [| discriminate].
  rewrite outcome_bind.
  assert (Hlog : forall line : string,
             outcome (if verbose then log line else ret tt) = Ok tt)
    by (intros line; now destruct verbose).
  rewrite Hlog, outcome_bind.
  destruct (outcome (CodeAnalyzer.analyzeCodebase path_join path_relative readFile
                       generateAnalysis config dir root)) as [vulns | t] eqn:Hv;
    [| discriminate].
  rewrite outcome_bind, Hlog, outcome_bind.
  destruct (outcome (InsightGenerator.generateInsights generateNarrative config
                       (Model.AnArray vulns))) as [ins | t];
    [| discriminate].
  intros H; injection H as <-. exists config, vulns, ins. auto.
Qed.

(** C2.  The report built by [Reporter.generateReport] carries the given
    vulnerabilities, its [total] is their number, [total] is the sum of
    [high], [medium] and [low], and each of the three counts is the number
    of occurrences of that severity in the given sequence.  So it is for
    every report of the scan pipeline: its counts are those of the
    vulnerabilities it lists, whatever count the model reported. *)
Theorem C2_report_counts :
  (forall (vulns : list Vulnerability) (ins : list string),
      let report := Reporter.generateReport vulns ins in
      vulnerabilities report = vulns
      /\ total (summary report) = length vulns
      /\ total (summary report)
         = high (summary report) + medium (summary report) + low (summary report)
      /\ high (summary report)
         = count_occ Severity_eq_dec (map severity vulns) High
      /\ medium (summary report)
         = count_occ Severity_eq_dec (map severity vulns) Medium
      /\ low (summary report)
         = count_occ Severity_eq_dec (map severity vulns) Low)
  /\ (forall path_join path_relative readFile generateAnalysis generateNarrative
             getConfig dir root verbose report,
         outcome (Cli.scanDirectoryForVulnerabilities path_join path_relative
                    readFile generateAnalysis generateNarrative getConfig
                    dir root verbose) = Ok report ->
         let counted := count_occ Severity_eq_dec
                                  (map severity (vulnerabilities report)) in
         total (summary report) = length (vulnerabilities report)
         /\ total (summary report)
            = high (summary report) + medium (summary report)
              + low (summary report)
         /\ high (summary report) = counted High
         /\ medium (summary report) = counted Medium
         /\ low (summary report) = counted Low).
Proof.
  split; [exact report_counts |].
  intros pj pr rf genA genN getConfig dir root verbose report H.
  apply pipeline_report in H as (config & vulns & ins & _ & _ & ->).
  destruct (report_counts vulns ins) as (Hv & Ht & Hsum & Hh & Hm & Hl).
  cbn zeta in *. rewrite Hv. auto.
Qed.

Lemma C2_report_counts_witness :
  total (summary (Reporter.generateReport [Demo.finding] ["The codebase is clean."]))
  = 1.
Proof.
  destruct C2_report_counts as (_ & H).
  destruct (H Demo.join Demo.relative Demo.readProject Demo.analysisModel
              Demo.narrativeModel (Some Demo.config) "/repo" Demo.project false
              (Reporter.generateReport [Demo.finding] ["The codebase is clean."]))
    as (Htotal & _).
  - vm_compute. reflexivity.
  - exact Htotal.
Defined.


(* ===================================================================== *)
(** * Further properties *)
(* ===================================================================== *)

(** ** The summary of a returned context *)

Lemma getProperty_setProperty {V} (obj : list (string * V)) (k k' : string) (v : V) :
  ContextManager.getProperty (ContextManager.setProperty obj k v) k'
  = if String.eqb k k' then Some v else ContextManager.getProperty obj k'.
Proof.
  induction obj as [| [k0 w] obj IH]; cbn; [reflexivity |].
  destruct (String.eqb_spec k0 k) as [-> | N]; cbn.
  - now destruct (String.eqb k k').
  - rewrite IH.
    destruct (String.eqb_spec k0 k') as [-> | N']; [| reflexivity].
    destruct (String.eqb_spec k k') as [-> | _]; [congruence | reflexivity].
Qed.

Lemma setProperty_keys {V} (obj : list (string * V)) (k : string) (v : V) (x : string) :
  In x (map fst (ContextManager.setProperty obj k v)) ->
  x = k \/ In x (map fst obj).
Proof.
  induction obj as [| [k0 w] obj IH]; cbn.
  - intros [<- | []]. now left.
  - destruct (String.eqb k0 k); cbn.
    + intros [<- | H]; auto.
    + intros [<- | H]; [auto |]. destruct (IH H); auto.
Qed.

Lemma setProperty_NoDup {V} (obj : list (string * V)) (k : string) (v : V) :
  NoDup (map fst obj) ->
  NoDup (map fst (ContextManager.setProperty obj k v)).
Proof.
  induction obj as [| [k0 w] obj IH]; cbn; intros H.
  - repeat constructor. intros [].
  - apply NoDup_cons_iff in H as [Hk0 Hobj].
    destruct (String.eqb_spec k0 k) as [-> | N]; cbn.
    + now constructor.
    + constructor; [| now apply IH].
      intros Hin. apply setProperty_keys in Hin as [-> | Hin]; congruence.
Qed.

Section HistogramFacts.
Import ContextManager Measures.

(** The histogram that [languages] is after the loop went over [seen]. *)
Local Notation counts obj seen :=
  (forall lang,
      getProperty obj lang
      = if countTag lang seen =? 0 then None else Some (countTag lang seen)).

Lemma summaryStep_counts (st : SummaryLoop) (f : FileContext)
      (seen : list FileContext) :
  counts (loopLanguages st) seen ->
  counts (loopLanguages (summaryStep st f)) (seen ++ [f]).
Proof.
  intros H lang.
  assert (E : loopLanguages (summaryStep st f)
              = setProperty (loopLanguages st) (language f)
                  (match getProperty (loopLanguages st) (language f) with
                   | Some n => n
                   | None => 0
                   end + 1)).
  { unfold summaryStep. now destruct (loopLargestSize st <? size f)%Z. }
  rewrite E, getProperty_setProperty.
  unfold countTag in *. rewrite filter_app, length_app. cbn [filter].
  destruct (String.eqb_spec (language f) lang) as [<- | N].
  - replace (Spec.tagged (language f) f) with true
      by (symmetry; apply String.eqb_refl).
    cbn [length]. rewrite (H (language f)).
    replace (length (filter (Spec.tagged (language f)) seen) + 1 =? 0) with false
      by (symmetry; apply Nat.eqb_neq; lia).
    now destruct (length (filter (Spec.tagged (language f)) seen)).
  - replace (Spec.tagged lang f) with false
      by (symmetry; now apply String.eqb_neq).
    cbn [length]. rewrite Nat.add_0_r. apply H.
Qed.

Lemma summaryStep_keys (st : SummaryLoop) (f : FileContext) :
  NoDup (map fst (loopLanguages st)) ->
  NoDup (map fst (loopLanguages (summaryStep st f))).
Proof.
  intros H. unfold summaryStep.
  destruct (loopLargestSize st <? size f)%Z; cbn [loopLanguages];
    now apply setProperty_NoDup.
Qed.

Lemma summaryLoop_counts (fs seen : list FileContext) (st : SummaryLoop) :
  NoDup (map fst (loopLanguages st)) ->
  counts (loopLanguages st) seen ->
  NoDup (map fst (loopLanguages (fold_left summaryStep fs st)))
  /\ counts (loopLanguages (fold_left summaryStep fs st)) (seen ++ fs).
Proof.
  revert seen st.
  induction fs as [| f fs IH]; intros seen st Hkeys Hcounts; cbn [fold_left].
  - rewrite app_nil_r. auto.
  - replace (seen ++ f :: fs) with ((seen ++ [f]) ++ fs)
      by (now rewrite <- app_assoc).
    apply IH; [now apply summaryStep_keys | now apply summaryStep_counts].
Qed.

Lemma generateSummary_histogram (fs : list FileContext) :
  NoDup (map fst (languages (generateSummary fs)))
  /\ counts (languages (generateSummary fs)) fs.
Proof.
  unfold generateSummary; cbn [languages].
  apply (summaryLoop_counts fs [] (mkSummaryLoop [] 0 "" 0%Z)).
  - constructor.
  - intros lang. reflexivity.
Qed.
End HistogramFacts.

Section LargestFacts.
Import ContextManager Measures.

Lemma summaryStep_largest (st : SummaryLoop) (f : FileContext)
      (seen : list FileContext) :
  largestIs seen (loopLargestFile st) (loopLargestSize st) ->
  largestIs (seen ++ [f]) (loopLargestFile (summaryStep st f))
            (loopLargestSize (summaryStep st f)).
Proof.
  intros H. unfold summaryStep.
  destruct (Z.ltb_spec (loopLargestSize st) (size f)) as [Hlt | Hge];
    cbn [loopLargestFile loopLargestSize].
  - right. split.
    + destruct H as [(E & _) | (Hpos & _)]; lia.
    + exists f. repeat split; [apply in_or_app; right; now left |].
      intros g Hg. apply in_app_or in Hg as [Hg | [<- | []]]; [| lia].
      destruct H as [(E & _ & Hall) | (_ & m & _ & _ & _ & Hall)];
        specialize (Hall g Hg); lia.
  - destruct H as [(E & Ef & Hall) | (Hpos & m & Hm & Hp & Hs & Hall)].
    + left. repeat split; [assumption .. |].
      intros g Hg. apply in_app_or in Hg as [Hg | [<- | []]]; [now apply Hall | lia].
    + right. split; [assumption |]. exists m.
      repeat split; [apply in_or_app; now left | assumption .. |].
      intros g Hg. apply in_app_or in Hg as [Hg | [<- | []]]; [now apply Hall | lia].
Qed.

Lemma summaryLoop_largest (fs seen : list FileContext) (st : SummaryLoop) :
  largestIs seen (loopLargestFile st) (loopLargestSize st) ->
  largestIs (seen ++ fs) (loopLargestFile (fold_left summaryStep fs st))
            (loopLargestSize (fold_left summaryStep fs st)).
Proof.
  revert seen st.
  induction fs as [| f fs IH]; intros seen st H; cbn [fold_left].
  - now rewrite app_nil_r.
  - replace (seen ++ f :: fs) with ((seen ++ [f]) ++ fs)
      by (now rewrite <- app_assoc).
    apply IH. now apply summaryStep_largest.
Qed.

Lemma generateSummary_largest (fs : list FileContext) :
  exists largestSize, largestIs fs (largestFile (generateSummary fs)) largestSize.
Proof.
  eexists. unfold generateSummary; cbn [largestFile].
  apply (summaryLoop_largest fs [] (mkSummaryLoop [] 0 "" 0%Z)).
  left. repeat split. intros g [].
Qed.

Lemma fold_left_sizes (fs : list FileContext) (a : Z) :
  fold_left (fun sum f => (sum + size f)%Z) fs a = (a + totalSize fs)%Z.
Proof.
  revert a. induction fs as [| f fs IH]; intros a; cbn [fold_left].
  - unfold totalSize; cbn. lia.
  - rewrite IH. unfold totalSize; cbn [map fold_right]. lia.
Qed.

Lemma totalSize_bounds (fs : list FileContext) (cap : Z) :
  Forall (fun f => (0 <= size f <= cap)%Z) fs ->
  (0 <= totalSize fs <= Z.of_nat (length fs) * cap)%Z.
Proof.
  induction 1 as [| f fs Hf _ IH]; unfold totalSize in *; cbn [map fold_right length].
  - lia.
  - rewrite Nat2Z.inj_succ. lia.
Qed.

Lemma generateSummary_average (fs : list FileContext) :
  fs <> [] ->
  let n := Z.of_nat (length fs) in
  let avg := averageFileSize (generateSummary fs) in
  (2 * n * avg <= 2 * totalSize fs + n < 2 * n * (avg + 1))%Z.
Proof.
  intros Hne n avg. subst avg. unfold generateSummary; cbn [averageFileSize].
  assert (Hn : (0 < n)%Z) by (subst n; destruct fs; [congruence | cbn; lia]).
  replace (0 <? length fs) with true
    by (symmetry; apply Nat.ltb_lt; destruct fs; [congruence | cbn; lia]).
  rewrite fold_left_sizes. unfold roundDiv. fold n. rewrite Z.add_0_l.
  pose proof (Z.mul_div_le (2 * totalSize fs + n) (2 * n) ltac:(lia)).
  pose proof (Z.mul_succ_div_gt (2 * totalSize fs + n) (2 * n) ltac:(lia)).
  lia.
Qed.
End LargestFacts.

Section ReturnedFacts.
Import ContextManager Measures.
Variable path_join : string -> string -> string.
Variable path_relative : string -> string -> string.
Variable readFile : string -> Thrown + string.

Local Notation buildContext := (buildContext path_join path_relative readFile).
Local Notation getCondensedContext :=
  (getCondensedContext path_join path_relative readFile).

Lemma accepted_size (rootDir : string) (paths : list string) (f : FileContext) :
  In f (Spec.accepted path_relative readFile rootDir paths) ->
  size f = Js.length (content f) /\ (0 <= size f <= MAX_FILE_SIZE)%Z.
Proof.
  unfold Spec.accepted. rewrite in_flat_map. intros (p & _ & Hf).
  unfold Spec.acceptedEntry in Hf.
  destruct (readFile p) as [t | text]; [destruct Hf |].
  destruct (Z.ltb_spec MAX_FILE_SIZE (Js.length text)) as [Hbig | Hfits];
    [destruct Hf |].
  destruct Hf as [<- | []]. cbn [size content].
  split; [reflexivity |]. unfold Js.length in *. lia.
Qed.

(** What holds of a context that [buildContext] or [getCondensedContext]
    returned. *)
Lemma returned_context (rootDir : string) (root : Fs.Listing)
      (maxFiles : option Z) (ctx : CodebaseContext) :
  outcome (buildContext rootDir root) = Ok ctx
  \/ outcome (getCondensedContext rootDir root maxFiles) = Ok ctx ->
  summary ctx = generateSummary (files ctx)
  /\ Forall (fun f => size f = Js.length (content f)
                      /\ (0 <= size f <= MAX_FILE_SIZE)%Z) (files ctx).
Proof.
  assert (Hbuilt : forall full,
             outcome (buildContext rootDir root) = Ok full ->
             summary full = generateSummary (files full)
             /\ Forall (fun f => size f = Js.length (content f)
                                 /\ (0 <= size f <= MAX_FILE_SIZE)%Z)
                       (files full)).
  { intros full H. apply buildContext_ok in H as (paths & _ & Hf & _ & Hs).
    split; [exact Hs |]. apply Forall_forall. intros f Hin.
    rewrite Hf in Hin. now apply accepted_size in Hin. }
  intros [Hb | Hc]; [now apply Hbuilt |].
  rewrite getCondensedContext_outcome in Hc.
  destruct (outcome (buildContext rootDir root)) as [full | t] eqn:Hb;
    [| discriminate].
  injection Hc as <-. split; [reflexivity |].
  destruct (Hbuilt full eq_refl) as [_ Hall].
  rewrite Forall_forall in *. intros f Hf. apply Hall.
  now apply condensed_incl in Hf.
Qed.
End ReturnedFacts.





(** X3.  In a returned context [averageFileSize] is the mean of the sizes
    rounded to the nearest integer, halves upwards; it lies between 0 and
    the cap of 100 KiB, and it is 0 when the context has no file. *)
Theorem X3_average_file_size
        (path_join path_relative : string -> string -> string)
        (readFile : string -> Thrown + string)
        (rootDir : string) (root : Fs.Listing) (maxFiles : option Z)
        (ctx : ContextManager.CodebaseContext) :
  outcome (ContextManager.buildContext path_join path_relative readFile
             rootDir root) = Ok ctx
  \/ outcome (ContextManager.getCondensedContext path_join path_relative readFile
                rootDir root maxFiles) = Ok ctx ->
  let fs := ContextManager.files ctx in
  let n := Z.of_nat (length fs) in
  let avg := ContextManager.averageFileSize (ContextManager.summary ctx) in
  (fs = [] -> avg = 0%Z)
  /\ (fs <> [] ->
      (2 * n * avg <= 2 * Measures.totalSize fs + n < 2 * n * (avg + 1))%Z)
  /\ (0 <= avg <= ContextManager.MAX_FILE_SIZE)%Z.
Proof.
  intros H. apply returned_context in H as [-> Hall]. cbn zeta.
  assert (Hsizes : Forall (fun f => (0 <= ContextManager.size f
                                     <= ContextManager.MAX_FILE_SIZE)%Z)
                          (ContextManager.files ctx)).
  { eapply Forall_impl; [| exact Hall]. now intros f [_ Hf]. }
  pose proof (totalSize_bounds _ _ Hsizes) as Hsum.
  destruct (ContextManager.files ctx) as [| f fs] eqn:Hfs.
  - split; [reflexivity | split; [congruence |]]. cbn.
    unfold ContextManager.MAX_FILE_SIZE. lia.
  - assert (Hne : f :: fs <> []) by discriminate.
    pose proof (generateSummary_average (f :: fs) Hne) as Havg. cbn zeta in Havg.
    split; [discriminate | split; [intros _; exact Havg |]].
    set (avg := ContextManager.averageFileSize
                  (ContextManager.generateSummary (f :: fs))) in *.
    set (n := Z.of_nat (length (f :: fs))) in *.
    assert (Hn : (0 < n)%Z) by (subst n; cbn; lia).
    unfold ContextManager.MAX_FILE_SIZE in *. nia.
Qed.

Lemma X3_average_file_size_witness :
  (0 <= ContextManager.averageFileSize (ContextManager.summary Demo.projectContext)
   <= ContextManager.MAX_FILE_SIZE)%Z.
Proof.
  apply (X3_average_file_size Demo.join Demo.relative Demo.readProject
                              "/repo" Demo.project None Demo.projectContext).
  left. vm_compute. reflexivity.
Defined.



(** X5.  A negative bound does not give an empty selection: [slice] counts
    it from the end, so the condenser leaves out that many files from the
    end of the ranking and keeps the others. *)
Theorem X5_negative_bound (ctx : ContextManager.CodebaseContext) (N : Z) :
  (N < 0)%Z ->
  let ranked := Js.sort ContextManager.byImportance (ContextManager.files ctx) in
  let out := ContextManager.files (snd (ContextManager.condense ctx N)) in
  out = firstn (length (ContextManager.files ctx) - Z.to_nat (- N)) ranked
  /\ length out = length (ContextManager.files ctx) - Z.to_nat (- N).
Proof.
  intros HN. cbn zeta. cbn [ContextManager.condense snd ContextManager.files].
  unfold Js.slice0. apply Z.ltb_lt in HN as Hlt. rewrite Hlt, sort_length.
  replace (Z.to_nat (Z.max (Z.of_nat (length (ContextManager.files ctx)) + N) 0))
    with (length (ContextManager.files ctx) - Z.to_nat (- N)) by lia.
  split; [reflexivity |].
  rewrite length_firstn, sort_length. lia.
Qed.

Lemma X5_negative_bound_witness :
  map ContextManager.path
      (ContextManager.files (snd (ContextManager.condense Demo.small (-1))))
  = ["src/app.ts"; "lib/util.py"].
Proof.
  destruct (X5_negative_bound Demo.small (-1)) as [H _]; [lia |].
  rewrite H. reflexivity.
Defined.

(** ** Failures of the analysis client *)

Section AnalysisFailures.
Import Model ContextManager.
Variable path_join : string -> string -> string.
Variable path_relative : string -> string -> string.
Variable readFile : string -> Thrown + string.
Variable generateObject :
  Config -> string -> Thrown + Generated CodeAnalyzer.AnalysisObject.

Local Notation buildContext := (buildContext path_join path_relative readFile).
Local Notation analyzeCodebase :=
  (CodeAnalyzer.analyzeCodebase path_join path_relative readFile generateObject).

Lemma buildContext_failure (rootDir : string) (root : Fs.Listing) (t : Thrown) :
  outcome (buildContext rootDir root) = Throw t ->
  exists msg dir, t = ThrownError (ContextBuildError msg dir).
Proof.
  destruct (String.eqb_spec rootDir "") as [-> | Hroot].
  - cbn. intros H; injection H as <-. eauto.
  - rewrite (buildContext_cases path_join path_relative readFile rootDir root Hroot).
    destruct (outcome (scanDirectory path_join rootDir root))
      as [[| p paths] | t'].
    + intros H; injection H as <-. eauto.
    + destruct (Spec.accepted path_relative readFile rootDir (p :: paths));
        [intros H; injection H as <-; eauto | discriminate].
    + intros H; injection H as <-. eauto.
Qed.

(** [analyzeCodebase] on accepted inputs, by cases on the context build and
    on the request. *)
Lemma analyzeCodebase_cases (config : Config) (rootDir : string)
      (root : Fs.Listing) :
  rootDir <> "" -> apiKey config <> "" -> model config <> "" ->
  outcome (analyzeCodebase config rootDir root)
  = match outcome (buildContext rootDir root) with
    | Throw (ThrownError e) =>
        Throw (ThrownError
                 (AIAnalysisError
                    "Failed to build codebase context for AI analysis" (Some e)))
    | Throw (ThrownValue shown) =>
        Throw (ThrownError
                 (AIAnalysisError
                    ("Failed to build codebase context for AI analysis" ++ ": "
                     ++ shown)%string None))
    | Ok full =>
        match generateObject config
                (CodeAnalyzer.buildStructuredAnalysisPrompt
                   (snd (condense full 15))) with
        | inl (ThrownError e) =>
            Throw (ThrownError
                     (AIAnalysisError "AI analysis request failed" (Some e)))
        | inl (ThrownValue shown) =>
            Throw (ThrownError
                     (AIAnalysisError
                        ("AI analysis request failed: " ++ shown)%string None))
        | inr r => Spec.validated r
        end
    end.
Proof.
  intros Hroot Hkey Hmodel.
  destruct (outcome (buildContext rootDir root)) as [full | t] eqn:Hb.
  - apply (analyzeCodebase_request path_join path_relative readFile generateObject
             config rootDir root _ Hroot Hkey Hmodel).
    now rewrite getCondensedContext_outcome, Hb.
  - unfold CodeAnalyzer.analyzeCodebase.
    apply String.eqb_neq in Hroot, Hkey, Hmodel. rewrite Hroot, Hkey, Hmodel.
    rewrite outcome_bind, outcome_tryAsync, getCondensedContext_outcome, Hb.
    now destruct t.
Qed.

Lemma analyzeCodebase_failure (config : Config) (rootDir : string)
      (root : Fs.Listing) (t : Thrown) :
  outcome (analyzeCodebase config rootDir root) = Throw t ->
  exists msg,
    t = ThrownError (ValidationError msg)
    \/ exists cause, t = ThrownError (AIAnalysisError msg cause).
Proof.
  destruct (String.eqb_spec rootDir "") as [Eroot | Hroot].
  { unfold CodeAnalyzer.analyzeCodebase. apply String.eqb_eq in Eroot.
    rewrite Eroot. intros H; injection H as <-. eauto. }
  destruct (String.eqb_spec (apiKey config) "") as [Ekey | Hkey].
  { unfold CodeAnalyzer.analyzeCodebase.
    apply String.eqb_neq in Hroot. apply String.eqb_eq in Ekey.
    rewrite Hroot, Ekey. intros H; injection H as <-. eauto. }
  destruct (String.eqb_spec (model config) "") as [Emodel | Hmodel].
  { unfold CodeAnalyzer.analyzeCodebase.
    apply String.eqb_neq in Hroot, Hkey. apply String.eqb_eq in Emodel.
    rewrite Hroot, Hkey, Emodel. intros H; injection H as <-. eauto. }
  rewrite (analyzeCodebase_cases config rootDir root Hroot Hkey Hmodel).
  destruct (outcome (buildContext rootDir root)) as [full | [e | shown]].
  - destruct (generateObject config _) as [[e | shown] | r].
    + intros H; injection H as <-. eauto.
    + intros H; injection H as <-. eauto.
    + unfold Spec.validated. destruct (object r) as [obj |].
      * destruct (CodeAnalyzer.vulnerabilities obj);
          [intros H; injection H as <-; eauto | discriminate].
      * intros H; injection H as <-. eauto.
  - intros H; injection H as <-. eauto.
  - intros H; injection H as <-. eauto.
Qed.
End AnalysisFailures.

(** X6.  Every failure of [analyzeCodebase] is a [ValidationError] or an
    [AIAnalysisError].  When the directory, the API key or the model is
    empty the failure is a [ValidationError] that is decided before any
    call: it is the same for every file system and every model, and
    nothing is written. *)
Theorem X6_analysis_failures
        (path_join path_relative : string -> string -> string)
        (readFile : string -> Thrown + string)
        (generateObject :
           Model.Config -> string
           -> Thrown + Model.Generated CodeAnalyzer.AnalysisObject)
        (config : Model.Config) (rootDir : string) (root : Fs.Listing) :
  (forall t,
      outcome (CodeAnalyzer.analyzeCodebase path_join path_relative readFile
                 generateObject config rootDir root) = Throw t ->
      exists msg,
        t = ThrownError (ValidationError msg)
        \/ exists cause, t = ThrownError (AIAnalysisError msg cause))
  /\ (rootDir = "" \/ Model.apiKey config = "" \/ Model.model config = "" ->
      exists msg,
        forall path_join' path_relative' readFile' generateObject' root',
          CodeAnalyzer.analyzeCodebase path_join' path_relative' readFile'
            generateObject' config rootDir root'
          = (Throw (ThrownError (ValidationError msg)), [])).
Proof.
  split; [intros t; apply analyzeCodebase_failure |].
  intros Hbad. unfold CodeAnalyzer.analyzeCodebase.
  destruct (String.eqb_spec rootDir "") as [_ | Hroot]; [eexists; reflexivity |].
  destruct (String.eqb_spec (Model.apiKey config) "") as [_ | Hkey];
    [eexists; reflexivity |].
  destruct (String.eqb_spec (Model.model config) "") as [_ | Hmodel];
    [eexists; reflexivity |].
  exfalso. destruct Hbad as [H | [H | H]]; congruence.
Qed.

Lemma X6_analysis_failures_witness :
  outcome (CodeAnalyzer.analyzeCodebase Demo.join Demo.relative Demo.readProject
             Demo.analysisModel Samples.noKey "/repo" Demo.project)
  = Throw (ThrownError (ValidationError "API key is required for AI analysis")).
Proof.
  destruct (X6_analysis_failures Demo.join Demo.relative Demo.readProject
              Demo.analysisModel Samples.noKey "/repo" Demo.project) as [_ H].
  destruct H as [msg H]; [right; left; reflexivity |].
  rewrite (H Demo.join Demo.relative Demo.readProject Demo.analysisModel
             Demo.project).
  pose proof (H Demo.join Demo.relative Demo.readProject Demo.analysisModel
                Demo.project) as E.
  vm_compute in E. injection E as <-. reflexivity.
Defined.

(** X7.  On accepted inputs a failure of the context build is not passed
    on as it is: [analyzeCodebase] fails with the [AIAnalysisError] "Failed
    to build codebase context for AI analysis" whose cause is the
    [ContextBuildError] of the build, and the model is not asked. *)
Theorem X7_context_failure_wrapped
        (path_join path_relative : string -> string -> string)
        (readFile : string -> Thrown + string)
        (config : Model.Config) (rootDir : string) (root : Fs.Listing)
        (t : Thrown) :
  rootDir <> "" -> Model.apiKey config <> "" -> Model.model config <> "" ->
  outcome (ContextManager.buildContext path_join path_relative readFile
             rootDir root) = Throw t ->
  exists msg dir,
    t = ThrownError (ContextBuildError msg dir)
    /\ forall generateObject,
         outcome (CodeAnalyzer.analyzeCodebase path_join path_relative readFile
                    generateObject config rootDir root)
         = Throw (ThrownError
                    (AIAnalysisError
                       "Failed to build codebase context for AI analysis"
                       (Some (ContextBuildError msg dir)))).
Proof.
  intros Hroot Hkey Hmodel Hb.
  destruct (buildContext_failure path_join path_relative readFile rootDir root t Hb)
    as (msg & dir & ->).
  exists msg, dir. split; [reflexivity |]. intros gen.
  rewrite (analyzeCodebase_cases path_join path_relative readFile gen
             config rootDir root Hroot Hkey Hmodel).
  now rewrite Hb.
Qed.

Lemma X7_context_failure_wrapped_witness :
  outcome (CodeAnalyzer.analyzeCodebase Demo.join Demo.relative Demo.readProject
             Demo.analysisModel Demo.config "/empty" (inr []))
  = Throw (ThrownError
             (AIAnalysisError
                "Failed to build codebase context for AI analysis"
                (Some (ContextBuildError
                         "No supported files found in directory: /empty" None)))).
Proof.
  destruct (X7_context_failure_wrapped Demo.join Demo.relative Demo.readProject
              Demo.config "/empty" (inr [])
              (ThrownError (ContextBuildError
                              "No supported files found in directory: /empty" None)))
    as (msg & dir & E & H).
  - discriminate.
  - discriminate.
  - discriminate.
  - reflexivity.
  - injection E as <- <-. apply H.
Defined.

(** X8.  [analyzeCodebase] never fails with "No supported files found in
    the specified directory": the test of an empty condensed context
    cannot succeed, since a context that was built has a file and fifteen
    are kept at most. *)
Theorem X8_empty_context_test_is_dead
        (path_join path_relative : string -> string -> string)
        (readFile : string -> Thrown + string)
        (generateObject :
           Model.Config -> string
           -> Thrown + Model.Generated CodeAnalyzer.AnalysisObject)
        (config : Model.Config) (rootDir : string) (root : Fs.Listing)
        (cause : option Errors.Error) :
  outcome (CodeAnalyzer.analyzeCodebase path_join path_relative readFile
             generateObject config rootDir root)
  <> Throw (ThrownError
              (AIAnalysisError
                 "No supported files found in the specified directory" cause)).
Proof.
  destruct (String.eqb_spec rootDir "") as [Eroot | Hroot].
  { unfold CodeAnalyzer.analyzeCodebase. apply String.eqb_eq in Eroot.
    rewrite Eroot. discriminate. }
  destruct (String.eqb_spec (Model.apiKey config) "") as [Ekey | Hkey].
  { unfold CodeAnalyzer.analyzeCodebase.
    apply String.eqb_neq in Hroot. apply String.eqb_eq in Ekey.
    rewrite Hroot, Ekey. discriminate. }
  destruct (String.eqb_spec (Model.model config) "") as [Emodel | Hmodel].
  { unfold CodeAnalyzer.analyzeCodebase.
    apply String.eqb_neq in Hroot, Hkey. apply String.eqb_eq in Emodel.
    rewrite Hroot, Hkey, Emodel. discriminate. }
  rewrite (analyzeCodebase_cases path_join path_relative readFile generateObject
             config rootDir root Hroot Hkey Hmodel).
  destruct (outcome (ContextManager.buildContext path_join path_relative readFile
                       rootDir root)) as [full | [e | shown]];
    [| discriminate | cbn; discriminate].
  destruct (generateObject config _) as [[e | shown] | r];
    [discriminate | cbn; discriminate |].
  unfold Spec.validated. destruct (Model.object r) as [obj |]; [| discriminate].
  destruct (CodeAnalyzer.vulnerabilities obj); discriminate.
Qed.

Lemma X8_empty_context_test_is_dead_witness :
  outcome (CodeAnalyzer.analyzeCodebase Demo.join Demo.relative Demo.readProject
             Demo.analysisModel Demo.config "/empty" (inr []))
  <> Throw (ThrownError
              (AIAnalysisError
                 "No supported files found in the specified directory" None)).
Proof.
  apply (X8_empty_context_test_is_dead Demo.join Demo.relative Demo.readProject
           Demo.analysisModel Demo.config "/empty" (inr []) None).
Defined.

(** ** The scan pipeline *)

Section ConsoleFacts.
Context {A B : Type}.

Lemma console_bind (m : IO A) (k : A -> IO B) :
  console (bind m k)
  = console m ++ match outcome m with
                 | Ok a => console (k a)
                 | Throw _ => []
                 end.
Proof.
  destruct m as [[a | t] out]; cbn.
  - now destruct (k a).
  - now rewrite app_nil_r.
Qed.

Lemma console_tryAsync (m : IO A) (msg : string) (EC : ErrorClass) :
  console (tryAsync m msg EC) = console m.
Proof.
  destruct m as [[a | [e | shown]] out]; cbn; now rewrite ?app_nil_r.
Qed.

Lemma console_call (r : Thrown + A) : console (call r) = [].
Proof. now destruct r. Qed.
End ConsoleFacts.

Section InsightFailures.
Import Model.
Variable generateObject :
  Config -> string -> Thrown + Generated InsightGenerator.CohesiveInsights.

Local Notation generateInsights := (InsightGenerator.generateInsights generateObject).

Lemma generateInsights_silent (config : Config)
      (vulnerabilities : MaybeArray Vulnerability) :
  console (generateInsights config vulnerabilities) = [].
Proof.
  unfold InsightGenerator.generateInsights.
  destruct vulnerabilities as [| vulns]; [reflexivity |].
  destruct (String.eqb (apiKey config) ""); [reflexivity |].
  destruct (String.eqb (model config) ""); [reflexivity |].
  rewrite console_bind, console_tryAsync, console_call, outcome_tryAsync,
    outcome_call.
  destruct (generateObject config _) as [[e | shown] | r]; try reflexivity.
  cbn. destruct (object r) as [obj |]; [| reflexivity].
  destruct (InsightGenerator.analysis obj) as [p |]; [| reflexivity].
  destruct (String.eqb p ""); [reflexivity |].
  now destruct (InsightGenerator.riskAssessment obj).
Qed.

Lemma generateInsights_failure (config : Config) (vulns : list Vulnerability)
      (t : Thrown) :
  apiKey config <> "" -> model config <> "" ->
  outcome (generateInsights config (AnArray vulns)) = Throw t ->
  exists msg cause, t = ThrownError (InsightGenerationError msg cause).
Proof.
  intros Hkey Hmodel.
  rewrite (generateInsights_request generateObject config vulns Hkey Hmodel).
  destruct (generateObject config _) as [[e | shown] | r].
  - intros H; injection H as <-. eauto.
  - intros H; injection H as <-. eauto.
  - destruct (object r) as [obj |]; [| intros H; injection H as <-; eauto].
    destruct (InsightGenerator.analysis obj) as [p |];
      [| intros H; injection H as <-; eauto].
    destruct (InsightGenerator.riskAssessment obj);
      destruct (String.eqb p ""); try discriminate;
      intros H; injection H as <-; eauto.
Qed.
End InsightFailures.

Lemma analyzeCodebase_accepts
      (path_join path_relative : string -> string -> string)
      (readFile : string -> Thrown + string)
      (generateObject :
         Model.Config -> string
         -> Thrown + Model.Generated CodeAnalyzer.AnalysisObject)
      (config : Model.Config) (rootDir : string) (root : Fs.Listing)
      (vulns : list Vulnerability) :
  outcome (CodeAnalyzer.analyzeCodebase path_join path_relative readFile
             generateObject config rootDir root) = Ok vulns ->
  rootDir <> "" /\ Model.apiKey config <> "" /\ Model.model config <> "".
Proof.
  unfold CodeAnalyzer.analyzeCodebase.
  destruct (String.eqb_spec rootDir ""); [discriminate |].
  destruct (String.eqb_spec (Model.apiKey config) ""); [discriminate |].
  destruct (String.eqb_spec (Model.model config) ""); [discriminate |].
  auto.
Qed.

Section PipelineFacts.
Variable path_join : string -> string -> string.
Variable path_relative : string -> string -> string.
Variable readFile : string -> Thrown + string.
Variable generateAnalysis :
  Model.Config -> string -> Thrown + Model.Generated CodeAnalyzer.AnalysisObject.
Variable generateNarrative :
  Model.Config -> string
  -> Thrown + Model.Generated InsightGenerator.CohesiveInsights.

Local Notation analyze :=
  (CodeAnalyzer.analyzeCodebase path_join path_relative readFile generateAnalysis).
Local Notation narrate := (InsightGenerator.generateInsights generateNarrative).
Local Notation pipeline :=
  (Cli.scanDirectoryForVulnerabilities path_join path_relative readFile
     generateAnalysis generateNarrative).

Lemma pipeline_outcome (config : Model.Config) (dir : string) (root : Fs.Listing)
      (verbose : bool) :
  outcome (pipeline (Some config) dir root verbose)
  = match outcome (analyze config dir root) with
    | Ok vulns =>
        match outcome (narrate config (Model.AnArray vulns)) with
        | Ok ins => Ok (Reporter.generateReport vulns ins)
        | Throw t => Throw t
        end
    | Throw t => Throw t
    end.
Proof.
  unfold Cli.scanDirectoryForVulnerabilities.
  assert (Hlog : forall line : string,
             outcome (if verbose then log line else ret tt) = Ok tt)
    by (intros line; now destruct verbose).
  rewrite outcome_bind, Hlog, outcome_bind.
  destruct (outcome (analyze config dir root)) as [vulns | t]; [| reflexivity].
  rewrite outcome_bind, Hlog, outcome_bind.
  now destruct (outcome (narrate config (Model.AnArray vulns))).
Qed.

Lemma pipeline_console (config : Model.Config) (dir : string) (root : Fs.Listing)
      (verbose : bool) :
  console (pipeline (Some config) dir root verbose)
  = (if verbose then ["Analyzing codebase with AI..."] else [])
      ++ console (analyze config dir root)
      ++ match outcome (analyze config dir root) with
         | Ok _ => if verbose then ["Generating AI insights..."] else []
         | Throw _ => []
         end.
Proof.
  unfold Cli.scanDirectoryForVulnerabilities.
  assert (Hlog : forall line : string,
             outcome (if verbose then log line else ret tt) = Ok tt)
    by (intros line; now destruct verbose).
  assert (Hout : forall line : string,
             console (if verbose then log line else ret tt)
             = if verbose then [line] else [])
    by (intros line; now destruct verbose).
  rewrite console_bind, Hlog, Hout, console_bind. f_equal. f_equal.
  destruct (outcome (analyze config dir root)) as [vulns | t]; [| reflexivity].
  rewrite console_bind, Hlog, Hout, console_bind, generateInsights_silent.
  cbn [app]. destruct (outcome (narrate config (Model.AnArray vulns)));
    now rewrite app_nil_r.
Qed.
Lemma pipeline_failure (getConfig : option Model.Config) (dir : string)
      (root : Fs.Listing) (verbose : bool) (t : Thrown) :
  outcome (pipeline getConfig dir root verbose) = Throw t ->
  exists msg,
    (t = ThrownError (ConfigurationError msg) /\ getConfig = None)
    \/ (t = ThrownError (ValidationError msg)
        /\ exists config,
             getConfig = Some config
             /\ (dir = "" \/ Model.apiKey config = ""
                 \/ Model.model config = ""))
    \/ (exists cause, t = ThrownError (AIAnalysisError msg cause))
    \/ (exists cause, t = ThrownError (InsightGenerationError msg cause)).
Proof.
  destruct getConfig as [config |]; [| intros H; injection H as <-; eauto].
  rewrite pipeline_outcome.
  destruct (outcome (analyze config dir root)) as [vulns | t'] eqn:Hv.
  - apply analyzeCodebase_accepts in Hv as (_ & Hkey & Hmodel).
    destruct (outcome (narrate config (Model.AnArray vulns))) as [ins | t'] eqn:Hi;
      [discriminate |].
    intros H; injection H as <-.
    destruct (generateInsights_failure generateNarrative config vulns t'
                Hkey Hmodel Hi) as (msg & cause & ->).
    exists msg. right; right; right. eauto.
  - intros H; injection H as <-.
    destruct (String.eqb_spec dir "") as [Edir | Ndir];
      [| destruct (String.eqb_spec (Model.apiKey config) "") as [Ekey | Nkey];
         [| destruct (String.eqb_spec (Model.model config) "") as [Emodel | Nmodel]]].
    + revert Hv. unfold CodeAnalyzer.analyzeCodebase.
      subst dir. cbn [String.eqb]. intros H; injection H as <-.
      eexists. right; left. split; [reflexivity |]. exists config. auto.
    + revert Hv. unfold CodeAnalyzer.analyzeCodebase.
      apply String.eqb_neq in Ndir. rewrite Ndir, Ekey. cbn [String.eqb].
      intros H; injection H as <-.
      eexists. right; left. split; [reflexivity |]. exists config. auto.
    + revert Hv. unfold CodeAnalyzer.analyzeCodebase.
      apply String.eqb_neq in Ndir, Nkey. rewrite Ndir, Nkey, Emodel.
      cbn [String.eqb]. intros H; injection H as <-.
      eexists. right; left. split; [reflexivity |]. exists config. auto.
    + rewrite (analyzeCodebase_cases path_join path_relative readFile
                 generateAnalysis config dir root Ndir Nkey Nmodel) in Hv.
      destruct (outcome (ContextManager.buildContext path_join path_relative
                           readFile dir root)) as [full | [e | shown]].
      * destruct (generateAnalysis config _) as [[e | shown] | r].
        -- injection Hv as <-. eexists. right; right; left. eauto.
        -- injection Hv as <-. eexists. right; right; left. eauto.
        -- unfold Spec.validated in Hv.
           destruct (Model.object r) as [obj |];
             [destruct (CodeAnalyzer.vulnerabilities obj) |];
             first [discriminate Hv
                   | injection Hv as <-; eexists; right; right; left; eauto].
      * injection Hv as <-. eexists. right; right; left. eauto.
      * injection Hv as <-. eexists. right; right; left. eauto.
Qed.
End PipelineFacts.

(** X9.  A report of the scan pipeline has exactly one insight.  It is not
    empty, and it is the paragraph the model gave to the request made from
    the vulnerabilities of that same report; the directory, the API key
    and the model of the stored configuration are not empty. *)
Theorem X9_pipeline_insight
        (path_join path_relative : string -> string -> string)
        (readFile : string -> Thrown + string)
        (generateAnalysis :
           Model.Config -> string
           -> Thrown + Model.Generated CodeAnalyzer.AnalysisObject)
        (generateNarrative :
           Model.Config -> string
           -> Thrown + Model.Generated InsightGenerator.CohesiveInsights)
        (getConfig : option Model.Config) (dir : string) (root : Fs.Listing)
        (verbose : bool) (report : VulnerabilityReport) :
  outcome (Cli.scanDirectoryForVulnerabilities path_join path_relative readFile
             generateAnalysis generateNarrative getConfig dir root verbose)
  = Ok report ->
  exists config r obj paragraph,
    getConfig = Some config
    /\ dir <> "" /\ Model.apiKey config <> "" /\ Model.model config <> ""
    /\ generateNarrative config
         (InsightGenerator.buildInsightPrompt (vulnerabilities report)) = inr r
    /\ Model.object r = Some obj
    /\ InsightGenerator.analysis obj = Some paragraph
    /\ paragraph <> ""
    /\ insights report = [paragraph].
Proof.
  destruct getConfig as [config |]; [| discriminate].
  rewrite pipeline_outcome.
  destruct (outcome (CodeAnalyzer.analyzeCodebase path_join path_relative readFile
                       generateAnalysis config dir root)) as [vulns | t] eqn:Hv;
    [| discriminate].
  apply analyzeCodebase_accepts in Hv as (Hdir & Hkey & Hmodel).
  rewrite (generateInsights_request generateNarrative config vulns Hkey Hmodel).
  destruct (generateNarrative config (InsightGenerator.buildInsightPrompt vulns))
    as [[e | shown] | r] eqn:Hr; try discriminate.
  destruct (Model.object r) as [obj |] eqn:Hobj; [| discriminate].
  destruct (InsightGenerator.analysis obj) as [p |] eqn:Hp; [| discriminate].
  destruct (InsightGenerator.riskAssessment obj);
    destruct (String.eqb_spec p "") as [E | N]; try discriminate.
  intros H; injection H as <-. cbn.
  exists config, r, obj, p. auto 10.
Qed.

Lemma X9_pipeline_insight_witness :
  exists config r obj paragraph,
    Some Demo.config = Some config
    /\ "/repo" <> "" /\ Model.apiKey config <> "" /\ Model.model config <> ""
    /\ Demo.narrativeModel config
         (InsightGenerator.buildInsightPrompt
            (vulnerabilities
               (Reporter.generateReport [Demo.finding] ["The codebase is clean."])))
       = inr r
    /\ Model.object r = Some obj
    /\ InsightGenerator.analysis obj = Some paragraph
    /\ paragraph <> ""
    /\ insights (Reporter.generateReport [Demo.finding] ["The codebase is clean."])
       = [paragraph].
Proof.
  apply (X9_pipeline_insight Demo.join Demo.relative Demo.readProject
           Demo.analysisModel Demo.narrativeModel (Some Demo.config) "/repo"
           Demo.project true).
  vm_compute. reflexivity.
Defined.



(** X11.  What the scan pipeline writes.  Without [verbose] it writes what
    [analyzeCodebase] writes and nothing else.  With [verbose] the line
    "Analyzing codebase with AI..." comes first, and the line "Generating
    AI insights..." comes last when the analysis returned and is absent
    when it failed.  The insight generator writes nothing. *)
Theorem X11_pipeline_console
        (path_join path_relative : string -> string -> string)
        (readFile : string -> Thrown + string)
        (generateAnalysis :
           Model.Config -> string
           -> Thrown + Model.Generated CodeAnalyzer.AnalysisObject)
        (generateNarrative :
           Model.Config -> string
           -> Thrown + Model.Generated InsightGenerator.CohesiveInsights)
        (config : Model.Config) (dir : string) (root : Fs.Listing) :
  let analysis :=
    CodeAnalyzer.analyzeCodebase path_join path_relative readFile
      generateAnalysis config dir root in
  let written verbose :=
    console (Cli.scanDirectoryForVulnerabilities path_join path_relative
               readFile generateAnalysis generateNarrative (Some config)
               dir root verbose) in
  written false = console analysis
  /\ written true
     = "Analyzing codebase with AI..."
         :: console analysis
         ++ match outcome analysis with
            | Ok _ => ["Generating AI insights..."]
            | Throw _ => []
            end
  /\ forall vulnerabilities,
       console (InsightGenerator.generateInsights generateNarrative config
                  vulnerabilities) = [].
Proof.
  cbn beta zeta. rewrite !pipeline_console. cbn [app]. repeat split.
  - destruct (outcome _); now rewrite app_nil_r.
  - apply generateInsights_silent.
Qed.

Lemma X11_pipeline_console_witness :
  console (Cli.scanDirectoryForVulnerabilities Demo.join Demo.relative
             Demo.readProject Demo.analysisModel Demo.narrativeModel
             (Some Demo.config) "/repo" Demo.project true)
  = "Analyzing codebase with AI..."
      :: console (CodeAnalyzer.analyzeCodebase Demo.join Demo.relative
                    Demo.readProject Demo.analysisModel Demo.config "/repo"
                    Demo.project)
      ++ match outcome (CodeAnalyzer.analyzeCodebase Demo.join Demo.relative
                          Demo.readProject Demo.analysisModel Demo.config
                          "/repo" Demo.project) with
         | Ok _ => ["Generating AI insights..."]
         | Throw _ => []
         end.
Proof.
  exact (proj1 (proj2 (X11_pipeline_console Demo.join Demo.relative
                         Demo.readProject Demo.analysisModel
                         Demo.narrativeModel Demo.config "/repo"
                         Demo.project))).
Defined.

(** X12.  The failures of [generateInsights].  A value that is not an
    array, an empty API key or an empty model is refused with a
    [ValidationError], and only these are; every other failure is an
    [InsightGenerationError].  An error object the request threw is kept
    as the cause of "Failed to generate AI insights". *)
Theorem X12_insight_failures
        (generateObject :
           Model.Config -> string
           -> Thrown + Model.Generated InsightGenerator.CohesiveInsights)
        (config : Model.Config)
        (vulnerabilities : Model.MaybeArray Vulnerability) (t : Thrown) :
  outcome (InsightGenerator.generateInsights generateObject config
             vulnerabilities) = Throw t ->
  let refused :=
    vulnerabilities = Model.NotAnArray
    \/ Model.apiKey config = "" \/ Model.model config = "" in
  (refused /\ exists msg, t = ThrownError (ValidationError msg))
  \/ (~ refused
      /\ (exists msg cause, t = ThrownError (InsightGenerationError msg cause))
      /\ forall vulns e,
           vulnerabilities = Model.AnArray vulns ->
           generateObject config (InsightGenerator.buildInsightPrompt vulns)
           = inl (ThrownError e) ->
           t = ThrownError
                 (InsightGenerationError "Failed to generate AI insights"
                    (Some e))).
Proof.
  cbn zeta. destruct vulnerabilities as [| vulns].
  { intros H; injection H as <-. left. split; [auto | eauto]. }
  destruct (String.eqb_spec (Model.apiKey config) "") as [Ekey | Hkey].
  { unfold InsightGenerator.generateInsights.
    pose proof Ekey as E. apply String.eqb_eq in E. rewrite E.
    intros H; injection H as <-. left. split; [auto | eauto]. }
  destruct (String.eqb_spec (Model.model config) "") as [Emodel | Hmodel].
  { unfold InsightGenerator.generateInsights.
    pose proof Hkey as N. apply String.eqb_neq in N.
    pose proof Emodel as E. apply String.eqb_eq in E. rewrite N, E.
    intros H; injection H as <-. left. split; [auto | eauto]. }
  intros H. right. split; [| split].
  - intros [D | [D | D]]; [discriminate | congruence | congruence].
  - exact (generateInsights_failure generateObject config vulns t Hkey Hmodel H).
  - intros vulns' e Hv He. injection Hv as <-.
    rewrite (generateInsights_request generateObject config vulns Hkey Hmodel),
      He in H.
    now injection H as <-.
Qed.

Lemma X12_insight_failures_witness :
  exists msg cause,
    ThrownError (InsightGenerationError "Failed to generate AI insights"
                   (Some Samples.offline))
    = ThrownError (InsightGenerationError msg cause).
Proof.
  destruct (X12_insight_failures Samples.offlineNarrative Demo.config
              (Model.AnArray [Demo.finding])
              (ThrownError (InsightGenerationError "Failed to generate AI insights"
                              (Some Samples.offline))))
    as [[_ [msg H]] | (_ & H & _)].
  - vm_compute. reflexivity.
  - discriminate H.
  - exact H.
Defined.

(** X13.  The earlier version of [generateInsights], on a well-formed
    response.  It returns one entry for the banner when the risk is high,
    one for each insight, one for each recommendation, and one for the
    priority areas when there are some: the banner is first, every insight
    is kept, and every recommendation is kept behind "Recommendation: ".
    It fails with "AI generated empty insights" exactly when that number
    of entries is zero, so a list it returns is never empty. *)
Theorem X13_legacy_insights
        (generateObject :
           Model.Config -> string
           -> Thrown + Model.Generated LegacyInsightGenerator.Insights)
        (config : Model.Config) (vulns : list Vulnerability)
        (r : Model.Generated LegacyInsightGenerator.Insights)
        (obj : LegacyInsightGenerator.Insights)
        (ins recs : list string) (risk : Model.RiskAssessment) :
  Model.apiKey config <> "" -> Model.model config <> "" ->
  generateObject config (LegacyInsightGenerator.buildInsightPrompt vulns) = inr r ->
  Model.object r = Some obj ->
  LegacyInsightGenerator.insights obj = Model.AnArray ins ->
  LegacyInsightGenerator.recommendations obj = Model.AnArray recs ->
  LegacyInsightGenerator.riskAssessment obj = Some risk ->
  let result :=
    outcome (LegacyInsightGenerator.generateInsights generateObject config
               (Model.AnArray vulns)) in
  let banner :=
    match Model.overallRisk risk with High => 1 | _ => 0 end in
  let areas :=
    match Model.priorityAreas risk with Some (_ :: _) => 1 | _ => 0 end in
  let entries := banner + length ins + length recs + areas in
  (entries = 0 ->
   result
   = Throw (ThrownError
              (InsightGenerationError
                 "AI generated empty insights - this may indicate a problem with the analysis"
                 None)))
  /\ (0 < entries ->
      exists l,
        result = Ok l
        /\ length l = entries
        /\ (banner = 1 -> hd_error l = Some LegacyInsightGenerator.highRiskBanner)
        /\ (forall i, In i ins -> In i l)
        /\ (forall rec, In rec recs -> In ("Recommendation: " ++ rec)%string l)).
Proof.
  intros Hkey Hmodel Hr Hobj Hins Hrecs Hrisk. cbn zeta.
  unfold LegacyInsightGenerator.generateInsights.
  apply String.eqb_neq in Hkey, Hmodel. rewrite Hkey, Hmodel.
  rewrite outcome_bind, outcome_tryAsync, outcome_call, Hr.
  cbn [tryCatch call outcome fst]. rewrite Hobj, Hins, Hrecs, Hrisk.
  set (body := ins ++ map (fun rec => ("Recommendation: " ++ rec)%string) recs).
  assert (Hbody : length body = length ins + length recs)
    by (unfold body; now rewrite length_app, length_map).
  assert (Hin1 : forall i, In i ins -> In i body)
    by (intros i Hi; unfold body; apply in_or_app; now left).
  assert (Hin2 : forall rec, In rec recs
                             -> In ("Recommendation: " ++ rec)%string body).
  { intros rec Hi. unfold body. apply in_or_app. right.
    now apply (in_map (fun rec => ("Recommendation: " ++ rec)%string)). }
  clearbody body.
  match goal with
  | |- context [if length ?l =? 0 then _ else ret ?l] => set (all := l)
  end.
  assert (Hall : length all
                 = match Model.overallRisk risk with High => 1 | _ => 0 end
                   + length ins + length recs
                   + match Model.priorityAreas risk with
                     | Some (_ :: _) => 1
                     | _ => 0
                     end
                 /\ (match Model.overallRisk risk with High => 1 | _ => 0 end = 1
                     -> hd_error all = Some LegacyInsightGenerator.highRiskBanner)
                 /\ (forall i, In i body -> In i all)).
  { unfold all.
    destruct (Model.overallRisk risk);
      cbn [severityString String.eqb Ascii.eqb Bool.eqb];
      destruct (Model.priorityAreas risk) as [[| a areas] |];
      cbn [length Nat.ltb Nat.leb hd_error app];
      rewrite ?length_app; cbn [length];
      (split; [lia | split; [first [reflexivity | discriminate] |]]);
      intros i Hi; cbn [In]; rewrite ?in_app_iff; auto. }
  clearbody all. destruct Hall as (Hlen & Hhd & Hin).
  split.
  - intros E. rewrite <- Hlen in E. now rewrite E.
  - intros Hpos. rewrite <- Hlen in Hpos. exists all.
    destruct all as [| x l]; [cbn in Hpos; lia |].
    cbn [length Nat.eqb outcome ret fst]. rewrite <- Hlen. auto 10.
Qed.

Lemma X13_legacy_insights_witness :
  exists l,
    outcome (LegacyInsightGenerator.generateInsights Demo.legacyModel Demo.config
               (Model.AnArray [])) = Ok l
    /\ length l = 1 + 2 + 1 + 1
    /\ (1 = 1 -> hd_error l = Some LegacyInsightGenerator.highRiskBanner)
    /\ (forall i, In i ["No input validation."; "Secrets in code."] -> In i l)
    /\ (forall rec, In rec ["Rotate the keys."]
                    -> In ("Recommendation: " ++ rec)%string l).
Proof.
  refine (proj2 (X13_legacy_insights Demo.legacyModel Demo.config [] _ _
                   ["No input validation."; "Secrets in code."]
                   ["Rotate the keys."] Demo.risk _ _ _ _ _ _ _) _).
  - discriminate.
  - discriminate.
  - reflexivity.
  - reflexivity.
  - reflexivity.
  - reflexivity.
  - reflexivity.
  - cbn. lia.
Defined.

(** ** The analysis of one file *)

Section StringFacts.

Lemma prefix_spec (p s : string) :
  String.prefix p s = true <-> exists b, s = (p ++ b)%string.
Proof.
  revert s. induction p as [| a p IH]; intros s.
  - split; [intros _; now exists s | intros _; now destruct s].
  - destruct s as [| x s]; cbn [String.prefix String.append].
    + split; [discriminate | intros [b Hb]; discriminate].
    + destruct (ascii_dec a x) as [<- | N].
      * rewrite IH. split; intros [b Hb]; exists b; congruence.
      * split; [discriminate | intros [b Hb]; congruence].
Qed.

Lemma includes_spec (s p : string) :
  JsString.includes s p = true <-> exists a b, s = (a ++ p ++ b)%string.
Proof.
  induction s as [| x s IH]; cbn [JsString.includes].
  - rewrite orb_false_r, prefix_spec. split.
    + intros [b Hb]. now exists "", b.
    + intros (a & b & H). destruct a; [now exists b | discriminate].
  - rewrite orb_true_iff, prefix_spec, IH. split.
    + intros [[b Hb] | (a & b & H)].
      * now exists "", b.
      * exists (String x a), b. cbn. now rewrite H.
    + intros (a & b & H). destruct a as [| y a]; cbn in H.
      * left. now exists b.
      * right. exists a, b. congruence.
Qed.

Lemma string_app_assoc (a b c : string) :
  ((a ++ b) ++ c = a ++ (b ++ c))%string.
Proof. induction a as [| x a IH]; cbn; [reflexivity | now rewrite IH]. Qed.

(** A text that includes a string includes every part of that string. *)
Lemma includes_part (s p u v w : string) :
  p = (u ++ v ++ w)%string ->
  JsString.includes s p = true -> JsString.includes s v = true.
Proof.
  intros -> H. apply includes_spec in H as (a & b & ->).
  apply includes_spec. exists (a ++ u)%string, (w ++ b)%string.
  now rewrite !string_app_assoc.
Qed.

Lemma toLowerCase_idempotent (s : string) :
  Js.toLowerCase (Js.toLowerCase s) = Js.toLowerCase s.
Proof.
  induction s as [| c s IH]; cbn; [reflexivity |]. rewrite IH. f_equal.
  destruct c as [[] [] [] [] [] [] [] []]; reflexivity.
Qed.

(** Lowering the letters neither makes nor removes a character that is
    not a letter. *)
Lemma includes_lower_char (c : ascii) (s : string) :
  (forall x, Js.lowerAscii x = c <-> x = c) ->
  JsString.includes (Js.toLowerCase s) (String c "")
  = JsString.includes s (String c "").
Proof.
  intros Hc. induction s as [| x s IH]; [reflexivity |].
  cbn [Js.toLowerCase JsString.includes String.prefix]. rewrite IH. f_equal.
  destruct (ascii_dec c (Js.lowerAscii x)) as [E | N];
    destruct (ascii_dec c x) as [E' | N'];
    try (destruct s; reflexivity).
  - exfalso. apply N'. symmetry. now apply Hc.
  - exfalso. apply N. symmetry. now apply Hc.
Qed.

Lemma split_length (sep : ascii) (s : string) :
  length (JsString.split sep s)
  = S (length (filter (Ascii.eqb sep) (list_ascii_of_string s))).
Proof.
  induction s as [| c s IH]; [reflexivity |].
  cbn [JsString.split list_ascii_of_string filter].
  rewrite (Ascii.eqb_sym sep c).
  destruct (Ascii.eqb c sep); cbn [length]; [now rewrite IH |].
  destruct (JsString.split sep s); cbn [length] in *;
    [discriminate IH | exact IH].
Qed.

Lemma split_lines_length (s : string) :
  length (JsString.split Js.LF s) = Js.splitLinesLength s.
Proof.
  unfold Js.splitLinesLength.
  induction s as [| c s IH]; [reflexivity |].
  cbn [JsString.split Js.countLF].
  destruct (Ascii.eqb c Js.LF); cbn [length Nat.add].
  - now rewrite IH.
  - destruct (JsString.split Js.LF s); cbn [length] in *;
      [discriminate IH | exact IH].
Qed.
End StringFacts.

Lemma StronglySorted_app {A} (R : A -> A -> Prop) (a b : list A) :
  StronglySorted R a -> StronglySorted R b ->
  (forall x y, In x a -> In y b -> R x y) ->
  StronglySorted R (a ++ b).
Proof.
  induction a as [| x a IH]; cbn; intros Ha Hb Hab; [exact Hb |].
  inversion Ha as [| ? ? Ha' Hx]; subst. constructor.
  - apply IH; auto.
  - apply Forall_app. split; [exact Hx |].
    apply Forall_forall. intros y Hy. apply Hab; auto.
Qed.

Lemma StronglySorted_const (c : Z) (l : list Z) :
  (forall z, In z l -> z = c) -> StronglySorted Z.le l.
Proof.
  induction l as [| x l IH]; intros H; constructor.
  - apply IH. intros z Hz. apply H. now right.
  - apply Forall_forall. intros z Hz.
    rewrite (H x (or_introl eq_refl)), (H z (or_intror Hz)). lia.
Qed.

Section FileAnalysisFacts.
Variable sqlPattern : string -> bool.
Variable filePath : string.

Local Notation checkLine := (FileAnalysis.checkLine sqlPattern filePath).
Local Notation hasSQLInjectionRisk := (FileAnalysis.hasSQLInjectionRisk sqlPattern).

(** What one line adds, whatever was found before it. *)
Lemma checkLine_In (issues : list Vulnerability) (text : string) (index : nat)
      (v : Vulnerability) :
  let lineNum := (Z.of_nat index + 1)%Z in
  In v (checkLine issues text index)
  <-> In v issues
      \/ (FileAnalysis.hasHardcodedSecret text = true
          /\ v = FileAnalysis.secretIssue filePath lineNum)
      \/ (JsString.includes text "eval(" = true
          /\ v = FileAnalysis.evalIssue filePath lineNum)
      \/ (JsString.includes text "innerHTML" = true
          /\ v = FileAnalysis.innerHTMLIssue filePath lineNum)
      \/ (hasSQLInjectionRisk text = true
          /\ v = FileAnalysis.sqlIssue filePath lineNum)
      \/ (FileAnalysis.hasConsoleLog text = true
          /\ v = FileAnalysis.consoleLogIssue filePath lineNum).
Proof.
  cbn zeta. unfold FileAnalysis.checkLine.
  destruct (FileAnalysis.hasHardcodedSecret text);
    destruct (JsString.includes text "eval(");
    destruct (JsString.includes text "innerHTML");
    destruct (hasSQLInjectionRisk text);
    destruct (FileAnalysis.hasConsoleLog text);
    rewrite ?in_app_iff; cbn [In];
    intuition (try discriminate; auto).
Qed.

Lemma checkLine_app (issues : list Vulnerability) (text : string) (index : nat) :
  checkLine issues text index = issues ++ checkLine [] text index.
Proof.
  unfold FileAnalysis.checkLine.
  destruct (FileAnalysis.hasHardcodedSecret text);
    destruct (JsString.includes text "eval(");
    destruct (JsString.includes text "innerHTML");
    destruct (hasSQLInjectionRisk text);
    destruct (FileAnalysis.hasConsoleLog text);
    cbn [app]; rewrite <- ?app_assoc, ?app_nil_r; reflexivity.
Qed.

Lemma checkLine_length (text : string) (index : nat) :
  length (checkLine [] text index) <= 5.
Proof.
  unfold FileAnalysis.checkLine.
  destruct (FileAnalysis.hasHardcodedSecret text);
    destruct (JsString.includes text "eval(");
    destruct (JsString.includes text "innerHTML");
    destruct (hasSQLInjectionRisk text);
    destruct (FileAnalysis.hasConsoleLog text);
    cbn; lia.
Qed.

Lemma checkLine_position (text : string) (index : nat) (v : Vulnerability) :
  In v (checkLine [] text index) ->
  file v = filePath /\ line v = (Z.of_nat index + 1)%Z.
Proof.
  intros H. apply checkLine_In in H.
  destruct H as [[] | [[_ ->] | [[_ ->] | [[_ ->] | [[_ ->] | [_ ->]]]]]];
    now split.
Qed.

Lemma forEach_checkLine_In (lines : list string) (index : nat)
      (issues : list Vulnerability) (v : Vulnerability) :
  In v (JsString.forEach checkLine lines index issues)
  <-> In v issues
      \/ exists k text,
           nth_error lines k = Some text
           /\ In v (checkLine [] text (index + k)).
Proof.
  revert index issues. induction lines as [| x lines IH]; intros index issues.
  - cbn. split; [auto |]. intros [H | (k & text & H & _)]; [exact H |].
    now destruct k.
  - cbn [JsString.forEach]. rewrite IH, checkLine_app, in_app_iff. split.
    + intros [[H | H] | (k & text & Hk & H)].
      * now left.
      * right. exists 0, x. now rewrite Nat.add_0_r.
      * right. exists (S k), text. split; [exact Hk |].
        now rewrite Nat.add_succ_r.
    + intros [H | (k & text & Hk & H)]; [now left; left |].
      destruct k as [| k].
      * cbn in Hk. injection Hk as <-. rewrite Nat.add_0_r in H. now left; right.
      * right. exists k, text. split; [exact Hk |].
        now rewrite Nat.add_succ_r in H.
Qed.

Lemma forEach_checkLine_length (lines : list string) (index : nat)
      (issues : list Vulnerability) :
  length (JsString.forEach checkLine lines index issues)
  <= length issues + 5 * length lines.
Proof.
  revert index issues. induction lines as [| x lines IH]; intros index issues.
  - cbn. lia.
  - cbn [JsString.forEach length]. etransitivity; [apply IH |].
    rewrite checkLine_app, length_app.
    pose proof (checkLine_length x index). lia.
Qed.

Lemma forEach_checkLine_sorted (lines : list string) (index : nat)
      (issues : list Vulnerability) :
  StronglySorted Z.le (map line issues) ->
  (forall v, In v issues -> (line v <= Z.of_nat index)%Z) ->
  StronglySorted Z.le (map line (JsString.forEach checkLine lines index issues)).
Proof.
  revert index issues. induction lines as [| x lines IH]; intros index issues Hs Hb.
  - exact Hs.
  - cbn [JsString.forEach]. apply IH.
    + rewrite checkLine_app, map_app. apply StronglySorted_app.
      * exact Hs.
      * apply (StronglySorted_const (Z.of_nat index + 1)%Z).
        intros z Hz. apply in_map_iff in Hz as (w & <- & Hw).
        now apply checkLine_position in Hw.
      * intros a b Ha Hb'. apply in_map_iff in Ha as (v & <- & Hv).
        apply in_map_iff in Hb' as (w & <- & Hw).
        apply checkLine_position in Hw as [_ ->]. specialize (Hb v Hv). lia.
    + intros v Hv. rewrite checkLine_app in Hv. apply in_app_iff in Hv as [Hv | Hv].
      * specialize (Hb v Hv). lia.
      * apply checkLine_position in Hv as [_ ->]. lia.
Qed.

Lemma basicContentAnalysis_In (content : string) (v : Vulnerability) :
  In v (FileAnalysis.basicContentAnalysis sqlPattern content filePath)
  <-> exists k text,
        nth_error (JsString.split Js.LF content) k = Some text
        /\ In v (checkLine [] text k).
Proof.
  unfold FileAnalysis.basicContentAnalysis. cbn zeta.
  rewrite forEach_checkLine_In. cbn [In Nat.add]. tauto.
Qed.
End FileAnalysisFacts.

(** X14.  [analyzeFile] writes nothing.  An empty path is refused with a
    [ValidationError] and the file is not read.  For another path, a
    rejection of the read is reported as the [FileProcessingError] "Failed
    to analyze file: " with the path, whatever was thrown (the error
    "Failed to read file: " of [basicFileAnalysis] is replaced and does not
    reach the caller), and a text that was read is given to
    [basicContentAnalysis]. *)
Theorem X14_analyze_file (sqlPattern : string -> bool)
        (readFile : string -> Thrown + string) (filePath : string) :
  let run := FileAnalysis.analyzeFile sqlPattern readFile filePath in
  console run = []
  /\ (filePath = "" ->
      forall readFile',
        FileAnalysis.analyzeFile sqlPattern readFile' filePath
        = throw (ValidationError "File path is required and must be a string"))
  /\ (filePath <> "" ->
      outcome run
      = match readFile filePath with
        | inr content =>
            Ok (FileAnalysis.basicContentAnalysis sqlPattern content filePath)
        | inl _ =>
            Throw (ThrownError
                     (FileProcessingError
                        ("Failed to analyze file: " ++ filePath)%string
                        (Some filePath)))
        end).
Proof.
  cbn zeta. unfold FileAnalysis.analyzeFile, FileAnalysis.basicFileAnalysis.
  split; [| split].
  - destruct (String.eqb filePath ""); [reflexivity |].
    now destruct (readFile filePath) as [[e | shown] | content].
  - intros ->. reflexivity.
  - intros N. apply String.eqb_neq in N. rewrite N.
    now destruct (readFile filePath) as [[e | shown] | content].
Qed.

Lemma X14_analyze_file_witness :
  outcome (FileAnalysis.analyzeFile Samples.plusPattern Samples.readScript
             "/repo/missing.js")
  = Throw (ThrownError
             (FileProcessingError "Failed to analyze file: /repo/missing.js"
                (Some "/repo/missing.js"))).
Proof.
  destruct (X14_analyze_file Samples.plusPattern Samples.readScript
              "/repo/missing.js") as (_ & _ & H).
  apply H. discriminate.
Defined.



(** X16.  What [basicContentAnalysis] reports for a line of the text.  The
    line is reported for [eval] exactly when it contains "eval(", for
    [innerHTML] exactly when it contains "innerHTML", for a console
    statement exactly when it contains "console.log" and no "//", for a
    secret or for SQL exactly when the check of that name accepts it.
    Every issue is of one of these five kinds; so the issues of low
    severity are the console statements and those of medium severity are
    the uses of [innerHTML]. *)
Theorem X16_line_rules (sqlPattern : string -> bool)
        (content filePath : string) (index : nat) (text : string) :
  nth_error (JsString.split Js.LF content) index = Some text ->
  let issues := FileAnalysis.basicContentAnalysis sqlPattern content filePath in
  let lineNum := (Z.of_nat index + 1)%Z in
  (In (FileAnalysis.evalIssue filePath lineNum) issues
   <-> JsString.includes text "eval(" = true)
  /\ (In (FileAnalysis.innerHTMLIssue filePath lineNum) issues
      <-> JsString.includes text "innerHTML" = true)
  /\ (In (FileAnalysis.consoleLogIssue filePath lineNum) issues
      <-> JsString.includes text "console.log" = true
          /\ JsString.includes text "//" = false)
  /\ (In (FileAnalysis.secretIssue filePath lineNum) issues
      <-> FileAnalysis.hasHardcodedSecret text = true)
  /\ (In (FileAnalysis.sqlIssue filePath lineNum) issues
      <-> FileAnalysis.hasSQLInjectionRisk sqlPattern text = true)
  /\ (forall v,
         In v issues ->
         (severity v = Low -> v = FileAnalysis.consoleLogIssue filePath (line v))
         /\ (severity v = Medium
             -> v = FileAnalysis.innerHTMLIssue filePath (line v))
         /\ (severity v = High
             -> v = FileAnalysis.secretIssue filePath (line v)
                \/ v = FileAnalysis.evalIssue filePath (line v)
                \/ v = FileAnalysis.sqlIssue filePath (line v))).
Proof.
  intros Hindex. cbn zeta.
  assert (Hhere : forall v,
             line v = (Z.of_nat index + 1)%Z ->
             In v (FileAnalysis.basicContentAnalysis sqlPattern content filePath)
             <-> In v (FileAnalysis.checkLine sqlPattern filePath [] text index)).
  { intros v Hline. rewrite basicContentAnalysis_In. split.
    - intros (k & text' & Hk & Hv).
      pose proof (checkLine_position _ _ _ _ _ Hv) as [_ Hline'].
      assert (k = index) by lia. subst k.
      assert (text' = text) by congruence. now subst text'.
    - intros Hv. now exists index, text. }
  repeat split.
  - intros H. apply Hhere in H; [| reflexivity].
    apply checkLine_In in H. cbn zeta in H.
    destruct H as [[] | [[_ H] | [[H _] | [[_ H] | [[_ H] | [_ H]]]]]];
      [discriminate H | exact H | discriminate H | discriminate H
       | discriminate H].
  - intros H. apply Hhere; [reflexivity |]. apply checkLine_In. cbn zeta. auto.
  - intros H. apply Hhere in H; [| reflexivity].
    apply checkLine_In in H. cbn zeta in H.
    destruct H as [[] | [[_ H] | [[_ H] | [[H _] | [[_ H] | [_ H]]]]]];
      [discriminate H | discriminate H | exact H | discriminate H
       | discriminate H].
  - intros H. apply Hhere; [reflexivity |]. apply checkLine_In. cbn zeta. auto 6.
  - apply Hhere in H; [| reflexivity].
    apply checkLine_In in H. cbn zeta in H.
    destruct H as [[] | [[_ H] | [[_ H] | [[_ H] | [[_ H] | [H _]]]]]];
      [discriminate H | discriminate H | discriminate H | discriminate H |].
    unfold FileAnalysis.hasConsoleLog in H.
    now apply andb_true_iff in H as [H _].
  - apply Hhere in H; [| reflexivity].
    apply checkLine_In in H. cbn zeta in H.
    destruct H as [[] | [[_ H] | [[_ H] | [[_ H] | [[_ H] | [H _]]]]]];
      [discriminate H | discriminate H | discriminate H | discriminate H |].
    unfold FileAnalysis.hasConsoleLog in H.
    apply andb_true_iff in H as [_ H]. now apply negb_true_iff in H.
  - intros [H1 H2]. apply Hhere; [reflexivity |]. apply checkLine_In. cbn zeta.
    do 5 right. split; [| reflexivity].
    unfold FileAnalysis.hasConsoleLog. now rewrite H1, H2.
  - intros H. apply Hhere in H; [| reflexivity].
    apply checkLine_In in H. cbn zeta in H.
    destruct H as [[] | [[H _] | [[_ H] | [[_ H] | [[_ H] | [_ H]]]]]];
      [exact H | discriminate H | discriminate H | discriminate H
       | discriminate H].
  - intros H. apply Hhere; [reflexivity |]. apply checkLine_In. cbn zeta. auto.
  - intros H. apply Hhere in H; [| reflexivity].
    apply checkLine_In in H. cbn zeta in H.
    destruct H as [[] | [[_ H] | [[_ H] | [[_ H] | [[H _] | [_ H]]]]]];
      [discriminate H | discriminate H | discriminate H | exact H
       | discriminate H].
  - intros H. apply Hhere; [reflexivity |]. apply checkLine_In. cbn zeta. auto 7.
  - apply basicContentAnalysis_In in H as (k & text' & _ & H).
    apply checkLine_In in H. cbn zeta in H.
    destruct H as [[] | [[_ ->] | [[_ ->] | [[_ ->] | [[_ ->] | [_ ->]]]]]];
      intros D; first [discriminate D | reflexivity].
  - apply basicContentAnalysis_In in H as (k & text' & _ & H).
    apply checkLine_In in H. cbn zeta in H.
    destruct H as [[] | [[_ ->] | [[_ ->] | [[_ ->] | [[_ ->] | [_ ->]]]]]];
      intros D; first [discriminate D | reflexivity].
  - apply basicContentAnalysis_In in H as (k & text' & _ & H).
    apply checkLine_In in H. cbn zeta in H.
    destruct H as [[] | [[_ ->] | [[_ ->] | [[_ ->] | [[_ ->] | [_ ->]]]]]];
      intros D; first [discriminate D | cbn; auto].
Qed.

Lemma X16_line_rules_witness :
  In (FileAnalysis.evalIssue "/repo/app.js" 2)
     (FileAnalysis.basicContentAnalysis Samples.plusPattern Samples.script
        "/repo/app.js").
Proof.
  destruct (X16_line_rules Samples.plusPattern Samples.script "/repo/app.js"
              1 "eval(input);") as ([_ H] & _).
  - reflexivity.
  - apply H. reflexivity.
Defined.

Lemma lowerAscii_keeps (c : ascii) :
  (nat_of_ascii c <? 65) || (90 <? nat_of_ascii c) = true ->
  Js.lowerAscii c = c.
Proof.
  destruct c as [[] [] [] [] [] [] [] []]; vm_compute; congruence.
Qed.

Lemma lowerAscii_only (c x : ascii) :
  (nat_of_ascii c <? 65) || (122 <? nat_of_ascii c) = true ->
  Js.lowerAscii x = c <-> x = c.
Proof.
  intros Hc. split.
  - intros <-. revert Hc.
    destruct x as [[] [] [] [] [] [] [] []]; vm_compute; congruence.
  - intros ->. apply lowerAscii_keeps. revert Hc.
    destruct c as [[] [] [] [] [] [] [] []]; vm_compute; congruence.
Qed.

(** X17.  The check for a hard-coded secret does not depend on the case of
    the letters of the line.  The keywords "apikey" and "api_key" add
    nothing to "key": a line is accepted exactly when its lowercased text
    contains "password", "secret", "key" or "token", and the line contains
    an equals sign and a single or double quote. *)
Theorem X17_secret_check (line : string) :
  FileAnalysis.hasHardcodedSecret (Js.toLowerCase line)
  = FileAnalysis.hasHardcodedSecret line
  /\ FileAnalysis.hasHardcodedSecret line
     = (JsString.includes (Js.toLowerCase line) "password"
        || JsString.includes (Js.toLowerCase line) "secret"
        || JsString.includes (Js.toLowerCase line) "key"
        || JsString.includes (Js.toLowerCase line) "token")
       && JsString.includes line "="
       && (JsString.includes line Js.dquote || JsString.includes line "'").
Proof.
  split.
  - unfold FileAnalysis.hasHardcodedSecret.
    rewrite toLowerCase_idempotent.
    unfold Js.dquote.
    now rewrite !includes_lower_char
      by (intros x; apply lowerAscii_only; reflexivity).
  - unfold FileAnalysis.hasHardcodedSecret, FileAnalysis.secretKeywords.
    cbn [existsb].
    pose proof (includes_part (Js.toLowerCase line) "apikey" "api" "key" ""
                  eq_refl) as H1.
    pose proof (includes_part (Js.toLowerCase line) "api_key" "api_" "key" ""
                  eq_refl) as H2.
    destruct (JsString.includes (Js.toLowerCase line) "password");
      destruct (JsString.includes (Js.toLowerCase line) "secret");
      destruct (JsString.includes (Js.toLowerCase line) "key");
      destruct (JsString.includes (Js.toLowerCase line) "token");
      try reflexivity;
      destruct (JsString.includes (Js.toLowerCase line) "apikey");
      try (now specialize (H1 eq_refl));
      destruct (JsString.includes (Js.toLowerCase line) "api_key");
      try (now specialize (H2 eq_refl));
      reflexivity.
Qed.

Lemma X17_secret_check_witness :
  FileAnalysis.hasHardcodedSecret (Js.toLowerCase "const API_KEY = 'abc';")
  = FileAnalysis.hasHardcodedSecret "const API_KEY = 'abc';".
Proof.
  exact (proj1 (X17_secret_check "const API_KEY = 'abc';")).
Defined.

Section PatternFacts.
Variable sqlPattern : string -> bool.
Variable trim : string -> string.
Variable filePath : string.

Local Notation checkLine := (FileAnalysis.checkLine sqlPattern filePath).

(** The number of issues with a given description. *)
Local Notation described d issues :=
  (length (filter (fun v : Vulnerability => String.eqb (description v) d) issues)).

Lemma forEach_push_length {A : Type} (test : string -> bool)
      (make : string -> nat -> A) (lines : list string) (index : nat)
      (found : list A) :
  length (JsString.forEach
            (fun found line index =>
               if test line then found ++ [make line index] else found)
            lines index found)
  = length found + length (filter test lines).
Proof.
  revert index found. induction lines as [| x lines IH]; intros index found.
  - cbn. lia.
  - cbn [JsString.forEach filter]. rewrite IH.
    destruct (test x); [rewrite length_app; cbn [length]; lia | reflexivity].
Qed.

Lemma forEach_checkLine_described (d : string) (test : string -> bool)
      (lines : list string) (index : nat) (issues : list Vulnerability) :
  (forall text k,
      described d (checkLine [] text k) = if test text then 1 else 0) ->
  described d (JsString.forEach checkLine lines index issues)
  = described d issues + length (filter test lines).
Proof.
  intros Hone. revert index issues.
  induction lines as [| x lines IH]; intros index issues.
  - cbn. lia.
  - cbn [JsString.forEach filter]. rewrite IH, checkLine_app, filter_app,
      length_app, Hone.
    destruct (test x); cbn [length]; lia.
Qed.

Lemma checkLine_described (text : string) (k : nat) :
  described "Potential hardcoded secret detected" (checkLine [] text k)
  = (if FileAnalysis.hasHardcodedSecret text then 1 else 0)
  /\ described "Potential SQL injection vulnerability" (checkLine [] text k)
     = (if FileAnalysis.hasSQLInjectionRisk sqlPattern text then 1 else 0)
  /\ described "Use of innerHTML detected" (checkLine [] text k)
     = (if JsString.includes text "innerHTML" then 1 else 0).
Proof.
  unfold FileAnalysis.checkLine.
  destruct (FileAnalysis.hasHardcodedSecret text);
    destruct (JsString.includes text "eval(");
    destruct (JsString.includes text "innerHTML");
    destruct (FileAnalysis.hasSQLInjectionRisk sqlPattern text);
    destruct (FileAnalysis.hasConsoleLog text);
    repeat split.
Qed.

Lemma filter_length_mono {A} (f g : A -> bool) (l : list A) :
  (forall x, f x = true -> g x = true) ->
  length (filter f l) <= length (filter g l).
Proof.
  intros H. induction l as [| x l IH]; [reflexivity |]. cbn.
  destruct (f x) eqn:E.
  - rewrite (H x E). cbn. lia.
  - destruct (g x); cbn; lia.
Qed.
End PatternFacts.

(** Decides the comparisons of two given strings in the goal. *)
Ltac decide_names :=
  repeat match goal with
         | |- context [String.eqb ?a ?b] =>
             let v := eval vm_compute in (String.eqb a b) in
             match v with
             | true => change (String.eqb a b) with true
             | false => change (String.eqb a b) with false
             end
         end;
  cbv iota.



(** ** The HTML report *)

Section EscapeFacts.

Lemma replaceAll_app (c : ascii) (r a b : string) :
  JsString.replaceAll c r (a ++ b)
  = (JsString.replaceAll c r a ++ JsString.replaceAll c r b)%string.
Proof.
  induction a as [| x a IH]; [reflexivity |]. cbn.
  rewrite IH. destruct (Ascii.eqb x c); [| reflexivity].
  now rewrite string_app_assoc.
Qed.

Lemma escapeHtml_cons (x : ascii) (s : string) :
  HtmlFormatter.escapeHtml (String x s)
  = (Markup.entity x ++ HtmlFormatter.escapeHtml s)%string.
Proof.
  unfold HtmlFormatter.escapeHtml. cbn [String.eqb negb].
  change (String x s) with (String x "" ++ s)%string.
  rewrite !replaceAll_app. f_equal.
  destruct x as [[] [] [] [] [] [] [] []]; reflexivity.
Qed.

Lemma escapeHtml_escaped (text : string) :
  HtmlFormatter.escapeHtml text = Markup.escaped text.
Proof.
  induction text as [| x s IH]; [reflexivity |].
  rewrite escapeHtml_cons, IH. reflexivity.
Qed.

Lemma occurrences_app (c : ascii) (a b : string) :
  Markup.occurrences c (a ++ b)
  = Markup.occurrences c a + Markup.occurrences c b.
Proof. induction a as [| x a IH]; cbn; [reflexivity | rewrite IH; lia]. Qed.

Lemma occurrences_entity (c x : ascii) :
  Markup.special c = true -> c <> "&"%char ->
  Markup.occurrences c (Markup.entity x) = 0.
Proof.
  intros Hc Hamp.
  assert (Hcase : c = "<"%char \/ c = ">"%char \/ c = ascii_of_nat 34
                  \/ c = "'"%char).
  { unfold Markup.special in Hc. cbn [existsb] in Hc.
    repeat (apply orb_true_iff in Hc as [Hc | Hc];
            [apply Ascii.eqb_eq in Hc; auto |]).
    - contradiction.
    - discriminate. }
  destruct Hcase as [-> | [-> | [-> | ->]]];
    destruct x as [[] [] [] [] [] [] [] []]; reflexivity.
Qed.

Lemma occurrences_escaped (c : ascii) (s : string) :
  Markup.special c = true -> c <> "&"%char ->
  Markup.occurrences c (Markup.escaped s) = 0.
Proof.
  intros Hc Hamp. induction s as [| x s IH]; [reflexivity |].
  cbn [Markup.escaped]. now rewrite occurrences_app, occurrences_entity, IH.
Qed.

Lemma entity_plain (x : ascii) :
  Markup.special x = false -> Markup.entity x = String x "".
Proof.
  destruct x as [[] [] [] [] [] [] [] []]; try reflexivity; discriminate.
Qed.

Lemma entity_special (x : ascii) :
  Markup.special x = true ->
  exists rest, Markup.entity x = String "&" rest
               /\ (String.length rest <> 0)
               /\ Markup.occurrences "&" rest = 0.
Proof.
  destruct x as [[] [] [] [] [] [] [] []]; try discriminate; intros _;
    eexists; (split; [reflexivity |]); (split; [discriminate | reflexivity]).
Qed.

Lemma escaped_inj (a b : string) :
  Markup.escaped a = Markup.escaped b -> a = b.
Proof.
  revert b. induction a as [| x a IH]; intros [| y b]; cbn [Markup.escaped].
  - reflexivity.
  - destruct y as [[] [] [] [] [] [] [] []]; discriminate.
  - destruct x as [[] [] [] [] [] [] [] []]; discriminate.
  - intros H.
    destruct (Markup.special x) eqn:Ex; destruct (Markup.special y) eqn:Ey.
    + assert (x = y /\ Markup.escaped a = Markup.escaped b) as [-> Hab].
      { clear IH. revert H.
        unfold Markup.special in Ex, Ey. cbn [existsb] in Ex, Ey.
        rewrite !orb_false_r in Ex, Ey.
        repeat (apply orb_true_iff in Ex as [Ex | Ex]);
          apply Ascii.eqb_eq in Ex; subst x;
          repeat (apply orb_true_iff in Ey as [Ey | Ey]);
          apply Ascii.eqb_eq in Ey; subst y;
          cbn; intros H; first [discriminate H | (split; [reflexivity |]);
                                                 now repeat injection H as H ]. }
      f_equal. now apply IH.
    + exfalso. rewrite (entity_plain y Ey) in H.
      destruct (entity_special x Ex) as (rest & E & _). rewrite E in H.
      cbn in H. injection H as Hy _. subst y. discriminate Ey.
    + exfalso. rewrite (entity_plain x Ex) in H.
      destruct (entity_special y Ey) as (rest & E & _). rewrite E in H.
      cbn in H. injection H as Hx _. subst x. discriminate Ex.
    + rewrite (entity_plain x Ex), (entity_plain y Ey) in H. cbn in H.
      injection H as -> H. f_equal. now apply IH.
Qed.

Lemma string_length_app (a b : string) :
  String.length (a ++ b) = String.length a + String.length b.
Proof. induction a as [| x a IH]; cbn; [reflexivity | now rewrite IH]. Qed.

Lemma escaped_length (s : string) :
  String.length s <= String.length (Markup.escaped s)
  /\ (String.length (Markup.escaped s) = String.length s -> Markup.plain s = true).
Proof.
  induction s as [| x s [IH1 IH2]]; [split; reflexivity |].
  cbn [Markup.escaped Markup.plain].
  destruct (Markup.special x) eqn:Ex.
  - destruct (entity_special x Ex) as (rest & E & Hrest & _). rewrite E.
    cbn [String.append String.length]. rewrite string_length_app.
    split; lia.
  - rewrite (entity_plain x Ex). cbn [String.append String.length negb andb].
    split; [lia |]. intros H. apply IH2. lia.
Qed.

Lemma escaped_plain (s : string) :
  Markup.plain s = true -> Markup.escaped s = s.
Proof.
  induction s as [| x s IH]; [reflexivity |]. cbn [Markup.plain Markup.escaped].
  intros H. apply andb_true_iff in H as [Hx Hs]. apply negb_true_iff in Hx.
  now rewrite (entity_plain x Hx), IH.
Qed.
End EscapeFacts.

(** X19.  [escapeHtml] replaces each of the characters ampersand, less
    than, greater than, double quote and apostrophe by its entity, and no
    character twice, although it works in five passes.  Its result
    contains none of the last four characters; it determines the text; it
    is never shorter than the text, and it is the text exactly when the
    text contains none of the five characters. *)
Theorem X19_escape_html (text : string) :
  HtmlFormatter.escapeHtml text = Markup.escaped text
  /\ (forall c, In c ["<"; ">"; ascii_of_nat 34; "'"]%char ->
                Markup.occurrences c (HtmlFormatter.escapeHtml text) = 0)
  /\ (forall other,
         HtmlFormatter.escapeHtml text = HtmlFormatter.escapeHtml other ->
         text = other)
  /\ String.length text <= String.length (HtmlFormatter.escapeHtml text)
  /\ (HtmlFormatter.escapeHtml text = text <-> Markup.plain text = true).
Proof.
  rewrite escapeHtml_escaped. repeat split.
  - intros c Hc. apply occurrences_escaped.
    + cbn [In] in Hc. destruct Hc as [<- | [<- | [<- | [<- | []]]]]; reflexivity.
    + cbn [In] in Hc. destruct Hc as [<- | [<- | [<- | [<- | []]]]]; discriminate.
  - intros other H. rewrite escapeHtml_escaped in H. now apply escaped_inj.
  - apply escaped_length.
  - intros H. apply escaped_length. now rewrite H.
  - apply escaped_plain.
Qed.

Lemma X19_escape_html_witness :
  HtmlFormatter.escapeHtml "<b>R&D</b>" = "&lt;b&gt;R&amp;D&lt;/b&gt;"
  /\ Markup.occurrences "<" (HtmlFormatter.escapeHtml "<b>R&D</b>") = 0.
Proof.
  destruct (X19_escape_html "<b>R&D</b>") as (H1 & H2 & _).
  split; [rewrite H1; reflexivity | apply H2; left; reflexivity].
Defined.

Section MarkupFacts.
Variable c : ascii.
Hypothesis Hc : In c ["<"; ">"; ascii_of_nat 34]%char.

Lemma occurrences_uint (d : Decimal.uint) :
  Markup.occurrences c (NilEmpty.string_of_uint d) = 0.
Proof.
  cbn [In] in Hc.
  induction d; destruct Hc as [<- | [<- | [<- | []]]]; cbn; auto.
Qed.

Lemma occurrences_showNat (n : nat) : Markup.occurrences c (Js.showNat n) = 0.
Proof. apply occurrences_uint. Qed.

Lemma occurrences_showZ (z : Z) : Markup.occurrences c (Js.showZ z) = 0.
Proof.
  unfold Js.showZ, NilZero.string_of_int.
  assert (Hu : forall d, Markup.occurrences c (NilZero.string_of_uint d) = 0).
  { intros d. unfold NilZero.string_of_uint.
    destruct d; try apply occurrences_uint.
    cbn [In] in Hc. destruct Hc as [<- | [<- | [<- | []]]]; reflexivity. }
  destruct (Z.to_int z) as [d | d]; [apply Hu |].
  cbn [Markup.occurrences]. rewrite Hu.
  cbn [In] in Hc. destruct Hc as [<- | [<- | [<- | []]]]; reflexivity.
Qed.

Lemma occurrences_escapeHtml (s : string) :
  Markup.occurrences c (HtmlFormatter.escapeHtml s) = 0.
Proof.
  rewrite escapeHtml_escaped. cbn [In] in Hc.
  apply occurrences_escaped;
    destruct Hc as [<- | [<- | [<- | []]]]; (reflexivity || discriminate).
Qed.

Lemma occurrences_severity (s : Severity) :
  Markup.occurrences c (severityString s) = 0
  /\ Markup.occurrences c (Js.toLowerCase (severityString s)) = 0.
Proof.
  cbn [In] in Hc.
  destruct s; destruct Hc as [<- | [<- | [<- | []]]]; split; reflexivity.
Qed.

Lemma occurrences_items {A} (f : A -> string) (k : nat) (l : list A) :
  (forall x, Markup.occurrences c (f x) = k) ->
  Markup.occurrences c (Js.join "" (map f l)) = k * length l.
Proof.
  intros Hf. unfold Js.join. induction l as [| x l IH]; [cbn; lia |].
  cbn [map length]. destruct l as [| y l].
  - cbn. rewrite Hf. lia.
  - change (String.concat "" (f x :: map f (y :: l)))
      with (f x ++ "" ++ String.concat "" (map f (y :: l)))%string.
    rewrite !occurrences_app, IH, Hf. cbn [Markup.occurrences length]. lia.
Qed.
End MarkupFacts.

Lemma occurrences_risk (c : ascii) (summary : ReportSummary) :
  In c ["<"; ">"; ascii_of_nat 34]%char ->
  Markup.occurrences c (HtmlFormatter.getRiskClass summary) = 0
  /\ Markup.occurrences c (HtmlFormatter.getRiskLevel summary) = 0.
Proof.
  intros Hc. cbn [In] in Hc.
  unfold HtmlFormatter.getRiskClass, HtmlFormatter.getRiskLevel.
  destruct (0 <? high summary); destruct (2 <? medium summary);
    destruct ((0 <? medium summary) || (0 <? low summary));
    destruct Hc as [<- | [<- | [<- | []]]]; split; reflexivity.
Qed.

Lemma occurrences_count_class (c : ascii) (b : bool) (name : string) :
  Markup.occurrences c name = 0 ->
  Markup.occurrences c (if b then name else "") = 0.
Proof. now destruct b. Qed.

(** Counts the occurrences of a character in the fixed parts. *)
Ltac count_fixed :=
  repeat match goal with
         | |- context [Markup.occurrences ?c ?s] =>
             let v := eval vm_compute in (Markup.occurrences c s) in
             change (Markup.occurrences c s) with v
         end.

(** Counts the occurrences of a character in a text made of fixed parts,
    escaped texts, numbers and severities. *)
Ltac count_markup H :=
  cbn [Js.join String.concat];
  rewrite ?occurrences_app;
  rewrite ?(occurrences_escapeHtml _ H), ?(occurrences_showZ _ H),
    ?(occurrences_showNat _ H),
    ?(proj1 (occurrences_severity _ H _)),
    ?(proj2 (occurrences_severity _ H _)),
    ?(proj1 (occurrences_risk _ _ H)),
    ?(proj2 (occurrences_risk _ _ H)),
    ?occurrences_count_class by reflexivity;
  count_fixed; reflexivity.

Lemma item_markup (vuln : Vulnerability) :
  let item := HtmlFormatter.generateVulnerabilityItem vuln in
  Markup.occurrences "<" item = 18
  /\ Markup.occurrences ">" item = 18
  /\ Markup.occurrences (ascii_of_nat 34) item = 10.
Proof.
  assert (H1 : In "<"%char ["<"; ">"; ascii_of_nat 34]%char) by (cbn; auto).
  assert (H2 : In ">"%char ["<"; ">"; ascii_of_nat 34]%char) by (cbn; auto).
  assert (H3 : In (ascii_of_nat 34) ["<"; ">"; ascii_of_nat 34]%char)
    by (cbn; auto).
  cbn zeta. unfold HtmlFormatter.generateVulnerabilityItem, Js.dquote.
  split; [count_markup H1 | split; [count_markup H2 | count_markup H3]].
Qed.

(** X20.  The text that a finding or the narrative brings into the HTML
    report adds no markup.  Whatever the description, the file, the line
    and the recommendation of a finding are, its list item has 18 opening
    and 18 closing angle brackets and 10 double quotes, those of the
    template; the section of the findings has those of its template and
    of one item for each finding, the section of the narrative and the
    section of the summary those of their templates. *)
Theorem X20_report_markup :
  (forall vuln,
      let item := HtmlFormatter.generateVulnerabilityItem vuln in
      Markup.occurrences "<" item = 18
      /\ Markup.occurrences ">" item = 18
      /\ Markup.occurrences (ascii_of_nat 34) item = 10)
  /\ (forall vulns,
         let section := HtmlFormatter.generateVulnerabilitiesSection vulns in
         Markup.occurrences "<" section = 6 + 18 * length vulns
         /\ Markup.occurrences ">" section = 6 + 18 * length vulns
         /\ Markup.occurrences (ascii_of_nat 34) section = 4 + 10 * length vulns)
  /\ (forall insight rest,
         let section := HtmlFormatter.generateInsightsSection (insight :: rest) in
         Markup.occurrences "<" section = 8
         /\ Markup.occurrences ">" section = 8
         /\ Markup.occurrences (ascii_of_nat 34) section = 4)
  /\ (forall summary,
         let section := HtmlFormatter.generateSummarySection summary in
         Markup.occurrences "<" section = 42
         /\ Markup.occurrences ">" section = 42
         /\ Markup.occurrences (ascii_of_nat 34) section = 14).
Proof.
  assert (H1 : In "<"%char ["<"; ">"; ascii_of_nat 34]%char) by (cbn; auto).
  assert (H2 : In ">"%char ["<"; ">"; ascii_of_nat 34]%char) by (cbn; auto).
  assert (H3 : In (ascii_of_nat 34) ["<"; ">"; ascii_of_nat 34]%char)
    by (cbn; auto).
  split; [exact item_markup | split; [| split]].
  - intros [| v vulns]; [repeat split |].
    cbn zeta. unfold HtmlFormatter.generateVulnerabilitiesSection, Js.dquote.
    set (all := v :: vulns).
    cbn [String.concat]. unfold Js.join at 1 3 5. cbn [String.concat].
    rewrite !occurrences_app.
    rewrite (occurrences_items "<" _ 18)
      by (intros x; exact (proj1 (item_markup x))).
    rewrite (occurrences_items ">" _ 18)
      by (intros x; exact (proj1 (proj2 (item_markup x)))).
    rewrite (occurrences_items (ascii_of_nat 34) _ 10)
      by (intros x; exact (proj2 (proj2 (item_markup x)))).
    generalize (length all). intros n.
    count_fixed. repeat split; lia.
  - intros insight rest. cbn zeta.
    unfold HtmlFormatter.generateInsightsSection, Js.dquote.
    split; [count_markup H1 | split; [count_markup H2 | count_markup H3]].
  - intros summary. cbn zeta.
    unfold HtmlFormatter.generateSummarySection, Js.dquote. cbn zeta.
    split; [count_markup H1 | split; [count_markup H2 | count_markup H3]].
Qed.

Lemma X20_report_markup_witness :
  Markup.occurrences "<" (HtmlFormatter.generateVulnerabilityItem Demo.finding)
  = 18.
Proof.
  exact (proj1 (proj1 X20_report_markup Demo.finding)).
Defined.

(** X21.  The risk line of the HTML report.  The class and the text of
    the risk level are always of the same level.  For the summary of a
    report made by [generateReport], the level is "Excellent" exactly when
    there is no finding, "High" exactly when a finding has severity high,
    and "Medium" exactly when no finding has severity high and at least
    three have severity medium; so one or two findings of severity medium
    are rated "Low". *)
Theorem X21_risk_level :
  (forall summary,
      In (HtmlFormatter.getRiskClass summary, HtmlFormatter.getRiskLevel summary)
         [ ("risk-high", "High - Immediate attention required");
           ("risk-medium", "Medium - Review recommended");
           ("risk-low", "Low - Monitor and improve");
           ("risk-excellent", "Excellent - No issues found") ])
  /\ (forall vulns ins,
         let level :=
           HtmlFormatter.getRiskLevel
             (summary (Reporter.generateReport vulns ins)) in
         let counted := count_occ Severity_eq_dec (map severity vulns) in
         (level = "Excellent - No issues found" <-> vulns = [])
         /\ (level = "High - Immediate attention required"
             <-> exists v, In v vulns /\ severity v = High)
         /\ (level = "Medium - Review recommended"
             <-> counted High = 0 /\ 3 <= counted Medium)
         /\ (level = "Low - Monitor and improve"
             <-> counted High = 0 /\ counted Medium <= 2 /\ vulns <> [])).
Proof.
  split.
  - intros summary. unfold HtmlFormatter.getRiskClass, HtmlFormatter.getRiskLevel.
    destruct (0 <? high summary); [cbn; auto |].
    destruct (2 <? medium summary); [cbn; auto |].
    destruct ((0 <? medium summary) || (0 <? low summary)); cbn; auto.
  - intros vulns ins.
    destruct (report_counts vulns ins) as (_ & Ht & Hsum & Hh & Hm & Hl).
    cbn zeta in *. unfold HtmlFormatter.getRiskLevel.
    set (s := summary (Reporter.generateReport vulns ins)) in *.
    rewrite <- Hh, <- Hm.
    assert (Hnil : vulns = [] <-> total s = 0).
    { rewrite Ht. destruct vulns; [tauto | split; discriminate]. }
    assert (Hhigh : (exists v, In v vulns /\ severity v = High) <-> 0 < high s).
    { rewrite Hh. split.
      - intros (v & Hv & E). apply (count_occ_In Severity_eq_dec).
        apply in_map_iff. now exists v.
      - intros H0. apply (count_occ_In Severity_eq_dec) in H0.
        apply in_map_iff in H0 as (v & E & Hv). now exists v. }
    rewrite Hnil, Hhigh.
    destruct (Nat.ltb_spec 0 (high s));
      [repeat split; intros; try discriminate; try lia |].
    destruct (Nat.ltb_spec 2 (medium s));
      [repeat split; intros; try discriminate; try lia |].
    destruct (Nat.ltb_spec 0 (medium s)); destruct (Nat.ltb_spec 0 (low s));
      cbn [orb]; repeat split; intros; try discriminate; try lia.
    all: match goal with H : _ /\ _ |- _ => destruct H as (? & ? & ?) end; lia.
Qed.

Lemma X21_risk_level_witness :
  HtmlFormatter.getRiskLevel
    (summary (Reporter.generateReport [] ["The codebase is clean."]))
  = "Excellent - No issues found".
Proof.
  destruct X21_risk_level as [_ H].
  destruct (H [] ["The codebase is clean."]) as ([_ H0] & _).
  apply H0. reflexivity.
Defined.

(** ** The layout of text for the terminal *)

Section StripFacts.
Import ReportLayout.

Lemma stripFrom_length (skip : nat) (s : string) :
  String.length (stripFrom skip s) <= String.length s.
Proof.
  revert skip. induction s as [| c s IH]; intros skip; [reflexivity |].
  cbn [stripFrom]. destruct skip as [| k].
  - destruct (matchAnsi (String c s)).
    + specialize (IH (n - 1)). cbn [String.length]. lia.
    + specialize (IH 0). cbn [String.length]. lia.
  - specialize (IH k). cbn [String.length]. lia.
Qed.

Lemma stripFrom_plain (s : string) :
  Markup.occurrences ESC s = 0 -> stripFrom 0 s = s.
Proof.
  induction s as [| c s IH]; [reflexivity |].
  cbn [Markup.occurrences stripFrom]. intros H.
  destruct (Ascii.eqb c ESC) eqn:E; [discriminate H |].
  assert (Hm : matchAnsi (String c s) = None)
    by (unfold matchAnsi; destruct s; [reflexivity | now rewrite E]).
  rewrite Hm, IH; [reflexivity | exact H].
Qed.

Lemma stripFrom_skip (a s : string) :
  stripFrom (String.length a) (a ++ s) = stripFrom 0 s.
Proof.
  induction a as [| x a IH]; [reflexivity |]. cbn. exact IH.
Qed.

Lemma string_app_nil_r (s : string) : (s ++ "")%string = s.
Proof. induction s as [| c s IH]; cbn; [reflexivity | now rewrite IH]. Qed.

Lemma isFinal_not_parameter (f : ascii) :
  isFinal f = true -> isParameter f = false.
Proof.
  destruct f as [[] [] [] [] [] [] [] []]; vm_compute; congruence.
Qed.

Lemma parameters_run (p : string) (f : ascii) (s : string) :
  Forall (fun c => isParameter c = true) (list_ascii_of_string p) ->
  isFinal f = true ->
  parameters (p ++ String f s) = (String.length p, String f s).
Proof.
  intros Hp Hf. induction p as [| c p IH].
  - cbn. now rewrite (isFinal_not_parameter f Hf).
  - cbn [list_ascii_of_string] in Hp. inversion Hp as [| ? ? Hc Hp']; subst.
    cbn [String.append parameters String.length]. now rewrite Hc, IH.
Qed.
End StripFacts.

(** X22.  [stripAnsi] leaves a text without an escape character as it is
    and never makes a text longer.  It takes away an escape sequence at
    the head of a text: the escape character, an opening bracket, digits
    and semicolons, and one of the letters m, G, K, H, F.  So it gives
    back a text without an escape character that was put between two such
    sequences, as the colouring of the reporter does. *)
Theorem X22_strip_ansi (text : string) :
  String.length (ReportLayout.stripAnsi text) <= String.length text
  /\ (Markup.occurrences ReportLayout.ESC text = 0 ->
      ReportLayout.stripAnsi text = text)
  /\ (forall p f,
         Forall (fun c => ReportLayout.isParameter c = true)
                (list_ascii_of_string p) ->
         ReportLayout.isFinal f = true ->
         let sequence :=
           String ReportLayout.ESC (String "[" (p ++ String f "")) in
         ReportLayout.stripAnsi (sequence ++ text) = ReportLayout.stripAnsi text
         /\ forall p' f',
              Forall (fun c => ReportLayout.isParameter c = true)
                     (list_ascii_of_string p') ->
              ReportLayout.isFinal f' = true ->
              Markup.occurrences ReportLayout.ESC text = 0 ->
              ReportLayout.stripAnsi
                (sequence ++ text
                 ++ String ReportLayout.ESC (String "[" (p' ++ String f' "")))
              = text).
Proof.
  assert (Hhead : forall p f s,
             Forall (fun c => ReportLayout.isParameter c = true)
                    (list_ascii_of_string p) ->
             ReportLayout.isFinal f = true ->
             ReportLayout.stripAnsi
               (String ReportLayout.ESC (String "[" (p ++ String f "")) ++ s)
             = ReportLayout.stripAnsi s).
  { intros p f s Hp Hf. unfold ReportLayout.stripAnsi.
    cbn [String.append]. rewrite string_app_assoc. cbn [String.append].
    cbn [ReportLayout.stripFrom ReportLayout.matchAnsi].
    change (Ascii.eqb ReportLayout.ESC ReportLayout.ESC && Ascii.eqb "[" "[")
      with true.
    cbv iota. rewrite (parameters_run p f s Hp Hf), Hf.
    replace (String.length p + 3 - 1) with (S (String.length (p ++ String f "")))
      by (rewrite string_length_app; cbn; lia).
    cbn [ReportLayout.stripFrom].
    replace (p ++ String f s)%string with ((p ++ String f "") ++ s)%string
      by (now rewrite string_app_assoc).
    apply stripFrom_skip. }
  split; [apply stripFrom_length | split; [apply stripFrom_plain |]].
  intros p f Hp Hf. cbn zeta. split; [now apply Hhead |].
  intros p' f' Hp' Hf' Hplain.
  rewrite (Hhead p f _ Hp Hf).
  pose proof (Hhead p' f' "" Hp' Hf') as Hend.
  rewrite string_app_nil_r in Hend.
  unfold ReportLayout.stripAnsi in *.
  clear Hhead p f Hp Hf. induction text as [| c s IH].
  - exact Hend.
  - cbn [Markup.occurrences] in Hplain.
    destruct (Ascii.eqb c ReportLayout.ESC) eqn:E; [discriminate Hplain |].
    cbn [String.append ReportLayout.stripFrom].
    assert (Hm : ReportLayout.matchAnsi
                   (String c (s ++ String ReportLayout.ESC
                                     (String "[" (p' ++ String f' ""))))
                 = None).
    { unfold ReportLayout.matchAnsi.
      destruct (s ++ _)%string; [reflexivity | now rewrite E]. }
    rewrite Hm. f_equal. now apply IH.
Qed.

Lemma X22_strip_ansi_witness :
  ReportLayout.stripAnsi
    (String ReportLayout.ESC "[1;31m" ++ "HIGH" ++ String ReportLayout.ESC "[0m")
  = "HIGH".
Proof.
  destruct (X22_strip_ansi "HIGH") as (_ & _ & H).
  destruct (H "1;31" "m"%char) as [_ H'].
  - repeat constructor.
  - reflexivity.
  - apply (H' "0" "m"%char).
    + repeat constructor.
    + reflexivity.
    + reflexivity.
Defined.

Section WrapFacts.
Import ReportLayout.

Lemma split_not_nil (sep : ascii) (s : string) : JsString.split sep s <> [].
Proof.
  destruct s as [| c s]; cbn; [discriminate |].
  destruct (Ascii.eqb c sep); [discriminate |].
  destruct (JsString.split sep s); discriminate.
Qed.

(** Joining what [split] gave gives the text back. *)
Lemma join_split (sep : ascii) (s : string) :
  Js.join (String sep "") (JsString.split sep s) = s.
Proof.
  unfold Js.join. induction s as [| c s IH]; [reflexivity |].
  cbn [JsString.split]. pose proof (split_not_nil sep s) as Hne.
  destruct (Ascii.eqb_spec c sep) as [-> | N].
  - destruct (JsString.split sep s) as [| w ws]; [contradiction |].
    cbn [String.concat String.append] in *. now rewrite IH.
  - destruct (JsString.split sep s) as [| w ws]; [contradiction |].
    destruct ws as [| w' ws]; cbn [String.concat String.append] in *;
      now rewrite IH.
Qed.

Lemma join_snoc (sep : string) (l : list string) (w : string) :
  Js.join sep (l ++ [w])
  = match l with
    | [] => w
    | _ :: _ => (Js.join sep l ++ sep ++ w)%string
    end.
Proof.
  unfold Js.join. induction l as [| x l IH]; [reflexivity |].
  destruct l as [| y l]; [reflexivity |].
  change (String.concat sep ((x :: y :: l) ++ [w]))
    with (x ++ sep ++ String.concat sep ((y :: l) ++ [w]))%string.
  rewrite IH.
  change (String.concat sep (x :: y :: l))
    with (x ++ sep ++ String.concat sep (y :: l))%string.
  now rewrite !string_app_assoc.
Qed.

Variable maxWidth : Z.
Variable indent : string.
(** The words of the text. *)
Variable W : list string.

Local Notation fits := (Wrapping.fits maxWidth W).
Local Notation sofar := Wrapping.sofar.

Lemma wrap_loop (words : list string) :
  Forall (fun w => w <> "" /\ In w W) words ->
  forall (done lines : list string) (current : string),
    Js.join " " (sofar lines current) = Js.join " " done ->
    (sofar lines current = [] <-> done = []) ->
    Forall fits (sofar lines current) ->
    exists lines' current',
      fold_left (wrapStep maxWidth indent) words
                (map (String.append indent) lines, current)
      = (map (String.append indent) lines', current')
      /\ Js.join " " (sofar lines' current') = Js.join " " (done ++ words)
      /\ Forall fits (sofar lines' current').
Proof.
  unfold Wrapping.sofar, Wrapping.fits.
  induction 1 as [| w words [Hw HwW] _ IH]; intros done lines current HJ Hnil Hfit.
  - exists lines, current. now rewrite app_nil_r.
  - cbn [fold_left]. unfold wrapStep at 2.
    replace (done ++ w :: words) with ((done ++ [w]) ++ words)
      by (now rewrite <- app_assoc).
    assert (Hsnoc : forall l,
               Js.join " " l = Js.join " " done -> (l = [] <-> done = []) ->
               Js.join " " (l ++ [w]) = Js.join " " (done ++ [w])).
    { intros l E Hl. rewrite !join_snoc.
      destruct l as [| a l]; destruct done as [| b done'];
        [reflexivity | | | now rewrite E].
      - discriminate (proj1 Hl eq_refl).
      - discriminate (proj2 Hl eq_refl). }
    apply String.eqb_neq in Hw.
    destruct (String.eqb current "") eqn:Hcur; cbn [negb].
    + (* the line that is being filled is empty *)
      apply String.eqb_eq in Hcur. subst current.
      rewrite app_nil_r in HJ, Hnil, Hfit.
      destruct (Js.length (stripAnsi w) <=? maxWidth)%Z eqn:Hle.
      * apply (IH (done ++ [w]) lines w).
        -- rewrite Hw. now apply Hsnoc.
        -- rewrite Hw. split; intros E; now destruct (app_cons_not_nil _ _ _ (eq_sym E)).
        -- rewrite Hw. apply Forall_app. split; [exact Hfit |].
           constructor; [| constructor]. left. now apply Z.leb_le.
      * replace (map (String.append indent) lines ++ [(indent ++ w)%string])
          with (map (String.append indent) (lines ++ [w]))
          by (now rewrite map_app).
        apply (IH (done ++ [w]) (lines ++ [w]) "").
        -- cbn [String.eqb]. rewrite app_nil_r. now apply Hsnoc.
        -- cbn [String.eqb]. rewrite app_nil_r.
           split; intros E; now destruct (app_cons_not_nil _ _ _ (eq_sym E)).
        -- cbn [String.eqb]. rewrite app_nil_r. apply Forall_app.
           split; [exact Hfit |]. constructor; [| constructor]. now right.
    + (* the line that is being filled has words *)
      pose proof Hcur as Hcur'. apply String.eqb_neq in Hcur.
      assert (Hdone : done <> []).
      { intros E. apply Hnil in E. now destruct (app_cons_not_nil _ _ _ (eq_sym E)). }
      destruct (Js.length (stripAnsi (current ++ " " ++ w)) <=? maxWidth)%Z
        eqn:Hle.
      * assert (Hne : String.eqb (current ++ " " ++ w) "" = false).
        { apply String.eqb_neq. destruct current; [contradiction | discriminate]. }
        apply (IH (done ++ [w]) lines (current ++ " " ++ w)%string).
        -- rewrite Hne. rewrite (join_snoc " " done w).
           destruct done as [| b done']; [contradiction |].
           rewrite <- HJ, !join_snoc.
           destruct lines; [reflexivity | now rewrite !string_app_assoc].
        -- rewrite Hne. split; intros E;
             now destruct (app_cons_not_nil _ _ _ (eq_sym E)).
        -- rewrite Hne. apply Forall_app in Hfit as [Hfit _].
           apply Forall_app. split; [exact Hfit |].
           constructor; [| constructor]. left. now apply Z.leb_le.
      * replace (map (String.append indent) lines ++ [(indent ++ current)%string])
          with (map (String.append indent) (lines ++ [current]))
          by (now rewrite map_app).
        apply (IH (done ++ [w]) (lines ++ [current]) w).
        -- rewrite Hw. now apply Hsnoc.
        -- rewrite Hw. split; intros E;
             now destruct (app_cons_not_nil _ _ _ (eq_sym E)).
        -- rewrite Hw. apply Forall_app. split; [exact Hfit |].
           constructor; [| constructor]. now right.
Qed.
End WrapFacts.

(** X23.  [wrapText] on a text whose words are not empty, that is, a text
    that is not empty and has no space at its head, at its end or after
    another space.  The result is lines that each start with the indent;
    joined by single spaces, the lines without the indent are the text:
    no word is lost, split or moved.  A line without its indent is not
    wider than [maxWidth] once the escape sequences are taken away, or it
    is one word of the text. *)
Theorem X23_wrap_text (text : string) (maxWidth : Z) (indent : string) :
  Forall (fun w => w <> "") (JsString.split " " text) ->
  exists lines,
    ReportLayout.wrapText text maxWidth indent
    = Js.join Js.nl (map (String.append indent) lines)
    /\ Js.join " " lines = text
    /\ Forall (fun l =>
                 (Js.length (ReportLayout.stripAnsi l) <= maxWidth)%Z
                 \/ In l (JsString.split " " text))
              lines.
Proof.
  intros Hwords. unfold ReportLayout.wrapText. cbn zeta.
  destruct (wrap_loop maxWidth indent (JsString.split " " text)
              (JsString.split " " text)) with (done := @nil string)
                                             (lines := @nil string)
                                             (current := "")
    as (lines & current & Hfold & HJ & Hfit); unfold Wrapping.sofar in *.
  - apply Forall_forall. intros w Hw. split; [| exact Hw].
    rewrite Forall_forall in Hwords. now apply Hwords.
  - reflexivity.
  - cbn. tauto.
  - constructor.
  - cbn [map] in Hfold. rewrite Hfold. cbn [app] in HJ.
    exists (lines ++ if String.eqb current "" then [] else [current]).
    split; [| split].
    + destruct (String.eqb current ""); cbn [negb];
        [now rewrite app_nil_r | now rewrite map_app].
    + rewrite HJ. apply (join_split " ").
    + exact Hfit.
Qed.

Lemma X23_wrap_text_witness :
  exists lines,
    ReportLayout.wrapText "the quick brown fox" 10 "  "
    = Js.join Js.nl (map (String.append "  ") lines)
    /\ Js.join " " lines = "the quick brown fox"
    /\ Forall (fun l =>
                 (Js.length (ReportLayout.stripAnsi l) <= 10)%Z
                 \/ In l (JsString.split " " "the quick brown fox"))
              lines.
Proof.
  apply (X23_wrap_text "the quick brown fox" 10 "  ").
  repeat constructor; discriminate.
Defined.

(** ** The report of a failed scan *)



(** ** The configuration manager *)

Section ConfigFacts.
Import ConfigManager.

Lemma validateConfig_valid (config : option Candidate) :
  isValid (validateConfig config) = true
  <-> exists c, config = Some c
                /\ refused (apiKey c) = false /\ refused (model c) = false.
Proof.
  unfold validateConfig. destruct config as [c |]; cbn.
  - destruct (refused (apiKey c)) eqn:E1; destruct (refused (model c)) eqn:E2;
      cbn; split; try discriminate;
      try (intros (c' & E & H1 & H2); injection E as <-; congruence).
    intros _. exists c. auto.
  - split; [discriminate | intros (c & H & _); discriminate].
Qed.

Lemma loadConfig_sound (host : Host) (cache : Cache) :
  sound cache -> sound (snd (loadConfig host cache)).
Proof.
  intros Hs. unfold loadConfig.
  destruct (readFile host) as [[e | shown] | configData].
  - now destruct (JsString.includes (message e) "ENOENT").
  - exact Hs.
  - destruct (parse host configData) as [[e | shown] | parsed].
    + now destruct (JsString.includes (message e) "ENOENT").
    + exact Hs.
    + destruct (isValid (validateConfig parsed)) eqn:Hv; cbn [negb].
      * cbn [snd]. destruct parsed as [c |]; [exact Hv | exact I].
      * now destruct (JsString.includes _ "ENOENT").
Qed.

Lemma saveConfig_sound (host : Host) (config : option Candidate) (cache : Cache) :
  sound cache -> sound (snd (saveConfig host config cache)).
Proof.
  intros Hs. unfold saveConfig.
  destruct (isValid (validateConfig config)) eqn:Hv; cbn [negb]; [| exact Hs].
  destruct (ensureConfigDir host); [| exact Hs].
  destruct (writeFile host); [exact Hs |].
  cbn [snd]. destruct config as [c |]; [exact Hv | exact I].
Qed.

Lemma getConfig_sound (host : Host) (cache : Cache) :
  sound cache -> sound (snd (getConfig host cache)).
Proof.
  intros Hs. unfold getConfig. destruct cache as [c |]; [exact Hs |].
  pose proof (loadConfig_sound host None Hs) as Hl.
  now destruct (loadConfig host None) as [[found | t] cache'].
Qed.

Lemma getConfig_returns (host : Host) (cache : Cache)
      (found : option Candidate) :
  fst (getConfig host cache) = Ok found -> snd (getConfig host cache) = found.
Proof.
  unfold getConfig. destruct cache as [c |]; [cbn; congruence |].
  destruct (loadConfig host None) as [[found' | t] cache']; cbn; congruence.
Qed.

Lemma updateConfig_sound (hostGet hostSave : Host)
      (updates : option Field * option Field) (cache : Cache) :
  sound cache -> sound (snd (updateConfig hostGet hostSave updates cache)).
Proof.
  intros Hs. unfold updateConfig.
  pose proof (getConfig_sound hostGet cache Hs) as Hg.
  destruct (getConfig hostGet cache) as [[found | t] cache']; [| exact Hg].
  cbn [snd] in Hg.
  destruct (isValid (validateConfig (Some (spread _ updates)))); cbn [negb];
    [| exact Hg].
  pose proof (saveConfig_sound hostSave (Some (spread match found with
                                                      | Some c => c
                                                      | None => DEFAULT_CONFIG
                                                      end updates)) cache' Hg)
    as Hsave.
  now destruct (saveConfig hostSave _ cache') as [[u | t] cache''].
Qed.

Lemma deleteConfig_sound (host : Host) (cache : Cache) :
  sound cache -> sound (snd (deleteConfig host cache)).
Proof.
  intros Hs. unfold deleteConfig.
  destruct (unlink host) as [error |]; [| exact I].
  now destruct (noEntry host error).
Qed.

Lemma afterAll_sound (calls : list Call) : sound (afterAll calls).
Proof.
  unfold afterAll.
  assert (H : forall cache, sound cache -> sound (fold_left after calls cache)).
  { induction calls as [| call calls IH]; intros cache Hs; [exact Hs |].
    cbn [fold_left]. apply IH.
    destruct call; cbn [after];
      auto using loadConfig_sound, saveConfig_sound, getConfig_sound,
        updateConfig_sound, deleteConfig_sound. }
  apply H. exact I.
Qed.
End ConfigFacts.

(** X25.  The configuration that the manager holds.  After any sequence
    of calls of [loadConfig], [saveConfig], [getConfig], [updateConfig] and
    [deleteConfig] on a new manager, whatever the file system and the
    parser do, what [getConfig] returns is [null] or a configuration whose
    API key and model are strings that are not empty, one for which
    [validateConfig] has no error. *)
Theorem X25_config_cache (calls : list ConfigManager.Call)
        (host : ConfigManager.Host)
        (found : option ConfigManager.Candidate) :
  fst (ConfigManager.getConfig host (ConfigManager.afterAll calls)) = Ok found ->
  match found with
  | None => True
  | Some c =>
      (exists k m,
          ConfigManager.apiKey c = ConfigManager.AString k
          /\ ConfigManager.model c = ConfigManager.AString m
          /\ k <> "" /\ m <> "")
      /\ ConfigManager.errors (ConfigManager.validateConfig (Some c)) = []
  end.
Proof.
  intros H. apply getConfig_returns in H.
  pose proof (getConfig_sound host _ (afterAll_sound calls)) as Hs.
  rewrite H in Hs. destruct found as [c |]; [| exact I].
  cbn [ConfigManager.sound] in Hs.
  pose proof Hs as Hv. apply validateConfig_valid in Hv as (c' & E & H1 & H2).
  injection E as <-. split.
  - destruct (ConfigManager.apiKey c) as [| k]; [discriminate H1 |].
    destruct (ConfigManager.model c) as [| m]; [discriminate H2 |].
    exists k, m. cbn in H1, H2. apply String.eqb_neq in H1, H2. auto.
  - unfold ConfigManager.validateConfig. now rewrite H1, H2.
Qed.

Lemma X25_config_cache_witness :
  (exists k m,
      ConfigManager.apiKey Samples.stored = ConfigManager.AString k
      /\ ConfigManager.model Samples.stored = ConfigManager.AString m
      /\ k <> "" /\ m <> "")
  /\ ConfigManager.errors (ConfigManager.validateConfig (Some Samples.stored))
     = [].
Proof.
  apply (X25_config_cache
           [ ConfigManager.DeleteConfig Samples.disk;
             ConfigManager.UpdateConfig Samples.disk Samples.disk
               (None, Some (ConfigManager.AString "qwen/qwq-32b"));
             ConfigManager.DeleteConfig Samples.disk ]
           Samples.disk (Some Samples.stored)).
  reflexivity.
Defined.

(** X26.  A configuration from the manager passes the checks of the
    analyzers.  With a configuration that [getConfig] returned, the scan
    of a directory path that is not empty never fails with a
    [ConfigurationError] or a [ValidationError]: a failure is an
    [AIAnalysisError] or an [InsightGenerationError]. *)
Theorem X26_config_scan (calls : list ConfigManager.Call)
        (host : ConfigManager.Host) (c : ConfigManager.Candidate) :
  fst (ConfigManager.getConfig host (ConfigManager.afterAll calls)) = Ok (Some c) ->
  exists config,
    ConfigManager.toConfig c = Some config
    /\ forall path_join path_relative readFile generateAnalysis
              generateNarrative dir root verbose t,
         dir <> "" ->
         outcome (Cli.scanDirectoryForVulnerabilities path_join path_relative
                    readFile generateAnalysis generateNarrative (Some config)
                    dir root verbose) = Throw t ->
         exists msg cause,
           t = ThrownError (AIAnalysisError msg cause)
           \/ t = ThrownError (InsightGenerationError msg cause).
Proof.
  intros H. apply getConfig_returns in H.
  pose proof (getConfig_sound host _ (afterAll_sound calls)) as Hs.
  rewrite H in Hs. cbn [ConfigManager.sound] in Hs.
  apply validateConfig_valid in Hs as (c' & E & H1 & H2). injection E as <-.
  unfold ConfigManager.toConfig.
  destruct (ConfigManager.apiKey c) as [| k]; [discriminate H1 |].
  destruct (ConfigManager.model c) as [| m]; [discriminate H2 |].
  cbn in H1, H2. apply String.eqb_neq in H1, H2.
  eexists. split; [reflexivity |].
  intros pj pr rf genA genN dir root verbose t Hdir Ht.
  apply pipeline_failure in Ht
    as (msg & [[_ E] | [[-> (config & E & Hbad)] | [[cause ->] | [cause ->]]]]).
  - discriminate E.
  - injection E as <-. cbn in Hbad. exfalso. intuition congruence.
  - eauto.
  - eauto.
Qed.

Lemma X26_config_scan_witness :
  exists config,
    ConfigManager.toConfig Samples.stored = Some config
    /\ forall path_join path_relative readFile generateAnalysis
              generateNarrative dir root verbose t,
         dir <> "" ->
         outcome (Cli.scanDirectoryForVulnerabilities path_join path_relative
                    readFile generateAnalysis generateNarrative (Some config)
                    dir root verbose) = Throw t ->
         exists msg cause,
           t = ThrownError (AIAnalysisError msg cause)
           \/ t = ThrownError (InsightGenerationError msg cause).
Proof.
  apply (X26_config_scan [] Samples.disk Samples.stored).
  reflexivity.
Defined.
